(** * pysana: a shallow embedding of [asana.py]

    The module is a Python 2 client for the Asana REST API.  It has two
    layers: a transport layer ([AsanaClient]: [get], [post], [put], the status
    check and the unwrapping of the JSON envelope) and a resource layer (the
    classes [User], [Task], [Workspace], [Tag], [Project], [Story]).

    The embedding is a state-and-exception monad over
    - a heap of resource objects (Python objects have identity and are
      mutated by their property setters), and
    - the log of the HTTP requests sent so far.
    What the interpreter and the remote service do (the size of an [int],
    rendering of compound values by [str], [datetime.strptime], the answers
    of the server) is read from an [environment]; every theorem holds for
    all environments.

    Debug printing ([self.debug]) writes to standard output only and is not
    part of the model. *)

From Stdlib Require Import QArith Qcanon Ascii String.
From stdpp Require Import base numbers list strings pretty.

Open Scope string_scope.

(** ** Python values *)

Definition addr := nat.

Record datetime := Datetime {
  year : Z; month : Z; day : Z;
  hour : Z; minute : Z; second : Z; microsecond : Z
}.

(** The values the program handles: what [json] decoding yields ([None],
    booleans, numbers, text, lists, dictionaries keyed by text), the byte
    strings of the program's own literals and of its callers ([VStr]; decoded
    JSON text is [unicode], a different type for [isinstance]), the
    [datetime] values the constructors build, and references to resource
    objects.  A float is kept as the rational it denotes. *)
#[warnings="-register-all"]
Inductive value :=
| VNone
| VBool (b : bool)
| VInt (z : Z)
| VFloat (q : Qc)
| VStr (s : string)
| VUnicode (s : string)
| VList (l : list value)
| VDict (d : list (string * value))
| VDatetime (d : datetime)
| VObj (a : addr).

(** A dictionary with text keys, in insertion order. *)
Abbreviation dict := (list (string * value)).

Fixpoint dict_get (k : string) (d : dict) : option value :=
  match d with
  | [] => None
  | (k', v) :: d' => if String.eqb k k' then Some v else dict_get k d'
  end.

(** [d[k] = v]: overwrite in place, or add at the end. *)
Fixpoint dict_set (k : string) (v : value) (d : dict) : dict :=
  match d with
  | [] => [(k, v)]
  | (k', v') :: d' =>
      if String.eqb k k' then (k, v) :: d' else (k', v') :: dict_set k v d'
  end.

(** [dict(pairs)]: later pairs win. *)
Definition dict_of_items (items : list (string * value)) : dict :=
  fold_left (fun d kv => dict_set (fst kv) (snd kv) d) items [].

(** Truth value of a Python value ([if v:]).  The resource classes define
    neither [__nonzero__] nor [__len__], so an object is always true. *)
Definition py_truthy (v : value) : bool :=
  match v with
  | VNone => false
  | VBool b => b
  | VInt z => negb (z =? 0)%Z
  | VFloat q => negb (bool_decide (q = 0%Qc))
  | VStr s | VUnicode s => negb (String.eqb s "")
  | VList l => match l with [] => false | _ => true end
  | VDict d => match d with [] => false | _ => true end
  | VDatetime _ => true
  | VObj _ => true
  end.

(** [isinstance(v, int)].  Python 2 has two integer types: an integer is
    an [int] when it fits in a machine word, between [-sys.maxint - 1] and
    [sys.maxint], and a [long] otherwise, which is not an instance of
    [int].  [VInt z] stands for the integer [z] as literals, arithmetic
    and [json] decoding produce it, an [int] exactly when it fits.  [bool]
    is a subclass of [int]. *)
Definition isinstance_int (maxint : Z) (v : value) : bool :=
  match v with
  | VInt z => (- maxint - 1 <=? z)%Z && (z <=? maxint)%Z
  | VBool _ => true
  | _ => false
  end.

(** [isinstance(v, str)]. *)
Definition isinstance_str (v : value) : bool :=
  match v with VStr _ => true | _ => false end.

(** [v == 'lit'] for a literal of the program: text compares by content. *)
Definition py_eq_str (v : value) (lit : string) : bool :=
  match v with
  | VStr s | VUnicode s => String.eqb s lit
  | _ => false
  end.

(** [v in [lit1, lit2, ...]] *)
Definition py_in_strs (v : value) (lits : list string) : bool :=
  existsb (py_eq_str v) lits.

(** [str(v)]: exact on [None], booleans, integers and text (text is taken
    to be ASCII, on which [str] is the identity); the rendering of floats,
    containers, datetimes and objects is the interpreter's ([repr]). *)
Definition py_str (repr : value -> string) (v : value) : string :=
  match v with
  | VNone => "None"
  | VBool true => "True"
  | VBool false => "False"
  | VInt z => pretty z
  | VStr s | VUnicode s => s
  | _ => repr v
  end.

(** [sep.join(parts)] *)
Fixpoint join (sep : string) (parts : list string) : string :=
  match parts with
  | [] => ""
  | [p] => p
  | p :: ps => p ++ sep ++ join sep ps
  end.

(** [s.replace(c, by)] for a one-character pattern. *)
Fixpoint replace_char (c : Ascii.ascii) (by_ : string) (s : string) : string :=
  match s with
  | EmptyString => EmptyString
  | String a s' =>
      if Ascii.eqb a c then by_ ++ replace_char c by_ s'
      else String a (replace_char c by_ s')
  end.

(** [s.split(c)[0]]: the text before the first [c]. *)
Fixpoint split_head (c : Ascii.ascii) (s : string) : string :=
  match s with
  | EmptyString => EmptyString
  | String a s' => if Ascii.eqb a c then EmptyString else String a (split_head c s')
  end.

(** ** Exceptions *)

Inductive exn :=
| AsanaError (msg : string) (args : list value)
    (** [AsanaError(msg, *args)], the module's own exception class *)
| KeyError (key : string)
| IndexError
| TypeError
| AttributeError (attr : string)
| NameError (name : string)
| UnboundLocalError (name : string)
| ValueError
| RuntimeError          (** maximum recursion depth exceeded *)
| RequestException.     (** raised by [requests] when no response arrives *)

Definition is_AsanaError (e : exn) : bool :=
  match e with AsanaError _ _ => true | _ => false end.

Inductive outcome (A : Type) :=
| Ret (a : A)
| Raise (e : exn).
Arguments Ret {A} a.
Arguments Raise {A} e.

(** [v[k]] for a text key. *)
Definition getitem (v : value) (k : string) : outcome value :=
  match v with
  | VDict d => match dict_get k d with Some x => Ret x | None => Raise (KeyError k) end
  | _ => Raise TypeError
  end.

(** [v[0]] *)
Definition getitem0 (v : value) : outcome value :=
  match v with
  | VList l => match l with x :: _ => Ret x | [] => Raise IndexError end
  | VStr s => match s with String a _ => Ret (VStr (String a "")) | _ => Raise IndexError end
  | VUnicode s => match s with String a _ => Ret (VUnicode (String a "")) | _ => Raise IndexError end
  | VDict _ => Raise (KeyError "0")
  | _ => Raise TypeError
  end.

(** [for elt in v]: the elements a comprehension iterates over.  A
    dictionary yields its keys, text its characters. *)
Definition py_iter (v : value) : outcome (list value) :=
  match v with
  | VList l => Ret l
  | VDict d => Ret (map (fun kv => VUnicode (fst kv)) d)
  | VStr s => Ret (map (fun a => VStr (String a "")) (String.list_ascii_of_string s))
  | VUnicode s => Ret (map (fun a => VUnicode (String a "")) (String.list_ascii_of_string s))
  | _ => Raise TypeError
  end.

(** ** The transport's view of HTTP *)

Inductive http_method := GET | POST | PUT.

Record request := Request {
  rq_method : http_method;
  rq_target : string;
  rq_auth : string * string;
  rq_data : option dict          (** [data=...]; [None] when not passed *)
}.

(** What the program reads of a [requests] response. *)
Record response := Response {
  status_code : Z;
  content_type : option string;  (** [r.headers['content-type']] *)
  json : value                   (** [r.json]: [None] when the body is not JSON *)
}.

Inductive net_result :=
| Responded (r : response)
| NetworkFailure.

(** ** Resource objects *)

Record Asana := {
  asana_url : string;
  api_version : string;
  aurl : string;
  api_key : string;
  debug : bool
}.

(** [AsanaClient.__init__] *)
Definition AsanaClient_init (api_key : string) (debug : bool) : Asana :=
  let asana_url := "https://app.asana.com/api" in
  let api_version := "1.0" in
  {| asana_url := asana_url;
     api_version := api_version;
     aurl := join "/" [asana_url; api_version];
     api_key := api_key;
     debug := debug |}.

Record User := {
  User_api : Asana;
  User__name : value;
  User__email : value;
  User__id : value
}.

Record Task := {
  Task_api : Asana;
  Task__id : value;
  Task__name : value;
  Task__notes : value;
  Task__assignee_status : value;
  Task__created_at : value;
  Task__modified_at : value;
  Task__completed_at : value;
  Task__completed : value;
  Task__due_on : value;
  Task__tags : value;
  Task__projects : value;
  Task__workspace : value
}.

Record Workspace := {
  Workspace_api : Asana;
  Workspace__id : value;
  Workspace__name : value
}.

Record Tag := {
  Tag_api : Asana;
  Tag__id : value;
  Tag__name : value;
  Tag__notes : value;
  Tag__created_at : value;
  Tag__workspace : value
}.

Record Project := {
  Project_api : Asana;
  Project__id : value;
  Project__name : value;
  Project__notes : value;
  Project__archived : value;
  Project__created_at : value;
  Project__modified_at : value;
  Project__workspace : value
}.

Record Story := {
  Story_api : Asana;
  Story__id : value;
  Story__text : value;
  Story__source : value;
  Story__story_type : value;
  Story__created_at : value
}.

Inductive object :=
| OUser (u : User)
| OTask (t : Task)
| OWorkspace (ws : Workspace)
| OTag (t : Tag)
| OProject (p : Project)
| OStory (s : Story).

(** [self.resrc], fixed by each constructor. *)
Definition User_resrc := "users".
Definition Task_resrc := "tasks".
Definition Workspace_resrc := "workspaces".
Definition Tag_resrc := "tags".
Definition Project_resrc := "projects".
Definition Story_resrc := "stories".

(** The [id] property, which every resource class defines as [self._id]. *)
Definition object_id (o : object) : value :=
  match o with
  | OUser u => User__id u
  | OTask t => Task__id t
  | OWorkspace ws => Workspace__id ws
  | OTag t => Tag__id t
  | OProject p => Project__id p
  | OStory s => Story__id s
  end.

(** ** The world and the monad *)

Record world := World {
  heap : list object;
  log : list request
}.

Record environment := {
  sys_maxint : Z;
    (** the largest [int] of the platform, [sys.maxint] *)
  py_repr : value -> string;
    (** the interpreter's rendering of the values [py_str] leaves to it *)
  strptime : string -> string -> option datetime;
    (** [datetime.datetime.strptime]; [None] is its [ValueError] *)
  remote : list request -> request -> net_result
    (** the service: its answer to a request, given the requests before it *)
}.

Definition M (A : Type) : Type := environment -> world -> outcome A * world.

Definition ret {A} (a : A) : M A := fun _ w => (Ret a, w).

Definition bind {A B} (m : M A) (k : A -> M B) : M B :=
  fun E w =>
    match m E w with
    | (Ret a, w') => k a E w'
    | (Raise e, w') => (Raise e, w')
    end.

Definition raise {A} (e : exn) : M A := fun _ w => (Raise e, w).

Definition lift {A} (o : outcome A) : M A := fun _ w => (o, w).

Notation "x <- m ;; k" := (bind m (fun x => k))
  (at level 100, m at next level, right associativity,
   format "'[v' x  <-  m  ;;  '/' k ']'").
Notation "m ;;; k" := (bind m (fun _ => k))
  (at level 100, right associativity,
   format "'[v' m  ;;;  '/' k ']'").

(** [str(v)] and ['%s' % v] in the current interpreter. *)
Definition str_ (v : value) : M string :=
  fun E w => (Ret (py_str (py_repr E) v), w).

(** Allocation of a new object; its address is its identity. *)
Definition new (o : object) : M value :=
  fun _ w => (Ret (VObj (length (heap w))),
              {| heap := heap w ++ [o]; log := log w |}).

Definition deref (a : addr) : M object :=
  fun _ w => match heap w !! a with
             | Some o => (Ret o, w)
             | None => (Raise TypeError, w)
             end.

Definition store (a : addr) (o : object) : M unit :=
  fun _ w => (Ret tt, {| heap := <[a := o]> (heap w); log := log w |}).

(** [requests.get], [requests.post], [requests.put]: the request goes on
    the wire, then the service answers. *)
Definition requests_send (m : http_method) (target : string)
    (auth : string * string) (data : option dict) : M response :=
  fun E w =>
    let rq := Request m target auth data in
    let w' := {| heap := heap w; log := log w ++ [rq] |} in
    match remote E (log w) rq with
    | Responded r => (Ret r, w')
    | NetworkFailure => (Raise RequestException, w')
    end.

(** ** Transport layer: [AsanaClient] *)

(** [AsanaClient._check_http_status].  In the branch for status 500 the
    source builds its message from the name [ph], which is bound nowhere:
    evaluating the arguments of the [raise] fails with a [NameError]. *)
Definition _check_http_status (r : response) : M unit :=
  let sc := status_code r in
  if Z.eqb sc 200 || Z.eqb sc 201 then ret tt
  else
    errors <- lift (getitem (json r) "errors") ;;
    first <- lift (getitem0 errors) ;;
    error_message <- lift (getitem first "message") ;;
    if existsb (Z.eqb sc) [400; 401; 403; 404; 429]%Z then
      s_sc <- str_ (VInt (status_code r)) ;;
      s_msg <- str_ error_message ;;
      raise (AsanaError ("Error: HTTP Status " ++ s_sc ++ ": " ++ s_msg) [])
    else if Z.eqb sc 500 then
      errors <- lift (getitem (json r) "errors") ;;
      first <- lift (getitem0 errors) ;;
      phrase <- lift (getitem first "phrase") ;;
      raise (NameError "ph")
    else ret tt.

(** [str(r)] of a [requests] response. *)
Definition response_str (r : response) : string :=
  "<Response [" ++ pretty (status_code r) ++ "]>".

(** [AsanaClient._handle_response] *)
Definition _handle_response (r : response) : M value :=
  match content_type r with
  | None => raise (KeyError "content-type")
  | Some ct =>
      if String.eqb (split_head ";"%char ct) "application/json" then
        lift (getitem (json r) "data")
      else
        raise (AsanaError ("Did not receive json from api: " ++ response_str r) [])
  end.

(** [AsanaClient.get] *)
Definition get (self : Asana) (resource : string) (endpoint : value) : M value :=
  let target := join "/" [aurl self; resource] in
  target <- (if py_truthy endpoint
             then e <- str_ endpoint ;; ret (join "/" [target; e])
             else ret target) ;;
  r <- requests_send GET target (api_key self, "") None ;;
  _check_http_status r ;;;
  _handle_response r.

(** [AsanaClient.post] *)
Definition post (self : Asana) (resource : string) (endpoint : value)
    (data : dict) : M value :=
  let target := join "/" [aurl self; resource] in
  target <- (if py_truthy endpoint
             then e <- str_ endpoint ;; ret (join "/" [target; e])
             else ret target) ;;
  r <- requests_send POST target (api_key self, "") (Some data) ;;
  _check_http_status r ;;;
  _handle_response r.

(** [AsanaClient.put] *)
Definition put (self : Asana) (resource : string) (endpoint : value)
    (data : dict) : M value :=
  let target := join "/" [aurl self; resource] in
  target <- (if py_truthy endpoint
             then e <- str_ endpoint ;; ret (join "/" [target; e])
             else ret target) ;;
  r <- requests_send PUT target (api_key self, "") (Some data) ;;
  _check_http_status r ;;;
  _handle_response r.

(** ['%s<suffix>' % v], the sub-paths the resource layer builds. *)
Definition fmt_suffix (v : value) (suffix : string) : M value :=
  s <- str_ v ;; ret (VStr (s ++ suffix)).

(** ** Resource layer: constructors

    An object becomes reachable only when its constructor returns, so the
    embedding allocates it at that point, with all its attributes. *)

(** [AsanaResource._utcstr_to_datetime] *)
Definition _utcstr_to_datetime (timestamp : value) : M value :=
  match timestamp with
  | VStr s | VUnicode s =>
      let timestamp := replace_char "Z"%char "" (replace_char "T"%char " " s) in
      fun E w =>
        match strptime E timestamp "%Y-%m-%d %H:%M:%S.%f" with
        | Some d => (Ret (VDatetime d), w)
        | None => (Raise ValueError, w)
        end
  | VDatetime _ => raise TypeError
  | _ => raise (AttributeError "replace")
  end.

(** [User.__init__]; [user_id] defaults to ['me']. *)
Definition User_init (api : Asana) (user_id : value) : M value :=
  jr <- get api User_resrc user_id ;;
  name <- lift (getitem jr "name") ;;
  email <- lift (getitem jr "email") ;;
  id <- lift (getitem jr "id") ;;
  new (OUser {| User_api := api; User__name := name;
                User__email := email; User__id := id |}).

(** [Workspace.__init__] *)
Definition Workspace_init (api : Asana) (workspace_id : value) : M value :=
  jr <- get api Workspace_resrc workspace_id ;;
  id <- lift (getitem jr "id") ;;
  name <- lift (getitem jr "name") ;;
  new (OWorkspace {| Workspace_api := api; Workspace__id := id;
                     Workspace__name := name |}).

(** [Story.__init__] *)
Definition Story_init (api : Asana) (story_id : value) : M value :=
  jr <- get api Story_resrc story_id ;;
  id <- lift (getitem jr "id") ;;
  text <- lift (getitem jr "text") ;;
  source <- lift (getitem jr "source") ;;
  story_type <- lift (getitem jr "type") ;;
  created <- lift (getitem jr "created_at") ;;
  created_at <- _utcstr_to_datetime created ;;
  new (OStory {| Story_api := api; Story__id := id; Story__text := text;
                 Story__source := source; Story__story_type := story_type;
                 Story__created_at := created_at |}).

(** [Task.__init__]; [task_id], [workspace_id] and [parent_id] default to
    [None], [kwargs] collects the other named arguments. *)
Definition Task_init (api : Asana) (task_id workspace_id parent_id : value)
    (kwargs : dict) : M value :=
  (if (py_truthy task_id && py_truthy workspace_id)
      || (py_truthy workspace_id && py_truthy parent_id)
      || (py_truthy task_id && py_truthy parent_id)
   then raise (AsanaError ("A Task must be created with exactly one " ++
                           "of task_id, workspace_id, or parent_id") [])
   else if py_truthy task_id && py_truthy (VDict kwargs)
   then raise (AsanaError "Bad arguments" [])
   else ret tt) ;;;
  jr <- (if py_truthy task_id then
           get api Task_resrc task_id
         else if py_truthy workspace_id then
           let merged_post_params :=
             dict_of_items ([("workspace", workspace_id)] ++ kwargs) in
           post api Task_resrc (VStr "") merged_post_params
         else if py_truthy parent_id then
           endpoint <- fmt_suffix parent_id "/subtasks" ;;
           post api Task_resrc endpoint kwargs
         else raise (AsanaError "Bug encountered." [])) ;;
  let date_frmtr d := if py_truthy d then _utcstr_to_datetime d else ret VNone in
  id <- lift (getitem jr "id") ;;
  name <- lift (getitem jr "name") ;;
  notes <- lift (getitem jr "notes") ;;
  assignee_status <- lift (getitem jr "assignee_status") ;;
  created <- lift (getitem jr "created_at") ;;
  created_at <- _utcstr_to_datetime created ;;
  modified <- lift (getitem jr "modified_at") ;;
  modified_at <- _utcstr_to_datetime modified ;;
  completed_at0 <- lift (getitem jr "completed_at") ;;
  completed_at <- date_frmtr completed_at0 ;;
  completed <- lift (getitem jr "completed") ;;
  due_on <- lift (getitem jr "due_on") ;;
  tags <- lift (getitem jr "tags") ;;
  projects <- lift (getitem jr "projects") ;;
  new (OTask {| Task_api := api; Task__id := id; Task__name := name;
                Task__notes := notes;
                Task__assignee_status := assignee_status;
                Task__created_at := created_at;
                Task__modified_at := modified_at;
                Task__completed_at := completed_at;
                Task__completed := completed; Task__due_on := due_on;
                Task__tags := tags; Task__projects := projects;
                Task__workspace := VNone |}).

(** [payload[k] = v] when [v] is true, as the creation branches of
    [Tag.__init__] and [Project.__init__] do for each optional field. *)
Definition set_if (k : string) (v : value) (payload : dict) : dict :=
  if py_truthy v then dict_set k v payload else payload.

(** [Tag.__init__]; every argument defaults to [None].  When neither
    [tag_id] nor [workspace_id] is true no branch binds [jr], and the first
    read of it fails. *)
Definition Tag_init (api : Asana) (tag_id workspace_id name notes : value)
    : M value :=
  (if py_truthy tag_id && py_truthy workspace_id
   then raise (AsanaError "Requires a tag_id or workspace_id (not both)." [])
   else ret tt) ;;;
  jr <- (if (py_truthy workspace_id && py_truthy tag_id)
            || (py_truthy tag_id && (py_truthy name || py_truthy notes))
         then raise (AsanaError "Bad Arguments." [])
         else if py_truthy tag_id then
           jr <- get api Tag_resrc tag_id ;; ret (Some jr)
         else if py_truthy workspace_id then
           let payload := [("workspace", workspace_id)] in
           let payload := set_if "name" name payload in
           let payload := set_if "notes" notes payload in
           jr <- post api Tag_resrc (VStr "") payload ;; ret (Some jr)
         else ret None) ;;
  jr <- match jr with
        | Some jr => ret jr
        | None => raise (UnboundLocalError "jr")
        end ;;
  id <- lift (getitem jr "id") ;;
  name <- lift (getitem jr "name") ;;
  notes <- lift (getitem jr "notes") ;;
  created <- lift (getitem jr "created_at") ;;
  created_at <- _utcstr_to_datetime created ;;
  new (OTag {| Tag_api := api; Tag__id := id; Tag__name := name;
               Tag__notes := notes; Tag__created_at := created_at;
               Tag__workspace := VNone |}).

(** [Project.__init__]; every argument defaults to [None]. *)
Definition Project_init (api : Asana)
    (project_id workspace_id name notes archived : value) : M value :=
  jr <- (if py_truthy project_id && py_truthy workspace_id
         then raise (AsanaError "Bad Arguments" [])
         else if py_truthy project_id
                 && (py_truthy name || py_truthy notes || py_truthy archived)
         then raise (AsanaError "Bad Arguments" [])
         else if py_truthy project_id then
           jr <- get api Project_resrc project_id ;; ret (Some jr)
         else if py_truthy workspace_id then
           let payload := [("workspace", workspace_id)] in
           let payload := set_if "name" name payload in
           let payload := set_if "notes" notes payload in
           let payload := set_if "archived" archived payload in
           jr <- post api Project_resrc (VStr "") payload ;; ret (Some jr)
         else ret None) ;;
  jr <- match jr with
        | Some jr => ret jr
        | None => raise (UnboundLocalError "jr")
        end ;;
  id <- lift (getitem jr "id") ;;
  name <- lift (getitem jr "name") ;;
  notes <- lift (getitem jr "notes") ;;
  archived <- lift (getitem jr "archived") ;;
  created <- lift (getitem jr "created_at") ;;
  created_at <- _utcstr_to_datetime created ;;
  modified <- lift (getitem jr "modified_at") ;;
  modified_at <- _utcstr_to_datetime modified ;;
  new (OProject {| Project_api := api; Project__id := id;
                   Project__name := name; Project__notes := notes;
                   Project__archived := archived;
                   Project__created_at := created_at;
                   Project__modified_at := modified_at;
                   Project__workspace := VNone |}).

(** ** Resource layer: access to [self] and small helpers *)

(** A method runs on an instance of its own class; anything else is the
    interpreter's [TypeError] for a call on the wrong receiver. *)
Definition self_User (self : addr) : M User :=
  o <- deref self ;; match o with OUser u => ret u | _ => raise TypeError end.
Definition self_Task (self : addr) : M Task :=
  o <- deref self ;; match o with OTask t => ret t | _ => raise TypeError end.
Definition self_Workspace (self : addr) : M Workspace :=
  o <- deref self ;; match o with OWorkspace x => ret x | _ => raise TypeError end.
Definition self_Tag (self : addr) : M Tag :=
  o <- deref self ;; match o with OTag t => ret t | _ => raise TypeError end.
Definition self_Project (self : addr) : M Project :=
  o <- deref self ;; match o with OProject p => ret p | _ => raise TypeError end.
Definition self_Story (self : addr) : M Story :=
  o <- deref self ;; match o with OStory s => ret s | _ => raise TypeError end.

(** [v.id]: only resource objects have the attribute. *)
Definition getattr_id (v : value) : M value :=
  match v with
  | VObj a => o <- deref a ;; ret (object_id o)
  | _ => raise (AttributeError "id")
  end.

(** [try: body / except AttributeError: raise e] *)
Definition except_AttributeError {A} (body : M A) (e : exn) : M A :=
  fun E w =>
    match body E w with
    | (Raise (AttributeError _), w') => (Raise e, w')
    | r => r
    end.

(** [isinstance(v, Tag)] and [isinstance(v, Project)] *)
Definition isinstance_Tag (v : value) : M bool :=
  fun _ w =>
    (Ret match v with
         | VObj a => match heap w !! a with Some (OTag _) => true | _ => false end
         | _ => false
         end, w).
Definition isinstance_Project (v : value) : M bool :=
  fun _ w =>
    (Ret match v with
         | VObj a => match heap w !! a with Some (OProject _) => true | _ => false end
         | _ => false
         end, w).

Fixpoint mapM {A B} (f : A -> M B) (l : list A) : M (list B) :=
  match l with
  | [] => ret []
  | x :: xs => y <- f x ;; ys <- mapM f xs ;; ret (y :: ys)
  end.

(** [[ctor(elt['id']) for elt in iterable]] *)
Definition wrap_each (ctor : value -> M value) (iterable : value) : M value :=
  elts <- lift (py_iter iterable) ;;
  objs <- mapM (fun elt => id <- lift (getitem elt "id") ;; ctor id) elts ;;
  ret (VList objs).

(** Attribute assignment [self._x = v], one function per attribute that
    the program assigns after construction. *)
Definition Task_set__name (v : value) (t : Task) : Task :=
  {| Task_api := Task_api t; Task__id := Task__id t; Task__name := v;
     Task__notes := Task__notes t;
     Task__assignee_status := Task__assignee_status t;
     Task__created_at := Task__created_at t;
     Task__modified_at := Task__modified_at t;
     Task__completed_at := Task__completed_at t;
     Task__completed := Task__completed t; Task__due_on := Task__due_on t;
     Task__tags := Task__tags t; Task__projects := Task__projects t;
     Task__workspace := Task__workspace t |}.
Definition Task_set__notes (v : value) (t : Task) : Task :=
  {| Task_api := Task_api t; Task__id := Task__id t;
     Task__name := Task__name t; Task__notes := v;
     Task__assignee_status := Task__assignee_status t;
     Task__created_at := Task__created_at t;
     Task__modified_at := Task__modified_at t;
     Task__completed_at := Task__completed_at t;
     Task__completed := Task__completed t; Task__due_on := Task__due_on t;
     Task__tags := Task__tags t; Task__projects := Task__projects t;
     Task__workspace := Task__workspace t |}.
Definition Task_set__completed (v : value) (t : Task) : Task :=
  {| Task_api := Task_api t; Task__id := Task__id t;
     Task__name := Task__name t; Task__notes := Task__notes t;
     Task__assignee_status := Task__assignee_status t;
     Task__created_at := Task__created_at t;
     Task__modified_at := Task__modified_at t;
     Task__completed_at := Task__completed_at t;
     Task__completed := v; Task__due_on := Task__due_on t;
     Task__tags := Task__tags t; Task__projects := Task__projects t;
     Task__workspace := Task__workspace t |}.
Definition Task_set__assignee_status (v : value) (t : Task) : Task :=
  {| Task_api := Task_api t; Task__id := Task__id t;
     Task__name := Task__name t; Task__notes := Task__notes t;
     Task__assignee_status := v;
     Task__created_at := Task__created_at t;
     Task__modified_at := Task__modified_at t;
     Task__completed_at := Task__completed_at t;
     Task__completed := Task__completed t; Task__due_on := Task__due_on t;
     Task__tags := Task__tags t; Task__projects := Task__projects t;
     Task__workspace := Task__workspace t |}.
Definition Workspace_set__name (v : value) (x : Workspace) : Workspace :=
  {| Workspace_api := Workspace_api x; Workspace__id := Workspace__id x;
     Workspace__name := v |}.
Definition Tag_set__name (v : value) (t : Tag) : Tag :=
  {| Tag_api := Tag_api t; Tag__id := Tag__id t; Tag__name := v;
     Tag__notes := Tag__notes t; Tag__created_at := Tag__created_at t;
     Tag__workspace := Tag__workspace t |}.
Definition Tag_set__notes (v : value) (t : Tag) : Tag :=
  {| Tag_api := Tag_api t; Tag__id := Tag__id t; Tag__name := Tag__name t;
     Tag__notes := v; Tag__created_at := Tag__created_at t;
     Tag__workspace := Tag__workspace t |}.
Definition Tag_set__workspace (v : value) (t : Tag) : Tag :=
  {| Tag_api := Tag_api t; Tag__id := Tag__id t; Tag__name := Tag__name t;
     Tag__notes := Tag__notes t; Tag__created_at := Tag__created_at t;
     Tag__workspace := v |}.
Definition Project_set__name (v : value) (p : Project) : Project :=
  {| Project_api := Project_api p; Project__id := Project__id p;
     Project__name := v; Project__notes := Project__notes p;
     Project__archived := Project__archived p;
     Project__created_at := Project__created_at p;
     Project__modified_at := Project__modified_at p;
     Project__workspace := Project__workspace p |}.
Definition Project_set__notes (v : value) (p : Project) : Project :=
  {| Project_api := Project_api p; Project__id := Project__id p;
     Project__name := Project__name p; Project__notes := v;
     Project__archived := Project__archived p;
     Project__created_at := Project__created_at p;
     Project__modified_at := Project__modified_at p;
     Project__workspace := Project__workspace p |}.
Definition Project_set__archived (v : value) (p : Project) : Project :=
  {| Project_api := Project_api p; Project__id := Project__id p;
     Project__name := Project__name p; Project__notes := Project__notes p;
     Project__archived := v;
     Project__created_at := Project__created_at p;
     Project__modified_at := Project__modified_at p;
     Project__workspace := Project__workspace p |}.
Definition Project_set__workspace (v : value) (p : Project) : Project :=
  {| Project_api := Project_api p; Project__id := Project__id p;
     Project__name := Project__name p; Project__notes := Project__notes p;
     Project__archived := Project__archived p;
     Project__created_at := Project__created_at p;
     Project__modified_at := Project__modified_at p;
     Project__workspace := v |}.

(** ** Resource layer: [User], [Story] *)

(** [User.workspaces] *)
Definition User_workspaces (self : addr) : M value :=
  u <- self_User self ;;
  jr <- get (User_api u) User_resrc (User__id u) ;;
  workspaces <- lift (getitem jr "workspaces") ;;
  wrap_each (Workspace_init (User_api u)) workspaces.

(** [Story.created_by] *)
Definition Story_created_by (self : addr) : M value :=
  s <- self_Story self ;;
  jr <- get (Story_api s) Story_resrc (Story__id s) ;;
  created_by <- lift (getitem jr "created_by") ;;
  id <- lift (getitem created_by "id") ;;
  User_init (Story_api s) id.

(** ** Resource layer: [Task] *)

(** [Task.parent] *)
Definition Task_parent (self : addr) : M value :=
  t <- self_Task self ;;
  jr <- get (Task_api t) Task_resrc (Task__id t) ;;
  parent <- lift (getitem jr "parent") ;;
  if py_truthy parent then
    id <- lift (getitem parent "id") ;;
    User_init (Task_api t) id
  else ret VNone.

(** [Task.workspace] *)
Definition Task_workspace (self : addr) : M value :=
  t <- self_Task self ;;
  jr <- get (Task_api t) Task_resrc (Task__id t) ;;
  workspace <- lift (getitem jr "workspace") ;;
  id <- lift (getitem workspace "id") ;;
  Workspace_init (Task_api t) id.

(** [Task.assignee] (the getter) *)
Definition Task_assignee (self : addr) : M value :=
  t <- self_Task self ;;
  jr <- get (Task_api t) Task_resrc (Task__id t) ;;
  assignee <- lift (getitem jr "assignee") ;;
  if py_truthy assignee then
    id <- lift (getitem assignee "id") ;;
    User_init (Task_api t) id
  else ret VNone.

(** [Task.followers] *)
Definition Task_followers (self : addr) : M value :=
  t <- self_Task self ;;
  jr <- get (Task_api t) Task_resrc (Task__id t) ;;
  followers <- lift (getitem jr "followers") ;;
  if py_truthy followers then wrap_each (User_init (Task_api t)) followers
  else ret (VList []).

(** [Task.projects] *)
Definition Task_projects (self : addr) : M value :=
  t <- self_Task self ;;
  jr <- get (Task_api t) Task_resrc (Task__id t) ;;
  projects <- lift (getitem jr "projects") ;;
  if py_truthy projects then
    wrap_each (fun id => Project_init (Task_api t) id VNone VNone VNone VNone)
              projects
  else ret (VList []).

(** [Task.tags] *)
Definition Task_tags (self : addr) : M value :=
  t <- self_Task self ;;
  endpoint <- fmt_suffix (Task__id t) "/tags" ;;
  jr <- get (Task_api t) Task_resrc endpoint ;;
  wrap_each (fun id => Tag_init (Task_api t) id VNone VNone VNone) jr.

(** [Task.subtasks] *)
Definition Task_subtasks (self : addr) : M value :=
  t <- self_Task self ;;
  endpoint <- fmt_suffix (Task__id t) "/subtasks" ;;
  jr <- get (Task_api t) Task_resrc endpoint ;;
  wrap_each (fun id => Task_init (Task_api t) id VNone VNone []) jr.

(** [Task.comments] *)
Definition Task_comments (self : addr) : M value :=
  t <- self_Task self ;;
  endpoint <- fmt_suffix (Task__id t) "/stories" ;;
  jr <- get (Task_api t) Task_resrc endpoint ;;
  wrap_each (Story_init (Task_api t)) jr.

(** [Task.assignee] (the setter).  Its last statement, [self.assignee =
    user], is an assignment to the property itself and so calls the setter
    again.  [depth] is the number of frames the interpreter still allows;
    when none is left the call fails with the interpreter's [RuntimeError]
    (maximum recursion depth exceeded). *)
Fixpoint Task_assignee_setter (depth : nat) (self : addr) (user : value)
    : M unit :=
  match depth with
  | O => raise RuntimeError
  | S depth' =>
      t <- self_Task self ;;
      user_id <- except_AttributeError (getattr_id user)
                   (AsanaError "Requires a User object." [user]) ;;
      put (Task_api t) Task_resrc (Task__id t) [("assignee", user_id)] ;;;
      Task_assignee_setter depth' self user
  end.

(** [Task.assignee_status] (the setter) *)
Definition Task_assignee_status_setter (self : addr) (status : value) : M unit :=
  t <- self_Task self ;;
  let ok_status := ["upcoming"; "inbox"; "later"; "today"; "upcoming"] in
  (if negb (py_in_strs status ok_status) then
     let s := join "," ok_status in
     raise (AsanaError ("status must be one of {" ++ s ++ "}") [])
   else ret tt) ;;;
  put (Task_api t) Task_resrc (Task__id t) [("status", status)] ;;;
  store self (OTask (Task_set__assignee_status status t)).

(** [Task.name] (the setter) *)
Definition Task_name_setter (self : addr) (name : value) : M unit :=
  t <- self_Task self ;;
  put (Task_api t) Task_resrc (Task__id t) [("name", name)] ;;;
  store self (OTask (Task_set__name name t)).

(** [Task.notes] (the setter) *)
Definition Task_notes_setter (self : addr) (notes : value) : M unit :=
  t <- self_Task self ;;
  put (Task_api t) Task_resrc (Task__id t) [("notes", notes)] ;;;
  store self (OTask (Task_set__notes notes t)).

(** [Task.completed] (the setter) *)
Definition Task_completed_setter (self : addr) (completed : value) : M unit :=
  t <- self_Task self ;;
  put (Task_api t) Task_resrc (Task__id t) [("completed", completed)] ;;;
  store self (OTask (Task_set__completed completed t)).

(** [isinstance(arg, int)] on the platform of the environment. *)
Definition isinstance_int_ (arg : value) : M bool :=
  fun E w => (Ret (isinstance_int (sys_maxint E) arg), w).

(** [Task._change_obj] *)
Definition Task__change_obj (self : addr) (arg : value) (endpoint : value)
    (datatype : string) : M unit :=
  t <- self_Task self ;;
  is_tag <- isinstance_Tag arg ;;
  is_project <- isinstance_Project arg ;;
  is_int <- isinstance_int_ arg ;;
  if is_int || isinstance_str arg then
    post (Task_api t) Task_resrc endpoint [(datatype, arg)] ;;; ret tt
  else if String.eqb datatype "tag" && is_tag then
    id <- getattr_id arg ;;
    post (Task_api t) Task_resrc endpoint [(datatype, id)] ;;; ret tt
  else if String.eqb datatype "project" && is_project then
    id <- getattr_id arg ;;
    post (Task_api t) Task_resrc endpoint [(datatype, id)] ;;; ret tt
  else
    raise (AsanaError ("Requires an int, str, or " ++ datatype) []).

(** [Task.add_project] *)
Definition Task_add_project (self : addr) (project : value) : M unit :=
  t <- self_Task self ;;
  endpoint <- fmt_suffix (Task__id t) "/addProject" ;;
  Task__change_obj self project endpoint "project".

(** [Task.remove_project] *)
Definition Task_remove_project (self : addr) (project : value) : M unit :=
  t <- self_Task self ;;
  endpoint <- fmt_suffix (Task__id t) "/removeProject" ;;
  Task__change_obj self project endpoint "project".

(** [Task.add_tag] *)
Definition Task_add_tag (self : addr) (tag : value) : M unit :=
  t <- self_Task self ;;
  endpoint <- fmt_suffix (Task__id t) "/addTag" ;;
  Task__change_obj self tag endpoint "tag".

(** [Task.remove_tag] *)
Definition Task_remove_tag (self : addr) (tag : value) : M unit :=
  t <- self_Task self ;;
  endpoint <- fmt_suffix (Task__id t) "/removeTag" ;;
  Task__change_obj self tag endpoint "tag".

(** [Task.add_comment] *)
Definition Task_add_comment (self : addr) (text : value) : M value :=
  t <- self_Task self ;;
  endpoint <- fmt_suffix (Task__id t) "/stories" ;;
  jr <- post (Task_api t) Task_resrc endpoint [("text", text)] ;;
  id <- lift (getitem jr "id") ;;
  Story_init (Task_api t) id.

(** [Task.add_subtask], whose named arguments are collected in [kwargs]:
    the call passes the collected dictionary under the keyword [kwargs]. *)
Definition Task_add_subtask (self : addr) (kwargs : dict) : M value :=
  t <- self_Task self ;;
  Task_init (Task_api t) VNone VNone (Task__id t) [("kwargs", VDict kwargs)].

(** ** Resource layer: [Workspace] *)

(** [Workspace.users] *)
Definition Workspace_users (self : addr) : M value :=
  x <- self_Workspace self ;;
  endpoint <- fmt_suffix (Workspace__id x) "/users" ;;
  jr <- get (Workspace_api x) Workspace_resrc endpoint ;;
  wrap_each (User_init (Workspace_api x)) jr.

(** [Workspace.projects] *)
Definition Workspace_projects (self : addr) : M value :=
  x <- self_Workspace self ;;
  endpoint <- fmt_suffix (Workspace__id x) "/projects" ;;
  jr <- get (Workspace_api x) Workspace_resrc endpoint ;;
  wrap_each (fun id => Project_init (Workspace_api x) id VNone VNone VNone VNone) jr.

(** [Workspace.tags] *)
Definition Workspace_tags (self : addr) : M value :=
  x <- self_Workspace self ;;
  endpoint <- fmt_suffix (Workspace__id x) "/tags" ;;
  jr <- get (Workspace_api x) Workspace_resrc endpoint ;;
  wrap_each (fun id => Tag_init (Workspace_api x) id VNone VNone VNone) jr.

(** [Workspace.name] (the setter) *)
Definition Workspace_name_setter (self : addr) (name : value) : M unit :=
  x <- self_Workspace self ;;
  put (Workspace_api x) Workspace_resrc (Workspace__id x) [("name", name)] ;;;
  store self (OWorkspace (Workspace_set__name name x)).

(** [Workspace.create_project]; [name] and [notes] default to [None],
    [archived] to [False]. *)
Definition Workspace_create_project (self : addr) (name notes archived : value)
    : M value :=
  x <- self_Workspace self ;;
  Project_init (Workspace_api x) VNone (Workspace__id x) name notes archived.

(** [Workspace.create_tag] *)
Definition Workspace_create_tag (self : addr) (name notes : value) : M value :=
  x <- self_Workspace self ;;
  Tag_init (Workspace_api x) VNone (Workspace__id x) name notes.

(** [Workspace.create_task], whose named arguments are collected in
    [kwargs]: the call passes the collected dictionary under the keyword
    [kwargs]. *)
Definition Workspace_create_task (self : addr) (kwargs : dict) : M value :=
  x <- self_Workspace self ;;
  Task_init (Workspace_api x) VNone (Workspace__id x) VNone
            [("kwargs", VDict kwargs)].

(** ** Resource layer: [Tag] *)

(** [Tag.workspace] *)
Definition Tag_workspace (self : addr) : M value :=
  t <- self_Tag self ;;
  (if negb (py_truthy (Tag__workspace t)) then
     jr <- get (Tag_api t) Tag_resrc (Tag__id t) ;;
     workspace <- lift (getitem jr "workspace") ;;
     id <- lift (getitem workspace "id") ;;
     ws <- Workspace_init (Tag_api t) id ;;
     store self (OTag (Tag_set__workspace ws t))
   else ret tt) ;;;
  t <- self_Tag self ;;
  ret (Tag__workspace t).

(** [Tag.followers] *)
Definition Tag_followers (self : addr) : M value :=
  t <- self_Tag self ;;
  jr <- get (Tag_api t) Tag_resrc (Tag__id t) ;;
  followers <- lift (getitem jr "followers") ;;
  wrap_each (User_init (Tag_api t)) followers.

(** [Tag.tasks] *)
Definition Tag_tasks (self : addr) : M value :=
  t <- self_Tag self ;;
  endpoint <- fmt_suffix (Tag__id t) "/tasks" ;;
  jr <- get (Tag_api t) Tag_resrc endpoint ;;
  tasks <- lift (getitem jr "tasks") ;;
  wrap_each (fun id => Tag_init (Tag_api t) id VNone VNone VNone) tasks.

(** [Tag.name] (the setter) *)
Definition Tag_name_setter (self : addr) (name : value) : M unit :=
  t <- self_Tag self ;;
  put (Tag_api t) Tag_resrc (Tag__id t) [("name", name)] ;;;
  store self (OTag (Tag_set__name name t)).

(** [Tag.notes] (the setter) *)
Definition Tag_notes_setter (self : addr) (notes : value) : M unit :=
  t <- self_Tag self ;;
  put (Tag_api t) Tag_resrc (Tag__id t) [("notes", notes)] ;;;
  store self (OTag (Tag_set__notes notes t)).

(** ** Resource layer: [Project] *)

(** [Project.workspace] *)
Definition Project_workspace (self : addr) : M value :=
  p <- self_Project self ;;
  (if negb (py_truthy (Project__workspace p)) then
     jr <- get (Project_api p) Project_resrc (Project__id p) ;;
     workspace <- lift (getitem jr "workspace") ;;
     id <- lift (getitem workspace "id") ;;
     ws <- Workspace_init (Project_api p) id ;;
     store self (OProject (Project_set__workspace ws p))
   else ret tt) ;;;
  p <- self_Project self ;;
  ret (Project__workspace p).

(** [Project.tasks] *)
Definition Project_tasks (self : addr) : M value :=
  p <- self_Project self ;;
  endpoint <- fmt_suffix (Project__id p) "/tasks" ;;
  jr <- get (Project_api p) Project_resrc endpoint ;;
  wrap_each (fun id => Task_init (Project_api p) id VNone VNone []) jr.

(** [Project.followers] *)
Definition Project_followers (self : addr) : M value :=
  p <- self_Project self ;;
  jr <- get (Project_api p) Project_resrc (Project__id p) ;;
  followers <- lift (getitem jr "followers") ;;
  wrap_each (User_init (Project_api p)) followers.

(** [Project.comments] *)
Definition Project_comments (self : addr) : M value :=
  p <- self_Project self ;;
  endpoint <- fmt_suffix (Project__id p) "/stories" ;;
  jr <- get (Project_api p) Project_resrc endpoint ;;
  wrap_each (Story_init (Project_api p)) jr.

(** [Project.archived] (the setter) *)
Definition Project_archived_setter (self : addr) (archived : value) : M unit :=
  p <- self_Project self ;;
  put (Project_api p) Project_resrc (Project__id p) [("archived", archived)] ;;;
  store self (OProject (Project_set__archived archived p)).

(** [Project.name] (the setter) *)
Definition Project_name_setter (self : addr) (name : value) : M unit :=
  p <- self_Project self ;;
  put (Project_api p) Project_resrc (Project__id p) [("name", name)] ;;;
  store self (OProject (Project_set__name name p)).

(** [Project.notes] (the setter) *)
Definition Project_notes_setter (self : addr) (notes : value) : M unit :=
  p <- self_Project self ;;
  put (Project_api p) Project_resrc (Project__id p) [("notes", notes)] ;;;
  store self (OProject (Project_set__notes notes p)).

(** [Project.add_comment] *)
Definition Project_add_comment (self : addr) (text : value) : M value :=
  p <- self_Project self ;;
  endpoint <- fmt_suffix (Project__id p) "/stories" ;;
  jr <- post (Project_api p) Project_resrc endpoint [("text", text)] ;;
  id <- lift (getitem jr "id") ;;
  Story_init (Project_api p) id.

(** ** Equality of values and attribute access *)

(** The number a value stands for in a comparison: booleans are the
    integers 0 and 1. *)
Definition numeric (v : value) : option Qc :=
  match v with
  | VBool b => Some (if b then 1%Qc else 0%Qc)
  | VInt z => Some (Q2Qc (inject_Z z))
  | VFloat q => Some q
  | _ => None
  end.

Definition text_of (v : value) : option string :=
  match v with
  | VStr s | VUnicode s => Some s
  | _ => None
  end.

Definition datetime_eqb (a b : datetime) : bool :=
  Z.eqb (year a) (year b) && Z.eqb (month a) (month b)
  && Z.eqb (day a) (day b) && Z.eqb (hour a) (hour b)
  && Z.eqb (minute a) (minute b) && Z.eqb (second a) (second b)
  && Z.eqb (microsecond a) (microsecond b).

(** [a == b]: numbers by value, text by content, lists element by
    element, dictionaries entry by entry, resource objects by identity
    (the classes define no [__eq__]). *)
Fixpoint py_eq (a b : value) {struct a} : bool :=
  match a, b with
  | VNone, VNone => true
  | VList l, VList l' =>
      (fix all2 (l : list value) (l' : list value) {struct l} : bool :=
         match l, l' with
         | [], [] => true
         | x :: xs, y :: ys => py_eq x y && all2 xs ys
         | _, _ => false
         end) l l'
  | VDict d, VDict d' =>
      Nat.eqb (length d) (length d')
      && (fix all (d : list (string * value)) {struct d} : bool :=
            match d with
            | [] => true
            | (k, v) :: rest =>
                match dict_get k d' with
                | Some v' => py_eq v v'
                | None => false
                end && all rest
            end) d
  | VDatetime x, VDatetime y => datetime_eqb x y
  | VObj x, VObj y => Nat.eqb x y
  | _, _ =>
      match numeric a, numeric b with
      | Some x, Some y => bool_decide (x = y)
      | _, _ =>
          match text_of a, text_of b with
          | Some s, Some t => String.eqb s t
          | _, _ => false
          end
      end
  end.

(** [v.name]: every resource class but [Story] has the property. *)
Definition getattr_name (v : value) : M value :=
  match v with
  | VObj a =>
      o <- deref a ;;
      match o with
      | OUser u => ret (User__name u)
      | OTask t => ret (Task__name t)
      | OWorkspace x => ret (Workspace__name x)
      | OTag t => ret (Tag__name t)
      | OProject p => ret (Project__name p)
      | OStory _ => raise (AttributeError "name")
      end
  | _ => raise (AttributeError "name")
  end.

(** [v.email]: a property of [User] only. *)
Definition getattr_email (v : value) : M value :=
  match v with
  | VObj a =>
      o <- deref a ;;
      match o with
      | OUser u => ret (User__email u)
      | _ => raise (AttributeError "email")
      end
  | _ => raise (AttributeError "email")
  end.

(** [filter(lambda x: x.attr == wanted, items)] on a list. *)
Fixpoint filter_attr (attr : value -> M value) (wanted : value)
    (items : list value) : M (list value) :=
  match items with
  | [] => ret []
  | x :: xs =>
      v <- attr x ;;
      rest <- filter_attr attr wanted xs ;;
      ret (if py_eq v wanted then x :: rest else rest)
  end.

(** ** Resource layer: the lookups of [Workspace] *)

(** [Workspace.find_user]; [name] and [email] default to [None],
    [first_match] to [True]. *)
Definition Workspace_find_user (self : addr) (name email first_match : value)
    : M value :=
  (if (py_truthy name && py_truthy email)
      || (negb (py_truthy email) && negb (py_truthy name))
   then raise (AsanaError "find_user requires a name or email, not both." [])
   else ret tt) ;;;
  users <- Workspace_users self ;;
  users <- lift (py_iter users) ;;
  if py_truthy name then
    users <- filter_attr getattr_name name users ;;
    if py_truthy first_match && py_truthy (VList users) then
      lift (getitem0 (VList users))
    else ret (VList users)
  else
    users <- filter_attr getattr_email email users ;;
    if py_truthy (VList users) then lift (getitem0 (VList users))
    else ret (VList []).

(** [Workspace.find_projects]; [archived] defaults to [False].  The
    call of [get] passes the dictionary as a third positional argument,
    one more than [get] takes: the interpreter rejects the call. *)
Definition Workspace_find_projects (self : addr) (archived : value) : M value :=
  x <- self_Workspace self ;;
  endpoint <- fmt_suffix (Workspace__id x) "/projects" ;;
  raise TypeError.

(** [Workspace.find_tasks] *)
Definition Workspace_find_tasks (self : addr) (user : value) : M value :=
  user_id <- except_AttributeError (getattr_id user)
               (AsanaError "Requires a User object." [user]) ;;
  x <- self_Workspace self ;;
  s_id <- str_ (Workspace__id x) ;;
  s_user <- str_ user_id ;;
  jr <- get (Workspace_api x) Workspace_resrc
            (VStr (s_id ++ "/tasks?assignee=" ++ s_user)) ;;
  wrap_each (fun id => Task_init (Workspace_api x) id VNone VNone []) jr.

(** ** The factory: [Asana.__getattr__] *)

(** What the attribute lookup yields: a constructor bound to the client,
    or a fetched collection. *)
Inductive class_name :=
| N_User | N_Workspace | N_Project | N_Tag | N_Task | N_Story.

Inductive attribute :=
| Constructor (c : class_name)
| Collection (items : value).

(** [resource_name_map]: the names of the allowed resource classes. *)
Definition resource_name_map (key : string) : option class_name :=
  if String.eqb key "User" then Some N_User
  else if String.eqb key "Workspace" then Some N_Workspace
  else if String.eqb key "Project" then Some N_Project
  else if String.eqb key "Tag" then Some N_Tag
  else if String.eqb key "Task" then Some N_Task
  else if String.eqb key "Story" then Some N_Story
  else None.

(** [resource_collections]: a collection name and the class of its
    elements, constructed from the element's id. *)
Definition resource_collections (key : string)
    : option (Asana -> value -> M value) :=
  if String.eqb key "users" then Some User_init
  else if String.eqb key "workspaces" then Some Workspace_init
  else if String.eqb key "projects"
  then Some (fun api id => Project_init api id VNone VNone VNone VNone)
  else if String.eqb key "tags"
  then Some (fun api id => Tag_init api id VNone VNone VNone)
  else None.

(** [Asana.__getattr__] *)
Definition Asana_getattr (self : Asana) (key : string) : M attribute :=
  match resource_name_map key with
  | Some c => ret (Constructor c)
  | None =>
      match resource_collections key with
      | Some ctor =>
          jr <- get self key (VStr "") ;;
          items <- wrap_each (ctor self) jr ;;
          ret (Collection items)
      | None =>
          raise (AttributeError key)
      end
  end.

(** ** The relationship accessors and the settable fields, as tables

    The data model lists, for every resource type, its relationship
    properties and its settable fields.  The tables below name them and
    dispatch to the accessor or setter of the source. *)

Inductive class := CUser | CTask | CWorkspace | CTag | CProject | CStory.

Definition class_of (o : object) : class :=
  match o with
  | OUser _ => CUser
  | OTask _ => CTask
  | OWorkspace _ => CWorkspace
  | OTag _ => CTag
  | OProject _ => CProject
  | OStory _ => CStory
  end.

Definition class_eqb (c d : class) : bool :=
  match c, d with
  | CUser, CUser | CTask, CTask | CWorkspace, CWorkspace
  | CTag, CTag | CProject, CProject | CStory, CStory => true
  | _, _ => false
  end.

Inductive relationship :=
| R_User_workspaces
| R_Task_parent | R_Task_workspace | R_Task_assignee | R_Task_followers
| R_Task_projects | R_Task_tags | R_Task_subtasks | R_Task_comments
| R_Workspace_users | R_Workspace_projects | R_Workspace_tags
| R_Tag_workspace | R_Tag_followers | R_Tag_tasks
| R_Project_workspace | R_Project_tasks | R_Project_followers
| R_Project_comments
| R_Story_created_by.

Definition relationship_class (r : relationship) : class :=
  match r with
  | R_User_workspaces => CUser
  | R_Task_parent | R_Task_workspace | R_Task_assignee | R_Task_followers
  | R_Task_projects | R_Task_tags | R_Task_subtasks | R_Task_comments => CTask
  | R_Workspace_users | R_Workspace_projects | R_Workspace_tags => CWorkspace
  | R_Tag_workspace | R_Tag_followers | R_Tag_tasks => CTag
  | R_Project_workspace | R_Project_tasks | R_Project_followers
  | R_Project_comments => CProject
  | R_Story_created_by => CStory
  end.

Definition access (r : relationship) : addr -> M value :=
  match r with
  | R_User_workspaces => User_workspaces
  | R_Task_parent => Task_parent
  | R_Task_workspace => Task_workspace
  | R_Task_assignee => Task_assignee
  | R_Task_followers => Task_followers
  | R_Task_projects => Task_projects
  | R_Task_tags => Task_tags
  | R_Task_subtasks => Task_subtasks
  | R_Task_comments => Task_comments
  | R_Workspace_users => Workspace_users
  | R_Workspace_projects => Workspace_projects
  | R_Workspace_tags => Workspace_tags
  | R_Tag_workspace => Tag_workspace
  | R_Tag_followers => Tag_followers
  | R_Tag_tasks => Tag_tasks
  | R_Project_workspace => Project_workspace
  | R_Project_tasks => Project_tasks
  | R_Project_followers => Project_followers
  | R_Project_comments => Project_comments
  | R_Story_created_by => Story_created_by
  end.

(** The two relationships the source memoizes on the instance. *)
Definition memoized (r : relationship) : bool :=
  match r with
  | R_Tag_workspace | R_Project_workspace => true
  | _ => false
  end.

(** The settable fields whose setter is a PUT followed by one attribute
    assignment.  ([Task.assignee_status] validates first, [Task.assignee]
    is recursive; they are treated on their own.) *)
Inductive field :=
| F_Task_name | F_Task_notes | F_Task_completed
| F_Workspace_name
| F_Tag_name | F_Tag_notes
| F_Project_name | F_Project_notes | F_Project_archived.

Definition field_class (f : field) : class :=
  match f with
  | F_Task_name | F_Task_notes | F_Task_completed => CTask
  | F_Workspace_name => CWorkspace
  | F_Tag_name | F_Tag_notes => CTag
  | F_Project_name | F_Project_notes | F_Project_archived => CProject
  end.

(** The field's own name. *)
Definition field_name (f : field) : string :=
  match f with
  | F_Task_name | F_Workspace_name | F_Tag_name | F_Project_name => "name"
  | F_Task_notes | F_Tag_notes | F_Project_notes => "notes"
  | F_Task_completed => "completed"
  | F_Project_archived => "archived"
  end.

Definition assign (f : field) : addr -> value -> M unit :=
  match f with
  | F_Task_name => Task_name_setter
  | F_Task_notes => Task_notes_setter
  | F_Task_completed => Task_completed_setter
  | F_Workspace_name => Workspace_name_setter
  | F_Tag_name => Tag_name_setter
  | F_Tag_notes => Tag_notes_setter
  | F_Project_name => Project_name_setter
  | F_Project_notes => Project_notes_setter
  | F_Project_archived => Project_archived_setter
  end.

(** The getter of the field on an object: [None] on another class. *)
Definition read_field (f : field) (o : object) : option value :=
  match f, o with
  | F_Task_name, OTask t => Some (Task__name t)
  | F_Task_notes, OTask t => Some (Task__notes t)
  | F_Task_completed, OTask t => Some (Task__completed t)
  | F_Workspace_name, OWorkspace x => Some (Workspace__name x)
  | F_Tag_name, OTag t => Some (Tag__name t)
  | F_Tag_notes, OTag t => Some (Tag__notes t)
  | F_Project_name, OProject p => Some (Project__name p)
  | F_Project_notes, OProject p => Some (Project__notes p)
  | F_Project_archived, OProject p => Some (Project__archived p)
  | _, _ => None
  end.

Definition object_api (o : object) : Asana :=
  match o with
  | OUser u => User_api u
  | OTask t => Task_api t
  | OWorkspace x => Workspace_api x
  | OTag t => Tag_api t
  | OProject p => Project_api p
  | OStory s => Story_api s
  end.

(** [self.resrc] *)
Definition resrc (c : class) : string :=
  match c with
  | CUser => User_resrc
  | CTask => Task_resrc
  | CWorkspace => Workspace_resrc
  | CTag => Tag_resrc
  | CProject => Project_resrc
  | CStory => Story_resrc
  end.

(** The URL the transport layer builds for [resource] and [endpoint]. *)
Definition url (E : environment) (api : Asana) (resource : string)
    (endpoint : value) : string :=
  let target := join "/" [aurl api; resource] in
  if py_truthy endpoint
  then join "/" [target; py_str (py_repr E) endpoint]
  else target.

(** The resource's own endpoint: [<aurl>/<resrc>/<id>]. *)
Definition own_url (E : environment) (o : object) : string :=
  url E (object_api o) (resrc (class_of o)) (object_id o).

(** The four attachment methods of [Task]. *)
Inductive attach := AddTag | RemoveTag | AddProject | RemoveProject.

Definition attach_method (op : attach) : addr -> value -> M unit :=
  match op with
  | AddTag => Task_add_tag
  | RemoveTag => Task_remove_tag
  | AddProject => Task_add_project
  | RemoveProject => Task_remove_project
  end.

Definition attach_suffix (op : attach) : string :=
  match op with
  | AddTag => "/addTag"
  | RemoveTag => "/removeTag"
  | AddProject => "/addProject"
  | RemoveProject => "/removeProject"
  end.

Definition attach_datatype (op : attach) : string :=
  match op with
  | AddTag | RemoveTag => "tag"
  | AddProject | RemoveProject => "project"
  end.

(** The resource class the method accepts besides [int] and [str]. *)
Definition attach_class (op : attach) : class :=
  match op with
  | AddTag | RemoveTag => CTag
  | AddProject | RemoveProject => CProject
  end.

(** [arg] is an instance of class [c] in the heap. *)
Definition instance_of (w : world) (arg : value) (c : class) : bool :=
  match arg with
  | VObj a => match heap w !! a with
              | Some o => class_eqb (class_of o) c
              | None => false
              end
  | _ => false
  end.

(** How many of the given arguments are supplied with a true value. *)
Definition supplied (args : list value) : nat :=
  length (List.filter py_truthy args).

(** ** An environment and a world for the examples *)

Module Demo.

(** [sys.maxint] of a 64-bit build. *)
Definition maxint : Z := 9223372036854775807.

Definition digit (a : Ascii.ascii) : option Z :=
  let n := Ascii.nat_of_ascii a in
  if (48 <=? n)%nat && (n <=? 57)%nat then Some (Z.of_nat (n - 48)) else None.

Fixpoint number (acc : Z) (s : list Ascii.ascii) : option Z :=
  match s with
  | [] => Some acc
  | a :: s' =>
      match digit a with
      | Some d => number (10 * acc + d) s'
      | None => None
      end
  end.

Definition in_range (lo hi : Z) (x : option Z) : option Z :=
  match x with
  | Some z => if (lo <=? z)%Z && (z <=? hi)%Z then Some z else None
  | None => None
  end.

(** [strptime] for the one format the program uses, on the fixed-width
    layout [YYYY-mm-dd HH:MM:SS.f], with one to six digits of fraction. *)
Definition parse_time (s fmt : string) : option datetime :=
  if negb (String.eqb fmt "%Y-%m-%d %H:%M:%S.%f") then None else
  let cs := String.list_ascii_of_string s in
  let part i n := number 0 (take n (drop i cs)) in
  let sep i c := bool_decide (cs !! i = Some c) in
  let frac := drop 20 cs in
  let nfrac := length frac in
  if sep 4%nat "-"%char && sep 7%nat "-"%char && sep 10%nat " "%char
     && sep 13%nat ":"%char && sep 16%nat ":"%char && sep 19%nat "."%char
     && (1 <=? nfrac)%nat && (nfrac <=? 6)%nat
  then
    match part 0%nat 4%nat, in_range 1 12 (part 5%nat 2%nat),
          in_range 1 31 (part 8%nat 2%nat), in_range 0 23 (part 11%nat 2%nat),
          in_range 0 59 (part 14%nat 2%nat), in_range 0 61 (part 17%nat 2%nat),
          number 0 frac with
    | Some y, Some mo, Some d, Some h, Some mi, Some sec, Some f =>
        Some (Datetime y mo d h mi sec (f * 10 ^ Z.of_nat (6 - nfrac)))
    | _, _, _, _, _, _, _ => None
    end
  else None.

Definition render (v : value) : string := "<value>".

Definition stamp := VUnicode "2012-02-22T02:06:58.147Z".

Definition ok (data : value) : net_result :=
  Responded (Response 200 (Some "application/json; charset=UTF-8")
                      (VDict [("data", data)])).

Definition not_found : net_result :=
  Responded (Response 404 (Some "application/json; charset=UTF-8")
               (VDict [("errors", VList [VDict [("message", VUnicode "not found")]])])).

Definition user4 : value :=
  VDict [("id", VInt 4); ("name", VUnicode "Ann"); ("email", VUnicode "ann@example.org");
         ("workspaces", VList [VDict [("id", VInt 3); ("name", VUnicode "EECS")]])].

Definition workspace3 : value :=
  VDict [("id", VInt 3); ("name", VUnicode "EECS")].

Definition tag7 : value :=
  VDict [("id", VInt 7); ("name", VUnicode "yolo"); ("notes", VUnicode "");
         ("created_at", stamp); ("followers", VList []);
         ("workspace", workspace3)].

Definition project9 : value :=
  VDict [("id", VInt 9); ("name", VUnicode "plan"); ("notes", VUnicode "");
         ("archived", VBool false); ("created_at", stamp);
         ("modified_at", stamp); ("followers", VList []);
         ("workspace", workspace3)].

Definition task5 : value :=
  VDict [("id", VInt 5); ("name", VUnicode "write"); ("notes", VUnicode "");
         ("assignee_status", VUnicode "inbox"); ("created_at", stamp);
         ("modified_at", stamp); ("completed_at", VNone);
         ("completed", VBool false); ("due_on", VNone); ("tags", VList []);
         ("projects", VList []); ("assignee", VNone); ("followers", VList []);
         ("parent", VDict [("id", VInt 4); ("name", VUnicode "outline")]);
         ("workspace", workspace3)].

Definition base := "https://app.asana.com/api/1.0/".

(** A service with one user, one workspace, one tag, one project and one
    task, which accepts every PUT and POST. *)
Definition service (history : list request) (rq : request) : net_result :=
  match rq_method rq with
  | GET =>
      let t := rq_target rq in
      if String.eqb t (base ++ "users/4") then ok user4
      else if String.eqb t (base ++ "workspaces/3") then ok workspace3
      else if String.eqb t (base ++ "tags/7") then ok tag7
      else if String.eqb t (base ++ "projects/9") then ok project9
      else if String.eqb t (base ++ "tasks/5") then ok task5
      else if String.eqb t (base ++ "tags/7/tasks")
      then ok (VList [VDict [("id", VInt 5); ("name", VUnicode "write")]])
      else not_found
  | POST => ok task5
  | PUT => ok task5
  end.

Definition env : environment :=
  {| sys_maxint := maxint; py_repr := render; strptime := parse_time; remote := service |}.

(** A service that answers everything with an HTML error page. *)
Definition html_404 (history : list request) (rq : request) : net_result :=
  Responded (Response 404 (Some "text/html") VNone).

Definition env_html : environment :=
  {| sys_maxint := maxint; py_repr := render; strptime := parse_time; remote := html_404 |}.

(** A service that answers the [tasks] sub-path of the tag with a
    dictionary that has a [tasks] entry, the one shape on which
    [Tag.tasks] gets as far as wrapping records. *)
Definition service_nested (history : list request) (rq : request)
    : net_result :=
  if String.eqb (rq_target rq) (base ++ "tags/7/tasks")
  then ok (VDict [("tasks", VList [VDict [("id", VInt 7)]])])
  else service history rq.

Definition env_nested : environment :=
  {| sys_maxint := maxint; py_repr := render; strptime := parse_time; remote := service_nested |}.

(** A service that accepts every request. *)
Definition accepting (history : list request) (rq : request) : net_result :=
  ok task5.

Definition env_accepting : environment :=
  {| sys_maxint := maxint; py_repr := render; strptime := parse_time; remote := accepting |}.

Definition story8 : value :=
  VDict [("id", VInt 8); ("text", VUnicode "done"); ("source", VUnicode "web");
         ("type", VUnicode "comment"); ("created_at", stamp);
         ("created_by", VDict [("id", VInt 4); ("name", VUnicode "Ann")])].

(** The service above, extended with a story, the users of the
    workspace, the tasks of a user, and creation of tags, projects and
    comments. *)
Definition service_full (history : list request) (rq : request) : net_result :=
  let t := rq_target rq in
  match rq_method rq with
  | GET =>
      if String.eqb t (base ++ "stories/8") then ok story8
      else if String.eqb t (base ++ "workspaces/3/users")
      then ok (VList [VDict [("id", VInt 4); ("name", VUnicode "Ann")]])
      else if String.eqb t (base ++ "users")
      then ok (VList [VDict [("id", VInt 4); ("name", VUnicode "Ann")]])
      else if String.eqb t (base ++ "workspaces/3/tasks?assignee=4")
      then ok (VList [VDict [("id", VInt 5); ("name", VUnicode "write")]])
      else service history rq
  | POST =>
      if String.eqb t (base ++ "tasks/5/stories") then ok (VDict [("id", VInt 8)])
      else if String.eqb t (base ++ "projects/9/stories")
      then ok (VDict [("id", VInt 8)])
      else if String.eqb t (base ++ "tags") then ok tag7
      else if String.eqb t (base ++ "projects") then ok project9
      else ok task5
  | PUT => ok workspace3
  end.

Definition env_full : environment :=
  {| sys_maxint := maxint; py_repr := render; strptime := parse_time; remote := service_full |}.

Definition api : Asana := AsanaClient_init "key" false.

Definition when := VDatetime (Datetime 2012 2 22 2 6 58 147000).

Definition the_task : Task :=
  {| Task_api := api; Task__id := VInt 5; Task__name := VUnicode "write";
     Task__notes := VUnicode ""; Task__assignee_status := VUnicode "inbox";
     Task__created_at := when; Task__modified_at := when;
     Task__completed_at := VNone; Task__completed := VBool false;
     Task__due_on := VNone; Task__tags := VList [];
     Task__projects := VList []; Task__workspace := VNone |}.

Definition the_tag : Tag :=
  {| Tag_api := api; Tag__id := VInt 7; Tag__name := VUnicode "yolo";
     Tag__notes := VUnicode ""; Tag__created_at := when;
     Tag__workspace := VNone |}.

Definition the_project : Project :=
  {| Project_api := api; Project__id := VInt 9;
     Project__name := VUnicode "plan"; Project__notes := VUnicode "";
     Project__archived := VBool false; Project__created_at := when;
     Project__modified_at := when; Project__workspace := VNone |}.

Definition the_workspace : Workspace :=
  {| Workspace_api := api; Workspace__id := VInt 3;
     Workspace__name := VUnicode "EECS" |}.

Definition the_user : User :=
  {| User_api := api; User__name := VUnicode "Ann";
     User__email := VUnicode "ann@example.org"; User__id := VInt 4 |}.

(** Addresses 0 to 4: the task, the tag, the project, the workspace, the
    user; nothing sent yet. *)
Definition w0 : world :=
  {| heap := [OTask the_task; OTag the_tag; OProject the_project;
              OWorkspace the_workspace; OUser the_user];
     log := [] |}.

End Demo.

(** ** Vocabulary of the statements *)

(** A computation that leaves the world as it found it. *)
Definition pure_ {A} (m : M A) : Prop := forall E w, snd (m E w) = w.

(** The world after one more request. *)
Definition sent (w : world) (rq : request) : world :=
  {| heap := heap w; log := log w ++ [rq] |}.

(** The requests [get], [post] and [put] put on the wire. *)
Definition GET_request E api resource endpoint : request :=
  Request GET (url E api resource endpoint) (api_key api, "") None.
Definition POST_request E api resource endpoint data : request :=
  Request POST (url E api resource endpoint) (api_key api, "") (Some data).
Definition PUT_request E api resource endpoint data : request :=
  Request PUT (url E api resource endpoint) (api_key api, "") (Some data).

(** What the transport layer makes of a response. *)
Definition decode (r : response) : M value :=
  _check_http_status r ;;; _handle_response r.

(** The computation raises the module's own error and the world, hence
    the log of requests, is what it was. *)
Definition raises_before_http {A} (m : M A) (E : environment) (w : world) : Prop :=
  exists msg args, m E w = (Raise (AsanaError msg args), w).

(** The response declares JSON content. *)
Definition declares_json (r : response) : bool :=
  match content_type r with
  | Some ct => String.eqb (split_head ";"%char ct) "application/json"
  | None => false
  end.

(** The PUT of [body] to the own endpoint of the object [o]. *)
Definition own_PUT (E : environment) (o : object) (body : dict) : request :=
  Request PUT (own_url E o) (api_key (object_api o), "") (Some body).

(** Running [run] from [w] sends exactly one request, the PUT of [body]
    to the own endpoint of [o]. *)
Definition issues_one_PUT (run : M unit) (E : environment) (w : world)
    (o : object) (body : dict) : Prop :=
  log (snd (run E w)) = (log w ++ [own_PUT E o body])%list.

(** What a getter returns on the object at [self]. *)
Definition local_value (w : world) (self : addr)
    (getter : object -> option value) : option value :=
  match heap w !! self with
  | Some o => getter o
  | None => None
  end.

(** After [run] the getter returns [v] on the object at [self]. *)
Definition then_reads (run : M unit) (E : environment) (w : world)
    (self : addr) (getter : object -> option value) (v : value) : Prop :=
  local_value (snd (run E w)) self getter = Some v.

(** The getter of [Task.assignee_status]. *)
Definition read_assignee_status (o : object) : option value :=
  match o with
  | OTask t => Some (Task__assignee_status t)
  | _ => None
  end.

(** The values [Task.assignee_status] accepts. *)
Definition ok_status : list string :=
  ["upcoming"; "inbox"; "later"; "today"; "upcoming"].

(** The response is one the transport layer accepts, with payload [d]. *)
Definition accepted (r : response) (d : value) : Prop :=
  (status_code r = 200%Z \/ status_code r = 201%Z)
  /\ declares_json r = true
  /\ getitem (json r) "data" = Ret d.

(** A service that accepts whatever it is sent. *)
Definition always_accepts (E : environment) : Prop :=
  forall history rq, exists r d,
    remote E history rq = Responded r /\ accepted r d.

(** A computation that sends nothing. *)
Definition quiet {A} (m : M A) : Prop :=
  forall E w, log (snd (m E w)) = log w.

(** A computation that only adds to the log of requests. *)
Definition grows {A} (m : M A) : Prop :=
  forall E w, exists l, log (snd (m E w)) = (log w ++ l)%list.

(** A computation that leaves the heap as it found it. *)
Definition still {A} (m : M A) : Prop :=
  forall E w, heap (snd (m E w)) = heap w.

(** A constructor: when it returns, it returns the one object it has
    added to the heap, an instance of class [c]. *)
Definition allocates (c : class) (m : M value) : Prop :=
  forall E w v w',
    m E w = (Ret v, w') ->
    exists o, class_of o = c
              /\ v = VObj (length (heap w))
              /\ heap w' = (heap w ++ [o])%list.

(** [v] refers to an instance of class [c] in [w]. *)
Definition refers_to (w : world) (c : class) (v : value) : Prop :=
  exists a o, v = VObj a /\ heap w !! a = Some o /\ class_of o = c.

(** The sub-path an accessor fetches below the own endpoint, if any. *)
Definition relationship_suffix (r : relationship) : option string :=
  match r with
  | R_Task_tags | R_Workspace_tags => Some "/tags"
  | R_Task_subtasks => Some "/subtasks"
  | R_Task_comments | R_Project_comments => Some "/stories"
  | R_Workspace_users => Some "/users"
  | R_Workspace_projects => Some "/projects"
  | R_Tag_tasks | R_Project_tasks => Some "/tasks"
  | _ => None
  end.

(** The GET with which the accessor [r] starts on the object [o]. *)
Definition relationship_GET (E : environment) (r : relationship) (o : object)
    : request :=
  GET_request E (object_api o) (resrc (class_of o))
    match relationship_suffix r with
    | Some suffix => VStr (py_str (py_repr E) (object_id o) ++ suffix)
    | None => object_id o
    end.

(** The attribute [_workspace] of a tag or a project. *)
Definition cached_workspace (o : object) : option value :=
  match o with
  | OTag t => Some (Tag__workspace t)
  | OProject p => Some (Project__workspace p)
  | _ => None
  end.

(** Construction of an instance of class [c] from an existing id, with
    every other argument of the constructor at its default. *)
Definition construct (c : class) (api : Asana) (id : value) : M value :=
  match c with
  | CUser => User_init api id
  | CTask => Task_init api id VNone VNone []
  | CWorkspace => Workspace_init api id
  | CTag => Tag_init api id VNone VNone VNone
  | CProject => Project_init api id VNone VNone VNone VNone
  | CStory => Story_init api id
  end.

(** The constructors that test their id before they fetch anything. *)
Definition tests_id (c : class) : bool :=
  match c with
  | CTask | CTag | CProject => true
  | _ => false
  end.

(** A constructor of class [c] for the client [api]: when it returns, it
    returns the one object it has added to the heap, an instance of [c]
    bound to [api]; when it raises, the heap is as it was. *)
Definition constructor (c : class) (api : Asana) (m : M value) : Prop :=
  forall E w,
    match m E w with
    | (Ret v, w') =>
        v = VObj (length (heap w))
        /\ exists o, class_of o = c /\ object_api o = api
                     /\ heap w' = (heap w ++ [o])%list
    | (Raise _, w') => heap w' = heap w
    end.

(** The result of [_utcstr_to_datetime], which does not depend on the
    world. *)
Definition parsed (E : environment) (timestamp : value) : outcome value :=
  fst (_utcstr_to_datetime timestamp E {| heap := []; log := [] |}).

(** An optional creation field: present when it is a true value. *)
Definition optional (v : value) : option value :=
  if py_truthy v then Some v else None.

(** The class in which a collection accessor wraps the records it
    fetched; [None] for the accessors of a single object. *)
Definition wrapped_class (r : relationship) : option class :=
  match r with
  | R_User_workspaces => Some CWorkspace
  | R_Task_followers | R_Workspace_users | R_Tag_followers
  | R_Project_followers => Some CUser
  | R_Task_projects | R_Workspace_projects => Some CProject
  | R_Task_tags | R_Workspace_tags | R_Tag_tasks => Some CTag
  | R_Task_subtasks | R_Project_tasks => Some CTask
  | R_Task_comments | R_Project_comments => Some CStory
  | _ => None
  end.

(** The attribute [attr] of [x] equals [wanted] in the world [w]: the
    test of the [filter] in [Workspace.find_user]. *)
Definition attr_is (attr : value -> M value) (E : environment) (w : world)
    (wanted : value) (x : value) : bool :=
  match fst (attr x E w) with
  | Ret v => py_eq v wanted
  | Raise _ => false
  end.

(** [l[0] if l else []] *)
Definition first_or_empty (l : list value) : value :=
  match l with
  | x :: _ => x
  | [] => VList []
  end.

(** The class of the elements of a collection of the factory. *)
Definition collection_class (key : string) : option class :=
  if String.eqb key "users" then Some CUser
  else if String.eqb key "workspaces" then Some CWorkspace
  else if String.eqb key "projects" then Some CProject
  else if String.eqb key "tags" then Some CTag
  else None.

(** A computation that only adds objects to the heap: the objects that
    were there are still there, unchanged. *)
Definition extends {A} (m : M A) : Prop :=
  forall E w, exists h, heap (snd (m E w)) = (heap w ++ h)%list.

(** The statuses a task can be given, as the interface documents them. *)
Definition statuses : list string := ["inbox"; "later"; "today"; "upcoming"].

(** [v] is text, of either string type, with content in [l]. *)
Definition text_in (l : list string) (v : value) : Prop :=
  exists s, (v = VStr s \/ v = VUnicode s) /\ In s l.

(** The attributes of an instance other than [api] and [resrc], under the
    names the constructors give them. *)
Definition attributes (o : object) : dict :=
  match o with
  | OUser u =>
      [("_name", User__name u); ("_email", User__email u);
       ("_id", User__id u)]
  | OTask t =>
      [("_id", Task__id t); ("_name", Task__name t);
       ("_notes", Task__notes t);
       ("_assignee_status", Task__assignee_status t);
       ("_created_at", Task__created_at t);
       ("_modified_at", Task__modified_at t);
       ("_completed_at", Task__completed_at t);
       ("_completed", Task__completed t); ("_due_on", Task__due_on t);
       ("_tags", Task__tags t); ("_projects", Task__projects t);
       ("_workspace", Task__workspace t)]
  | OWorkspace x =>
      [("_id", Workspace__id x); ("_name", Workspace__name x)]
  | OTag t =>
      [("_id", Tag__id t); ("_name", Tag__name t); ("_notes", Tag__notes t);
       ("_created_at", Tag__created_at t); ("_workspace", Tag__workspace t)]
  | OProject p =>
      [("_id", Project__id p); ("_name", Project__name p);
       ("_notes", Project__notes p); ("_archived", Project__archived p);
       ("_created_at", Project__created_at p);
       ("_modified_at", Project__modified_at p);
       ("_workspace", Project__workspace p)]
  | OStory s =>
      [("_id", Story__id s); ("_text", Story__text s);
       ("_source", Story__source s); ("_story_type", Story__story_type s);
       ("_created_at", Story__created_at s)]
  end.

(** What the transport layer returns for the request [rq] sent from the
    world [w]: the service's answer as the status check and the unwrapping
    of the envelope leave it. *)
Definition answer (E : environment) (w : world) (rq : request)
    : outcome value :=
  match remote E (log w) rq with
  | Responded r => fst (decode r E (sent w rq))
  | NetworkFailure => Raise RequestException
  end.

(** The story [s], bound to [api], holds the members of the record
    [rec], with the timestamp parsed. *)
Definition story_of (E : environment) (api : Asana) (rec : value) (s : Story)
    : Prop :=
  Story_api s = api
  /\ getitem rec "id" = Ret (Story__id s)
  /\ getitem rec "text" = Ret (Story__text s)
  /\ getitem rec "source" = Ret (Story__source s)
  /\ getitem rec "type" = Ret (Story__story_type s)
  /\ exists created, getitem rec "created_at" = Ret created
                     /\ parsed E created = Ret (Story__created_at s).

(** The member of the answer in which a collection accessor finds its
    records; [None] when the answer itself is the list. *)
Definition relationship_member (r : relationship) : option string :=
  match r with
  | R_User_workspaces => Some "workspaces"
  | R_Task_followers | R_Tag_followers | R_Project_followers =>
      Some "followers"
  | R_Task_projects => Some "projects"
  | R_Tag_tasks => Some "tasks"
  | _ => None
  end.

(** The collection accessors that test the member before they iterate
    over it. *)
Definition relationship_guarded (r : relationship) : bool :=
  match r with
  | R_Task_followers | R_Task_projects => true
  | _ => false
  end.

(** The records a collection accessor finds in the answer [d]. *)
Definition relationship_records (r : relationship) (d : value)
    : outcome (list value) :=
  match match relationship_member r with
        | Some k => getitem d k
        | None => Ret d
        end with
  | Ret x =>
      if relationship_guarded r && negb (py_truthy x) then Ret []
      else py_iter x
  | Raise e => Raise e
  end.

(** From [w] to [w'] the records [recs] were wrapped one by one, in
    order: one GET per record, to the id of the record below the resource
    of class [c], and one new object of class [c] bound to [api] per
    record; [v] is the list of the references to the new objects, in the
    order of the records. *)
Definition one_object_per_record (E : environment) (c : class) (api : Asana)
    (recs : list value) (w w' : world) (v : value) : Prop :=
  exists ids h,
    Forall2 (fun rec id => getitem rec "id" = Ret id) recs ids
    /\ log w' = (log w ++ map (GET_request E api (resrc c)) ids)%list
    /\ heap w' = (heap w ++ h)%list
    /\ length h = length recs
    /\ Forall (fun o => class_of o = c /\ object_api o = api) h
    /\ v = VList (map VObj (seq (length (heap w)) (length recs))).

(** The attribute behind a settable field: its name with an underscore. *)
Definition attribute_name (f : field) : string := String "_" (field_name f).

(** * Properties *)

(** ** Running the monad *)

Lemma run_bind {A B} (m : M A) (k : A -> M B) E w :
  bind m k E w =
  match m E w with
  | (Ret a, w') => k a E w'
  | (Raise e, w') => (Raise e, w')
  end.
Proof. reflexivity. Qed.

(** The closure properties below are instances, so that a computation
    built from the primitives is recognised by instance search. *)
Existing Class pure_.

#[global] Instance pure_ret {A} (a : A) : pure_ (ret a).
Proof. intros E w. reflexivity. Qed.

#[global] Instance pure_raise {A} (e : exn) : pure_ (@raise A e).
Proof. intros E w. reflexivity. Qed.

#[global] Instance pure_lift {A} (o : outcome A) : pure_ (lift o).
Proof. intros E w. reflexivity. Qed.

#[global] Instance pure_str_ (v : value) : pure_ (str_ v).
Proof. intros E w. reflexivity. Qed.

#[global] Instance pure_bind {A B} (m : M A) (k : A -> M B) :
  pure_ m -> (forall a, pure_ (k a)) -> pure_ (bind m k).
Proof.
  intros Hm Hk E w. rewrite run_bind. specialize (Hm E w).
  destruct (m E w) as [[a|e] w']; simpl in Hm; subst w'.
  - apply Hk.
  - reflexivity.
Qed.

#[global] Instance pure_if {A} (b : bool) (m1 m2 : M A) :
  pure_ m1 -> pure_ m2 -> pure_ (if b then m1 else m2).
Proof. destruct b; auto. Qed.

#[global] Instance pure_option {A B} (o : option A) (f : A -> M B) (g : M B) :
  (forall a, pure_ (f a)) -> pure_ g ->
  pure_ (match o with Some a => f a | None => g end).
Proof. destruct o; auto. Qed.

Lemma snd_bind_pure {A B} (m : M A) (k : A -> M B) E w :
  (forall a, pure_ (k a)) -> snd (bind m k E w) = snd (m E w).
Proof.
  intros Hk. rewrite run_bind.
  destruct (m E w) as [[a|e] w']; simpl; [apply Hk | reflexivity].
Qed.

#[global] Instance _check_http_status_pure r : pure_ (_check_http_status r).
Proof. unfold _check_http_status. cbv zeta. apply _. Qed.

#[global] Instance _handle_response_pure r : pure_ (_handle_response r).
Proof. unfold _handle_response. apply _. Qed.

Lemma fmt_suffix_run v suffix E w :
  fmt_suffix v suffix E w = (Ret (VStr (py_str (py_repr E) v ++ suffix)), w).
Proof. reflexivity. Qed.

#[global] Instance _utcstr_to_datetime_pure v : pure_ (_utcstr_to_datetime v).
Proof.
  intros E w. unfold _utcstr_to_datetime.
  destruct v; try reflexivity; simpl; destruct (strptime E _ _); reflexivity.
Qed.

(** ** The transport layer sends exactly one request per call *)

#[global] Instance decode_pure r : pure_ (decode r).
Proof. unfold decode. apply _. Qed.

Lemma target_run E w api resource endpoint :
  (if py_truthy endpoint
   then e <- str_ endpoint ;; ret (join "/" [join "/" [aurl api; resource]; e])
   else ret (join "/" [aurl api; resource])) E w
  = (Ret (url E api resource endpoint), w).
Proof. unfold url. destruct (py_truthy endpoint); reflexivity. Qed.

Lemma transport_run m api resource endpoint data E w :
  (target <- (if py_truthy endpoint
              then e <- str_ endpoint ;;
                   ret (join "/" [join "/" [aurl api; resource]; e])
              else ret (join "/" [aurl api; resource])) ;;
   r <- requests_send m target (api_key api, "") data ;;
   _check_http_status r ;;;
   _handle_response r) E w
  = let rq := Request m (url E api resource endpoint) (api_key api, "") data in
    match remote E (log w) rq with
    | Responded r => (fst (decode r E (sent w rq)), sent w rq)
    | NetworkFailure => (Raise RequestException, sent w rq)
    end.
Proof.
  rewrite run_bind, target_run. rewrite run_bind. unfold requests_send.
  cbv zeta. destruct (remote E (log w) _) as [r|]; [|reflexivity].
  fold (decode r). unfold sent.
  pose proof (decode_pure r E
    {| heap := heap w;
       log := log w ++ [Request m (url E api resource endpoint)
                                (api_key api, "") data] |}) as Hp.
  destruct (decode r E _) as [o w']. simpl in Hp. subst w'. reflexivity.
Qed.

Lemma get_run api resource endpoint E w :
  get api resource endpoint E w
  = let rq := GET_request E api resource endpoint in
    match remote E (log w) rq with
    | Responded r => (fst (decode r E (sent w rq)), sent w rq)
    | NetworkFailure => (Raise RequestException, sent w rq)
    end.
Proof. apply transport_run. Qed.

Lemma post_run api resource endpoint data E w :
  post api resource endpoint data E w
  = let rq := POST_request E api resource endpoint data in
    match remote E (log w) rq with
    | Responded r => (fst (decode r E (sent w rq)), sent w rq)
    | NetworkFailure => (Raise RequestException, sent w rq)
    end.
Proof. apply transport_run. Qed.

Lemma put_run api resource endpoint data E w :
  put api resource endpoint data E w
  = let rq := PUT_request E api resource endpoint data in
    match remote E (log w) rq with
    | Responded r => (fst (decode r E (sent w rq)), sent w rq)
    | NetworkFailure => (Raise RequestException, sent w rq)
    end.
Proof. apply transport_run. Qed.

Lemma get_world api resource endpoint E w :
  snd (get api resource endpoint E w)
  = sent w (GET_request E api resource endpoint).
Proof.
  rewrite get_run. cbv zeta. destruct (remote E _ _); reflexivity.
Qed.

Lemma post_world api resource endpoint data E w :
  snd (post api resource endpoint data E w)
  = sent w (POST_request E api resource endpoint data).
Proof.
  rewrite post_run. cbv zeta. destruct (remote E _ _); reflexivity.
Qed.

Lemma put_world api resource endpoint data E w :
  snd (put api resource endpoint data E w)
  = sent w (PUT_request E api resource endpoint data).
Proof.
  rewrite put_run. cbv zeta. destruct (remote E _ _); reflexivity.
Qed.

(** ** The status check *)

Lemma check_http_status_success r E w :
  status_code r = 200%Z \/ status_code r = 201%Z ->
  _check_http_status r E w = (Ret tt, w).
Proof.
  intros [H|H]; unfold _check_http_status; rewrite H; reflexivity.
Qed.

Lemma check_http_status_client_error r errors first message E w :
  In (status_code r) [400; 401; 403; 404; 429]%Z ->
  getitem (json r) "errors" = Ret errors ->
  getitem0 errors = Ret first ->
  getitem first "message" = Ret message ->
  _check_http_status r E w
  = (Raise (AsanaError ("Error: HTTP Status " ++ pretty (status_code r) ++ ": "
                        ++ py_str (py_repr E) message) []), w).
Proof.
  intros Hsc He Hf Hm. unfold _check_http_status. simpl in Hsc.
  destruct Hsc as [H|[H|[H|[H|[H|[]]]]]]; rewrite <- H; simpl;
    unfold bind, lift; rewrite He; cbv beta iota; rewrite Hf; cbv beta iota;
    rewrite Hm; reflexivity.
Qed.

(** A 404 whose body is the error envelope of the service. *)
Example check_http_status_not_found :
  _check_http_status
    (Response 404 (Some "application/json")
       (VDict [("errors", VList [VDict [("message", VUnicode "not found")]])]))
    Demo.env Demo.w0
  = (Raise (AsanaError "Error: HTTP Status 404: not found" []), Demo.w0).
Proof. reflexivity. Qed.

(** C3: the status check on a response with status 500 whose first error
    object carries both [message] and [phrase].  The source reads both and
    then names the undefined variable [ph]: the call ends in a [NameError],
    not in the domain error that carries message and phrase. *)
Theorem check_http_status_500_raises_NameError
    r errors first message phrase E w :
  status_code r = 500%Z ->
  getitem (json r) "errors" = Ret errors ->
  getitem0 errors = Ret first ->
  getitem first "message" = Ret message ->
  getitem first "phrase" = Ret phrase ->
  _check_http_status r E w = (Raise (NameError "ph"), w)
  /\ is_AsanaError (NameError "ph") = false.
Proof.
  intros Hsc He Hf Hm Hp. split; [|reflexivity].
  unfold _check_http_status. rewrite Hsc. simpl.
  unfold bind, lift. rewrite He. cbv beta iota. rewrite Hf. cbv beta iota.
  rewrite Hm, Hp. reflexivity.
Qed.

Lemma check_http_status_500_witness :
  let r := Response 500 (Some "application/json")
             (VDict [("errors", VList [VDict [("message", VUnicode "Server Error");
                                             ("phrase", VUnicode "6 sad squid")]])]) in
  _check_http_status r Demo.env Demo.w0 = (Raise (NameError "ph"), Demo.w0)
  /\ is_AsanaError (NameError "ph") = false.
Proof.
  exact (check_http_status_500_raises_NameError
           (Response 500 (Some "application/json")
              (VDict [("errors", VList [VDict [("message", VUnicode "Server Error");
                                              ("phrase", VUnicode "6 sad squid")]])]))
           (VList [VDict [("message", VUnicode "Server Error");
                          ("phrase", VUnicode "6 sad squid")]])
           (VDict [("message", VUnicode "Server Error");
                   ("phrase", VUnicode "6 sad squid")])
           (VUnicode "Server Error") (VUnicode "6 sad squid")
           Demo.env Demo.w0 eq_refl eq_refl eq_refl eq_refl eq_refl).
Defined.

(** ** The content-type check *)

Lemma handle_response_not_json r E w :
  content_type r <> None -> declares_json r = false ->
  exists msg, _handle_response r E w = (Raise (AsanaError msg []), w).
Proof.
  unfold declares_json, _handle_response. intros Hc Hj.
  destruct (content_type r) as [ct|]; [|congruence].
  rewrite Hj. eexists. reflexivity.
Qed.

(** With a success status the check of the content type is reached, and a
    response that does not declare JSON ends in the domain error. *)
Lemma get_not_json_success_status api resource endpoint r E w :
  remote E (log w) (GET_request E api resource endpoint) = Responded r ->
  status_code r = 200%Z \/ status_code r = 201%Z ->
  content_type r <> None -> declares_json r = false ->
  exists msg,
    get api resource endpoint E w
    = (Raise (AsanaError msg []), sent w (GET_request E api resource endpoint)).
Proof.
  intros Hr Hs Hc Hj. rewrite get_run. cbv zeta. rewrite Hr.
  unfold decode. rewrite run_bind, (check_http_status_success _ _ _ Hs).
  destruct (handle_response_not_json r E
              (sent w (GET_request E api resource endpoint)) Hc Hj) as [msg ->].
  exists msg. reflexivity.
Qed.

(** C8: a response that does not declare JSON, with status 404 and a body
    that is not JSON ([r.json] is [None]).  [get] checks the status first;
    the status check subscripts [r.json] and fails with a [TypeError]
    before the content type is looked at.  The same holds for [post] and
    [put], which share the two checks. *)
Theorem transport_non_json_404_raises_TypeError
    api resource endpoint data r E w :
  declares_json r = false ->
  status_code r = 404%Z ->
  json r = VNone ->
  (remote E (log w) (GET_request E api resource endpoint) = Responded r ->
   fst (get api resource endpoint E w) = Raise TypeError)
  /\ (remote E (log w) (POST_request E api resource endpoint data) = Responded r ->
      fst (post api resource endpoint data E w) = Raise TypeError)
  /\ (remote E (log w) (PUT_request E api resource endpoint data) = Responded r ->
      fst (put api resource endpoint data E w) = Raise TypeError)
  /\ is_AsanaError TypeError = false.
Proof.
  intros _ Hs Hj.
  assert (Hd : forall w', fst (decode r E w') = Raise TypeError).
  { intros w'. unfold decode, _check_http_status.
    rewrite Hs, Hj. reflexivity. }
  repeat split; intros Hr.
  - rewrite get_run. cbv zeta. rewrite Hr. simpl. apply Hd.
  - rewrite post_run. cbv zeta. rewrite Hr. simpl. apply Hd.
  - rewrite put_run. cbv zeta. rewrite Hr. simpl. apply Hd.
Qed.

Lemma transport_non_json_404_witness :
  fst (get Demo.api "tasks" (VInt 1) Demo.env_html Demo.w0) = Raise TypeError
  /\ fst (post Demo.api "tasks" (VInt 1) [] Demo.env_html Demo.w0)
     = Raise TypeError
  /\ fst (put Demo.api "tasks" (VInt 1) [] Demo.env_html Demo.w0)
     = Raise TypeError.
Proof.
  destruct (transport_non_json_404_raises_TypeError
              Demo.api "tasks" (VInt 1) []
              (Response 404 (Some "text/html") VNone)
              Demo.env_html Demo.w0 eq_refl eq_refl eq_refl)
    as [A [B [C _]]].
  split; [exact (A eq_refl) | split; [exact (B eq_refl) | exact (C eq_refl)]].
Defined.

(** ** Construction with conflicting arguments *)

(** C2: a [Task], [Tag] or [Project] constructed with more than one of
    the existing id, the workspace id and (for [Task]) the parent task id
    raises the domain error, and the world is untouched: no request was
    sent. *)
Theorem conflicting_ids_raise_before_http
    api existing_id workspace_id parent_id name notes archived kwargs E w :
  (2 <= supplied [existing_id; workspace_id; parent_id] ->
   raises_before_http
     (Task_init api existing_id workspace_id parent_id kwargs) E w)
  /\ (2 <= supplied [existing_id; workspace_id] ->
      raises_before_http
        (Tag_init api existing_id workspace_id name notes) E w)
  /\ (2 <= supplied [existing_id; workspace_id] ->
      raises_before_http
        (Project_init api existing_id workspace_id name notes archived) E w).
Proof.
  unfold supplied, raises_before_http.
  repeat split; intros H.
  - unfold Task_init. rewrite run_bind.
    destruct (py_truthy existing_id) eqn:H1,
             (py_truthy workspace_id) eqn:H2,
             (py_truthy parent_id) eqn:H3;
      cbn in H; rewrite ?H1, ?H2, ?H3 in H; cbn in H; try lia;
      simpl; eauto.
  - unfold Tag_init. rewrite run_bind.
    destruct (py_truthy existing_id) eqn:H1,
             (py_truthy workspace_id) eqn:H2;
      cbn in H; rewrite ?H1, ?H2 in H; cbn in H; try lia;
      simpl; eauto.
  - unfold Project_init. rewrite run_bind.
    destruct (py_truthy existing_id) eqn:H1,
             (py_truthy workspace_id) eqn:H2;
      cbn in H; rewrite ?H1, ?H2 in H; cbn in H; try lia;
      simpl; eauto.
Qed.

Lemma conflicting_ids_witness :
  raises_before_http
    (Task_init Demo.api (VInt 5) (VInt 3) VNone []) Demo.env Demo.w0
  /\ raises_before_http
       (Tag_init Demo.api (VInt 7) (VInt 3) VNone VNone) Demo.env Demo.w0
  /\ raises_before_http
       (Project_init Demo.api (VInt 9) (VInt 3) VNone VNone VNone)
       Demo.env Demo.w0.
Proof.
  split; [|split].
  - exact (proj1 (conflicting_ids_raise_before_http
                    Demo.api (VInt 5) (VInt 3) VNone VNone VNone VNone []
                    Demo.env Demo.w0) (le_n 2)).
  - exact (proj1 (proj2 (conflicting_ids_raise_before_http
                    Demo.api (VInt 7) (VInt 3) VNone VNone VNone VNone []
                    Demo.env Demo.w0)) (le_n 2)).
  - exact (proj2 (proj2 (conflicting_ids_raise_before_http
                    Demo.api (VInt 9) (VInt 3) VNone VNone VNone VNone []
                    Demo.env Demo.w0)) (le_n 2)).
Defined.

(** ** Construction with no id at all *)

(** The [Task] constructor has a last branch for this case and raises the
    domain error there. *)
Lemma Task_init_no_id api task_id workspace_id parent_id kwargs E w :
  py_truthy task_id = false ->
  py_truthy workspace_id = false ->
  py_truthy parent_id = false ->
  Task_init api task_id workspace_id parent_id kwargs E w
  = (Raise (AsanaError "Bug encountered." []), w).
Proof.
  intros H1 H2 H3. unfold Task_init. rewrite run_bind.
  rewrite H1, H2, H3. reflexivity.
Qed.

(** C9: a [Tag] or a [Project] constructed with neither an existing id
    nor a workspace id.  The chain of branches has no final [else], no
    branch binds [jr], and the first use of [jr] fails with an
    [UnboundLocalError], which is not the domain error; no request is
    sent. *)
Theorem Tag_Project_init_no_id_raises_UnboundLocalError
    api existing_id workspace_id name notes archived E w :
  py_truthy existing_id = false ->
  py_truthy workspace_id = false ->
  Tag_init api existing_id workspace_id name notes E w
  = (Raise (UnboundLocalError "jr"), w)
  /\ Project_init api existing_id workspace_id name notes archived E w
     = (Raise (UnboundLocalError "jr"), w)
  /\ is_AsanaError (UnboundLocalError "jr") = false.
Proof.
  intros H1 H2. repeat split.
  - unfold Tag_init. rewrite run_bind. rewrite H1, H2. reflexivity.
  - unfold Project_init. rewrite run_bind. rewrite H1, H2. reflexivity.
Qed.

Lemma Tag_Project_init_no_id_witness :
  Tag_init Demo.api VNone VNone VNone VNone Demo.env Demo.w0
  = (Raise (UnboundLocalError "jr"), Demo.w0)
  /\ Project_init Demo.api VNone VNone VNone VNone VNone Demo.env Demo.w0
     = (Raise (UnboundLocalError "jr"), Demo.w0)
  /\ is_AsanaError (UnboundLocalError "jr") = false.
Proof.
  exact (Tag_Project_init_no_id_raises_UnboundLocalError
           Demo.api VNone VNone VNone VNone VNone Demo.env Demo.w0
           eq_refl eq_refl).
Defined.

(** ** Mutator properties *)

Lemma deref_run self o E w :
  heap w !! self = Some o -> deref self E w = (Ret o, w).
Proof. intros H. unfold deref. rewrite H. reflexivity. Qed.

Lemma self_Task_run self t E w :
  heap w !! self = Some (OTask t) -> self_Task self E w = (Ret t, w).
Proof. intros H. unfold self_Task. rewrite run_bind, (deref_run _ _ _ _ H). reflexivity. Qed.

Lemma self_Workspace_run self x E w :
  heap w !! self = Some (OWorkspace x) -> self_Workspace self E w = (Ret x, w).
Proof. intros H. unfold self_Workspace. rewrite run_bind, (deref_run _ _ _ _ H). reflexivity. Qed.

Lemma self_Tag_run self t E w :
  heap w !! self = Some (OTag t) -> self_Tag self E w = (Ret t, w).
Proof. intros H. unfold self_Tag. rewrite run_bind, (deref_run _ _ _ _ H). reflexivity. Qed.

Lemma self_Project_run self p E w :
  heap w !! self = Some (OProject p) -> self_Project self E w = (Ret p, w).
Proof. intros H. unfold self_Project. rewrite run_bind, (deref_run _ _ _ _ H). reflexivity. Qed.

Lemma self_User_run self u E w :
  heap w !! self = Some (OUser u) -> self_User self E w = (Ret u, w).
Proof. intros H. unfold self_User. rewrite run_bind, (deref_run _ _ _ _ H). reflexivity. Qed.

Lemma self_Story_run self s E w :
  heap w !! self = Some (OStory s) -> self_Story self E w = (Ret s, w).
Proof. intros H. unfold self_Story. rewrite run_bind, (deref_run _ _ _ _ H). reflexivity. Qed.

(** The common shape of the setters: a PUT, then one attribute assignment
    that is reached only when the PUT returned. *)
Lemma put_then_store api resource endpoint body self o' E w :
  (put api resource endpoint body ;;; store self o') E w
  = match fst (put api resource endpoint body E w) with
    | Ret _ =>
        (Ret tt,
         {| heap := <[self := o']> (heap w);
            log := log w ++ [PUT_request E api resource endpoint body] |})
    | Raise e => (Raise e, sent w (PUT_request E api resource endpoint body))
    end.
Proof.
  rewrite run_bind.
  pose proof (put_world api resource endpoint body E w) as Hw.
  destruct (put api resource endpoint body E w) as [[d|e] w1];
    simpl in Hw; subst w1; reflexivity.
Qed.

Lemma lookup_insert_same (h : list object) (self : addr) (o o' : object) :
  h !! self = Some o -> <[self := o']> h !! self = Some o'.
Proof.
  intros H. apply list_lookup_insert_eq. eapply lookup_lt_Some. exact H.
Qed.

(** The nine plain setters: one PUT of [{field: value}] to the own
    endpoint whatever the answer, the attribute assigned when the PUT
    returned, the heap untouched when it raised. *)
Lemma assign_run f self o v E w :
  heap w !! self = Some o ->
  class_of o = field_class f ->
  issues_one_PUT (assign f self v) E w o [(field_name f, v)]
  /\ (fst (assign f self v E w) = Ret tt ->
      then_reads (assign f self v) E w self (read_field f) v)
  /\ (fst (assign f self v E w) <> Ret tt ->
      heap (snd (assign f self v E w)) = heap w).
Proof.
  intros Hself Hclass.
  unfold issues_one_PUT, then_reads, local_value.
  destruct f, o; try discriminate Hclass; clear Hclass; simpl assign;
    match goal with
    | |- context [Task_name_setter] => unfold Task_name_setter; rewrite run_bind, (self_Task_run _ _ _ _ Hself)
    | |- context [Task_notes_setter] => unfold Task_notes_setter; rewrite run_bind, (self_Task_run _ _ _ _ Hself)
    | |- context [Task_completed_setter] => unfold Task_completed_setter; rewrite run_bind, (self_Task_run _ _ _ _ Hself)
    | |- context [Workspace_name_setter] => unfold Workspace_name_setter; rewrite run_bind, (self_Workspace_run _ _ _ _ Hself)
    | |- context [Tag_name_setter] => unfold Tag_name_setter; rewrite run_bind, (self_Tag_run _ _ _ _ Hself)
    | |- context [Tag_notes_setter] => unfold Tag_notes_setter; rewrite run_bind, (self_Tag_run _ _ _ _ Hself)
    | |- context [Project_name_setter] => unfold Project_name_setter; rewrite run_bind, (self_Project_run _ _ _ _ Hself)
    | |- context [Project_notes_setter] => unfold Project_notes_setter; rewrite run_bind, (self_Project_run _ _ _ _ Hself)
    | |- context [Project_archived_setter] => unfold Project_archived_setter; rewrite run_bind, (self_Project_run _ _ _ _ Hself)
    end;
    rewrite put_then_store;
    (destruct (fst (put _ _ _ _ E w)) as [d|e]; simpl;
     [ rewrite (lookup_insert_same _ _ _ _ Hself); simpl;
       split; [reflexivity | split; [reflexivity | congruence]]
     | split; [reflexivity | split; [discriminate | reflexivity]] ]).
Qed.

Lemma assignee_status_rejected self t status E w :
  heap w !! self = Some (OTask t) ->
  py_in_strs status ok_status = false ->
  raises_before_http (Task_assignee_status_setter self status) E w.
Proof.
  intros Hself Hbad. unfold raises_before_http, Task_assignee_status_setter.
  rewrite run_bind, (self_Task_run _ _ _ _ Hself). cbv zeta.
  rewrite run_bind. fold ok_status. rewrite Hbad. simpl. eauto.
Qed.

Lemma assignee_status_accepted self t status E w :
  heap w !! self = Some (OTask t) ->
  py_in_strs status ok_status = true ->
  (exists body,
     issues_one_PUT (Task_assignee_status_setter self status) E w (OTask t) body)
  /\ (fst (Task_assignee_status_setter self status E w) = Ret tt ->
      then_reads (Task_assignee_status_setter self status) E w self
                 read_assignee_status status)
  /\ (fst (Task_assignee_status_setter self status E w) <> Ret tt ->
      heap (snd (Task_assignee_status_setter self status E w)) = heap w).
Proof.
  intros Hself Hok.
  assert (Hrun : Task_assignee_status_setter self status E w
                 = (put (Task_api t) Task_resrc (Task__id t) [("status", status)] ;;;
                    store self (OTask (Task_set__assignee_status status t))) E w).
  { unfold Task_assignee_status_setter.
    rewrite run_bind, (self_Task_run _ _ _ _ Hself). cbv zeta.
    rewrite run_bind. fold ok_status. rewrite Hok. reflexivity. }
  unfold issues_one_PUT, then_reads, local_value.
  rewrite Hrun, put_then_store.
  destruct (fst (put _ _ _ _ E w)) as [d|e]; simpl.
  - rewrite (lookup_insert_same _ _ _ _ Hself). simpl.
    split; [eexists; reflexivity | split; [reflexivity | congruence]].
  - split; [eexists; reflexivity | split; [discriminate | reflexivity]].
Qed.

(** C1, as the code has it.  For the nine fields [Task] name, notes,
    completed, [Workspace] name, [Tag] name, notes, [Project] name, notes,
    archived: the assignment sends exactly one request, a PUT of
    [{field: value}] under the field's own name to the resource's own
    endpoint; when the PUT returns, the getter gives the assigned value
    afterwards, and when it raises, no object has changed.
    [Task.assignee_status] first checks the value: outside the accepted
    statuses it raises the domain error and sends nothing; inside, it
    sends exactly one PUT to the task's own endpoint and, when that
    returns, the getter gives the assigned status. *)
Theorem setters_put_then_update f self o t v status E w :
  (heap w !! self = Some o -> class_of o = field_class f ->
   issues_one_PUT (assign f self v) E w o [(field_name f, v)]
   /\ (fst (assign f self v E w) = Ret tt ->
       then_reads (assign f self v) E w self (read_field f) v)
   /\ (fst (assign f self v E w) <> Ret tt ->
       heap (snd (assign f self v E w)) = heap w))
  /\ (heap w !! self = Some (OTask t) ->
      (py_in_strs status ok_status = false ->
       raises_before_http (Task_assignee_status_setter self status) E w)
      /\ (py_in_strs status ok_status = true ->
          (exists body,
             issues_one_PUT (Task_assignee_status_setter self status) E w
                            (OTask t) body)
          /\ (fst (Task_assignee_status_setter self status E w) = Ret tt ->
              then_reads (Task_assignee_status_setter self status) E w self
                         read_assignee_status status)
          /\ (fst (Task_assignee_status_setter self status E w) <> Ret tt ->
              heap (snd (Task_assignee_status_setter self status E w))
              = heap w))).
Proof.
  split.
  - apply assign_run.
  - intros Hself. split.
    + apply (assignee_status_rejected _ _ _ _ _ Hself).
    + apply (assignee_status_accepted _ _ _ _ _ Hself).
Qed.

Lemma setters_put_then_update_witness :
  issues_one_PUT (assign F_Task_name 0 (VStr "x")) Demo.env Demo.w0
                 (OTask Demo.the_task) [("name", VStr "x")]
  /\ then_reads (assign F_Task_name 0 (VStr "x")) Demo.env Demo.w0 0
                (read_field F_Task_name) (VStr "x")
  /\ raises_before_http
       (Task_assignee_status_setter 0 (VStr "bogus")) Demo.env Demo.w0
  /\ then_reads (Task_assignee_status_setter 0 (VStr "today"))
                Demo.env Demo.w0 0 read_assignee_status (VStr "today").
Proof.
  pose proof (setters_put_then_update F_Task_name 0 (OTask Demo.the_task)
                Demo.the_task (VStr "x") (VStr "bogus") Demo.env Demo.w0)
    as [A B].
  pose proof (setters_put_then_update F_Task_name 0 (OTask Demo.the_task)
                Demo.the_task (VStr "x") (VStr "today") Demo.env Demo.w0)
    as [_ C].
  destruct (A eq_refl eq_refl) as [A1 [A2 _]].
  destruct (B eq_refl) as [B1 _].
  destruct (C eq_refl) as [_ C2].
  destruct (C2 eq_refl) as [_ [C3 _]].
  split; [exact A1 | split; [exact (A2 eq_refl) | split;
    [exact (B1 eq_refl) | exact (C3 eq_refl)]]].
Defined.

(** C1 as stated fails on [Task.assignee_status]: assigning a value that
    is not an accepted status sends no PUT at all. *)
Lemma assignee_status_sends_no_PUT :
  ~ issues_one_PUT (Task_assignee_status_setter 0 (VStr "bogus"))
      Demo.env Demo.w0 (OTask Demo.the_task)
      [("assignee_status", VStr "bogus")].
Proof.
  unfold issues_one_PUT. vm_compute. discriminate.
Qed.

(** The key under which an accepted status is sent. *)
Example assignee_status_today :
  log (snd (Task_assignee_status_setter 0 (VStr "today") Demo.env Demo.w0))
  = [Request PUT "https://app.asana.com/api/1.0/tasks/5" ("key", "")
             (Some [("status", VStr "today")])].
Proof. reflexivity. Qed.

(** ** The setter of [Task.assignee] *)

Lemma decode_accepted r d E w :
  accepted r d -> decode r E w = (Ret d, w).
Proof.
  intros [Hs [Hj Hd]]. unfold decode.
  rewrite run_bind, (check_http_status_success _ _ _ Hs).
  unfold _handle_response. unfold declares_json in Hj.
  destruct (content_type r) as [ct|]; [|discriminate].
  rewrite Hj. unfold lift. rewrite Hd. reflexivity.
Qed.

Lemma put_accepted api resource endpoint body E w :
  always_accepts E ->
  exists d, put api resource endpoint body E w
            = (Ret d, sent w (PUT_request E api resource endpoint body)).
Proof.
  intros Hacc. rewrite put_run. cbv zeta.
  destruct (Hacc (log w) (PUT_request E api resource endpoint body))
    as [r [d [Hr Ha]]].
  rewrite Hr, (decode_accepted _ _ _ _ Ha). exists d. reflexivity.
Qed.

Lemma bind_never_returns {A B} (m : M A) (k : A -> M B) (b : B) E w :
  (forall a w', fst (k a E w') <> Ret b) -> fst (bind m k E w) <> Ret b.
Proof.
  intros Hk. rewrite run_bind.
  destruct (m E w) as [[a|e] w']; [apply Hk | discriminate].
Qed.

Lemma assignee_setter_no_return depth self user E w :
  fst (Task_assignee_setter depth self user E w) <> Ret tt.
Proof.
  revert w. induction depth as [|depth IH]; intros w; simpl.
  - discriminate.
  - apply bind_never_returns. intros t w1.
    apply bind_never_returns. intros user_id w2.
    apply bind_never_returns. intros d w3.
    apply IH.
Qed.

Lemma getattr_id_run u o E w :
  heap w !! u = Some o ->
  except_AttributeError (getattr_id (VObj u))
    (AsanaError "Requires a User object." [VObj u]) E w
  = (Ret (object_id o), w).
Proof.
  intros H. unfold except_AttributeError, getattr_id.
  rewrite run_bind, (deref_run _ _ _ _ H). reflexivity.
Qed.

Lemma assignee_setter_unrolls depth self t u o E w :
  always_accepts E ->
  heap w !! self = Some (OTask t) ->
  heap w !! u = Some o ->
  Task_assignee_setter depth self (VObj u) E w
  = (Raise RuntimeError,
     {| heap := heap w;
        log := log w ++
               repeat (PUT_request E (Task_api t) Task_resrc (Task__id t)
                                   [("assignee", object_id o)]) depth |}).
Proof.
  intros Hacc. revert w.
  induction depth as [|depth IH]; intros w Hself Hu; simpl.
  - unfold raise. rewrite app_nil_r. destruct w; reflexivity.
  - rewrite run_bind, (self_Task_run _ _ _ _ Hself).
    rewrite run_bind, (getattr_id_run _ _ _ _ Hu).
    rewrite run_bind.
    destruct (put_accepted (Task_api t) Task_resrc (Task__id t)
                [("assignee", object_id o)] E w Hacc) as [d ->].
    rewrite IH by exact Hself || exact Hu. simpl.
    rewrite <- app_assoc. reflexivity.
Qed.

(** C5: the setter of [Task.assignee] never returns.  Whatever the
    argument, the world and the number of frames the interpreter allows,
    the call ends in an exception; and for a resource object as argument
    and a service that accepts every PUT, each frame sends the PUT and
    calls the setter again, so that with [depth] frames exactly [depth]
    identical PUTs are sent before the interpreter gives up with its
    recursion error. *)
Theorem assignee_setter_recurses_forever depth self t user u o E w :
  fst (Task_assignee_setter depth self user E w) <> Ret tt
  /\ (always_accepts E ->
      heap w !! self = Some (OTask t) ->
      heap w !! u = Some o ->
      Task_assignee_setter depth self (VObj u) E w
      = (Raise RuntimeError,
         {| heap := heap w;
            log := log w ++
                   repeat (PUT_request E (Task_api t) Task_resrc (Task__id t)
                                       [("assignee", object_id o)]) depth |})).
Proof.
  split.
  - apply assignee_setter_no_return.
  - apply assignee_setter_unrolls.
Qed.

Lemma accepting_always_accepts : always_accepts Demo.env_accepting.
Proof.
  intros history rq. exists (Response 200 (Some "application/json; charset=UTF-8")
                               (VDict [("data", Demo.task5)])), Demo.task5.
  split; [reflexivity|]. split; [left; reflexivity|]. split; reflexivity.
Defined.

Lemma assignee_setter_witness :
  fst (Task_assignee_setter 3 0 (VObj 4) Demo.env_accepting Demo.w0) <> Ret tt
  /\ Task_assignee_setter 3 0 (VObj 4) Demo.env_accepting Demo.w0
     = (Raise RuntimeError,
        {| heap := heap Demo.w0;
           log := log Demo.w0 ++
                  repeat (PUT_request Demo.env_accepting Demo.api Task_resrc
                                      (VInt 5) [("assignee", VInt 4)]) 3 |}).
Proof.
  pose proof (assignee_setter_recurses_forever 3 0 Demo.the_task (VObj 4) 4
                (OUser Demo.the_user) Demo.env_accepting Demo.w0) as [A B].
  split; [exact A | exact (B accepting_always_accepts eq_refl eq_refl)].
Defined.

(** ** Attaching tags and projects to a task *)

Lemma change_obj_run self t arg endpoint datatype E w :
  heap w !! self = Some (OTask t) ->
  Task__change_obj self arg endpoint datatype E w
  = if isinstance_int (sys_maxint E) arg || isinstance_str arg then
      (post (Task_api t) Task_resrc endpoint [(datatype, arg)] ;;; ret tt) E w
    else if String.eqb datatype "tag" && instance_of w arg CTag then
      (id <- getattr_id arg ;;
       post (Task_api t) Task_resrc endpoint [(datatype, id)] ;;; ret tt) E w
    else if String.eqb datatype "project" && instance_of w arg CProject then
      (id <- getattr_id arg ;;
       post (Task_api t) Task_resrc endpoint [(datatype, id)] ;;; ret tt) E w
    else (Raise (AsanaError ("Requires an int, str, or " ++ datatype) []), w).
Proof.
  intros Hself. unfold Task__change_obj.
  rewrite run_bind, (self_Task_run _ _ _ _ Hself).
  rewrite run_bind. unfold isinstance_Tag at 1. cbv beta iota.
  rewrite run_bind. unfold isinstance_Project at 1. cbv beta iota.
  rewrite run_bind. unfold isinstance_int_ at 1. cbv beta iota.
  destruct (isinstance_int (sys_maxint E) arg || isinstance_str arg);
    [reflexivity|].
  assert (HT : match arg with
               | VObj a => match heap w !! a with
                           | Some (OTag _) => true | _ => false end
               | _ => false
               end = instance_of w arg CTag).
  { unfold instance_of. destruct arg; try reflexivity.
    destruct (heap w !! a) as [[]|]; reflexivity. }
  assert (HP : match arg with
               | VObj a => match heap w !! a with
                           | Some (OProject _) => true | _ => false end
               | _ => false
               end = instance_of w arg CProject).
  { unfold instance_of. destruct arg; try reflexivity.
    destruct (heap w !! a) as [[]|]; reflexivity. }
  rewrite HT, HP.
  destruct (String.eqb datatype "tag" && instance_of w arg CTag); [reflexivity|].
  destruct (String.eqb datatype "project" && instance_of w arg CProject);
    reflexivity.
Qed.

Lemma post_unit_world api resource endpoint data E w :
  snd ((post api resource endpoint data ;;; ret tt) E w)
  = sent w (POST_request E api resource endpoint data).
Proof.
  rewrite snd_bind_pure by (intros; apply pure_ret). apply post_world.
Qed.

Lemma attach_method_run op self t arg E w :
  heap w !! self = Some (OTask t) ->
  attach_method op self arg E w
  = Task__change_obj self arg
      (VStr (py_str (py_repr E) (Task__id t) ++ attach_suffix op))
      (attach_datatype op) E w.
Proof.
  intros Hself.
  destruct op; simpl attach_method;
    [unfold Task_add_tag | unfold Task_remove_tag
     | unfold Task_add_project | unfold Task_remove_project];
    rewrite run_bind, (self_Task_run _ _ _ _ Hself);
    rewrite run_bind, fmt_suffix_run; reflexivity.
Qed.

(** C7, amended: [add_tag], [remove_tag], [add_project] and
    [remove_project] on a task.  An [int] (an integer that fits in a
    machine word, or a [bool]) or [str] argument is posted as it is, a
    [Tag] (respectively [Project]) object is replaced by its id; in each
    case exactly one request is sent, a POST of [{"tag": id}]
    (respectively [{"project": id}]) to the sub-endpoint of the task.  So
    the int [i] and a tag whose id is [i] give the same payload.  An
    argument of any other type, a [long] among them, raises the domain
    error and nothing is sent. *)
Theorem attach_posts_normalised_id op self t arg E w :
  heap w !! self = Some (OTask t) ->
  let endpoint := VStr (py_str (py_repr E) (Task__id t) ++ attach_suffix op) in
  let posts x :=
    log (snd (attach_method op self arg E w))
    = (log w ++ [POST_request E (Task_api t) Task_resrc endpoint
                              [(attach_datatype op, x)]])%list in
  (isinstance_int (sys_maxint E) arg = true \/ isinstance_str arg = true ->
   posts arg)
  /\ (forall a o, arg = VObj a -> heap w !! a = Some o ->
                  class_of o = attach_class op -> posts (object_id o))
  /\ (isinstance_int (sys_maxint E) arg = false ->
      isinstance_str arg = false ->
      instance_of w arg (attach_class op) = false ->
      raises_before_http (attach_method op self arg) E w).
Proof.
  intros Hself endpoint posts. subst posts endpoint. cbv beta.
  unfold raises_before_http.
  rewrite (attach_method_run _ _ _ _ _ _ Hself).
  rewrite (change_obj_run _ _ _ _ _ _ _ Hself).
  split; [|split].
  - intros Hscalar.
    assert (isinstance_int (sys_maxint E) arg || isinstance_str arg = true)
      as ->
      by (destruct Hscalar as [-> | ->]; [reflexivity | apply orb_true_r]).
    rewrite post_unit_world. reflexivity.
  - intros a o -> Ha Hclass. simpl isinstance_int. simpl isinstance_str.
    cbn [orb]. unfold instance_of. rewrite Ha.
    assert (Hrun : forall k : value -> M unit,
               (id <- getattr_id (VObj a) ;; k id) E w = k (object_id o) E w).
    { intros k. rewrite run_bind. unfold getattr_id.
      rewrite run_bind, (deref_run _ _ _ _ Ha). reflexivity. }
    destruct op; simpl in Hclass; destruct o; try discriminate Hclass;
      simpl; rewrite Hrun, post_unit_world; reflexivity.
  - intros Hint Hstr Hinst. rewrite Hint, Hstr. cbn [orb].
    destruct op; simpl in Hinst |- *; rewrite ?Hinst; simpl;
      rewrite ?andb_false_r; eauto.
Qed.

Lemma attach_posts_normalised_id_witness :
  let rq x := POST_request Demo.env Demo.api Task_resrc (VStr "5/addTag")
                           [("tag", x)] in
  log (snd (Task_add_tag 0 (VInt 7) Demo.env Demo.w0)) = [rq (VInt 7)]
  /\ log (snd (Task_add_tag 0 (VStr "7") Demo.env Demo.w0)) = [rq (VStr "7")]
  /\ log (snd (Task_add_tag 0 (VObj 1) Demo.env Demo.w0)) = [rq (VInt 7)]
  /\ raises_before_http (Task_add_tag 0 (VFloat 1%Qc)) Demo.env Demo.w0
  /\ raises_before_http (Task_add_tag 0 (VInt (2 ^ 70))) Demo.env Demo.w0.
Proof.
  cbv zeta. split; [|split; [|split; [|split]]].
  - exact (proj1 (attach_posts_normalised_id AddTag 0 Demo.the_task (VInt 7)
                    Demo.env Demo.w0 eq_refl) (or_introl eq_refl)).
  - exact (proj1 (attach_posts_normalised_id AddTag 0 Demo.the_task (VStr "7")
                    Demo.env Demo.w0 eq_refl) (or_intror eq_refl)).
  - exact (proj1 (proj2 (attach_posts_normalised_id AddTag 0 Demo.the_task
                           (VObj 1) Demo.env Demo.w0 eq_refl))
                 1 (OTag Demo.the_tag) eq_refl eq_refl eq_refl).
  - exact (proj2 (proj2 (attach_posts_normalised_id AddTag 0 Demo.the_task
                           (VFloat 1%Qc) Demo.env Demo.w0 eq_refl))
                 eq_refl eq_refl eq_refl).
  - exact (proj2 (proj2 (attach_posts_normalised_id AddTag 0 Demo.the_task
                           (VInt (2 ^ 70)) Demo.env Demo.w0 eq_refl))
                 eq_refl eq_refl eq_refl).
Defined.

(** C7 as stated fails on an integer that does not fit in a machine word:
    [2 ** 70] is a [long], not an [int], so [add_tag] does not post
    [{"tag": 2 ** 70}] but raises the domain error and sends nothing. *)
Lemma add_tag_long_integer_sends_no_POST :
  Task_add_tag 0 (VInt (2 ^ 70)) Demo.env Demo.w0
  = (Raise (AsanaError "Requires an int, str, or tag" []), Demo.w0)
  /\ log (snd (Task_add_tag 0 (VInt (2 ^ 70)) Demo.env Demo.w0))
     <> (log Demo.w0 ++
         [POST_request Demo.env Demo.api Task_resrc (VStr "5/addTag")
                       [("tag", VInt (2 ^ 70))]])%list.
Proof.
  split; [reflexivity|]. vm_compute. discriminate.
Qed.

(** ** Computations that send nothing *)

Existing Class quiet.

#[global] Instance quiet_pure {A} (m : M A) : pure_ m -> quiet m | 100.
Proof. intros H E w. rewrite H. reflexivity. Qed.

#[global] Instance quiet_new o : quiet (new o).
Proof. intros E w. reflexivity. Qed.

#[global] Instance quiet_store a o : quiet (store a o).
Proof. intros E w. reflexivity. Qed.

#[global] Instance quiet_deref a : quiet (deref a).
Proof. intros E w. unfold deref. destruct (heap w !! a); reflexivity. Qed.

#[global] Instance quiet_bind {A B} (m : M A) (k : A -> M B) :
  quiet m -> (forall a, quiet (k a)) -> quiet (bind m k).
Proof.
  intros Hm Hk E w. rewrite run_bind. specialize (Hm E w).
  destruct (m E w) as [[a|e] w']; simpl in Hm.
  - rewrite Hk. exact Hm.
  - exact Hm.
Qed.

#[global] Instance quiet_if {A} (b : bool) (m1 m2 : M A) :
  quiet m1 -> quiet m2 -> quiet (if b then m1 else m2).
Proof. destruct b; auto. Qed.

Lemma log_bind_quiet {A B} (m : M A) (k : A -> M B) E w :
  (forall a, quiet (k a)) -> log (snd (bind m k E w)) = log (snd (m E w)).
Proof.
  intros Hk. rewrite run_bind.
  destruct (m E w) as [[a|e] w']; simpl; [apply Hk | reflexivity].
Qed.

(** ** Creation parameters passed under one keyword *)

Lemma Task_init_by_workspace api workspace_id kwargs E w :
  py_truthy workspace_id = true ->
  log (snd (Task_init api VNone workspace_id VNone kwargs E w))
  = (log w ++ [POST_request E api Task_resrc (VStr "")
                 (dict_of_items ([("workspace", workspace_id)] ++ kwargs))])%list.
Proof.
  intros Hws. unfold Task_init. simpl py_truthy. rewrite Hws.
  cbn [andb orb]. rewrite run_bind. unfold ret at 1. cbv beta iota zeta.
  rewrite log_bind_quiet by apply _.
  rewrite post_world. reflexivity.
Qed.

Lemma Task_init_by_parent api parent_id kwargs E w :
  py_truthy parent_id = true ->
  log (snd (Task_init api VNone VNone parent_id kwargs E w))
  = (log w ++ [POST_request E api Task_resrc
                 (VStr (py_str (py_repr E) parent_id ++ "/subtasks"))
                 kwargs])%list.
Proof.
  intros Hp. unfold Task_init. simpl py_truthy. rewrite Hp.
  cbn [andb orb]. rewrite run_bind. unfold ret at 1. cbv beta iota zeta.
  rewrite log_bind_quiet by apply _.
  rewrite run_bind, fmt_suffix_run.
  rewrite post_world. reflexivity.
Qed.

(** C10: [Workspace.create_task] and [Task.add_subtask] hand their named
    arguments to the [Task] constructor as one keyword argument called
    [kwargs]: the constructor runs with the keyword dictionary
    [{'kwargs': parameters}], and the one POST it sends has a [kwargs]
    entry holding the whole dictionary of parameters, next to [workspace]
    for [create_task] and alone for [add_subtask]; the parameters do not
    appear as entries of their own. *)
Theorem creation_parameters_nested_under_kwargs kwargs self x t E w :
  (heap w !! self = Some (OWorkspace x) ->
   Workspace_create_task self kwargs E w
   = Task_init (Workspace_api x) VNone (Workspace__id x) VNone
               [("kwargs", VDict kwargs)] E w
   /\ (py_truthy (Workspace__id x) = true ->
       log (snd (Workspace_create_task self kwargs E w))
       = (log w ++ [POST_request E (Workspace_api x) Task_resrc (VStr "")
                      [("workspace", Workspace__id x);
                       ("kwargs", VDict kwargs)]])%list))
  /\ (heap w !! self = Some (OTask t) ->
      Task_add_subtask self kwargs E w
      = Task_init (Task_api t) VNone VNone (Task__id t)
                  [("kwargs", VDict kwargs)] E w
      /\ (py_truthy (Task__id t) = true ->
          log (snd (Task_add_subtask self kwargs E w))
          = (log w ++ [POST_request E (Task_api t) Task_resrc
                         (VStr (py_str (py_repr E) (Task__id t) ++ "/subtasks"))
                         [("kwargs", VDict kwargs)]])%list)).
Proof.
  split; intros Hself.
  - assert (Hrun : Workspace_create_task self kwargs E w
                   = Task_init (Workspace_api x) VNone (Workspace__id x) VNone
                               [("kwargs", VDict kwargs)] E w).
    { unfold Workspace_create_task.
      rewrite run_bind, (self_Workspace_run _ _ _ _ Hself). reflexivity. }
    split; [exact Hrun|]. intros Hid.
    rewrite Hrun, (Task_init_by_workspace _ _ _ _ _ Hid). reflexivity.
  - assert (Hrun : Task_add_subtask self kwargs E w
                   = Task_init (Task_api t) VNone VNone (Task__id t)
                               [("kwargs", VDict kwargs)] E w).
    { unfold Task_add_subtask.
      rewrite run_bind, (self_Task_run _ _ _ _ Hself). reflexivity. }
    split; [exact Hrun|]. intros Hid.
    rewrite Hrun, (Task_init_by_parent _ _ _ _ _ Hid). reflexivity.
Qed.

Lemma creation_parameters_witness :
  log (snd (Workspace_create_task 3 [("name", VStr "x")] Demo.env Demo.w0))
  = [POST_request Demo.env Demo.api Task_resrc (VStr "")
       [("workspace", VInt 3); ("kwargs", VDict [("name", VStr "x")])]]
  /\ log (snd (Task_add_subtask 0 [("name", VStr "x")] Demo.env Demo.w0))
     = [POST_request Demo.env Demo.api Task_resrc (VStr "5/subtasks")
          [("kwargs", VDict [("name", VStr "x")])]].
Proof.
  split.
  - exact (proj2 (proj1 (creation_parameters_nested_under_kwargs
                    [("name", VStr "x")] 3 Demo.the_workspace Demo.the_task
                    Demo.env Demo.w0) eq_refl) eq_refl).
  - exact (proj2 (proj2 (creation_parameters_nested_under_kwargs
                    [("name", VStr "x")] 0 Demo.the_workspace Demo.the_task
                    Demo.env Demo.w0) eq_refl) eq_refl).
Defined.

(** ** Inversion of returning computations *)

Lemma bind_ret_inv {A B} (m : M A) (k : A -> M B) E w b w' :
  bind m k E w = (Ret b, w') ->
  exists a w1, m E w = (Ret a, w1) /\ k a E w1 = (Ret b, w').
Proof.
  rewrite run_bind. destruct (m E w) as [[a|e] w1]; [eauto | discriminate].
Qed.

Lemma lift_ret_inv {A} (o : outcome A) E w a w' :
  lift o E w = (Ret a, w') -> o = Ret a /\ w' = w.
Proof. unfold lift. intros H. inversion H. auto. Qed.

Lemma pure_ret_inv {A} (m : M A) E w a w' :
  pure_ m -> m E w = (Ret a, w') -> w' = w.
Proof. intros Hp H. specialize (Hp E w). rewrite H in Hp. exact Hp. Qed.

Lemma get_ret_inv api resource endpoint E w jr w' :
  get api resource endpoint E w = (Ret jr, w') ->
  w' = sent w (GET_request E api resource endpoint).
Proof.
  intros H. pose proof (get_world api resource endpoint E w) as Hw.
  rewrite H in Hw. exact Hw.
Qed.

Lemma post_ret_inv api resource endpoint data E w jr w' :
  post api resource endpoint data E w = (Ret jr, w') ->
  w' = sent w (POST_request E api resource endpoint data).
Proof.
  intros H. pose proof (post_world api resource endpoint data E w) as Hw.
  rewrite H in Hw. exact Hw.
Qed.

(** ** Computations that only add to the log *)

Existing Class grows.

#[global] Instance grows_quiet {A} (m : M A) : quiet m -> grows m | 100.
Proof. intros H E w. exists []. rewrite app_nil_r. apply H. Qed.

#[global] Instance grows_bind {A B} (m : M A) (k : A -> M B) :
  grows m -> (forall a, grows (k a)) -> grows (bind m k).
Proof.
  intros Hm Hk E w. rewrite run_bind. destruct (Hm E w) as [l Hl].
  destruct (m E w) as [[a|e] w1]; simpl in Hl.
  - destruct (Hk a E w1) as [l' Hl']. exists (l ++ l')%list.
    rewrite Hl', Hl, app_assoc. reflexivity.
  - exists l. exact Hl.
Qed.

#[global] Instance grows_get api resource endpoint :
  grows (get api resource endpoint).
Proof. intros E w. rewrite get_world. eexists. reflexivity. Qed.

#[global] Instance grows_post api resource endpoint data :
  grows (post api resource endpoint data).
Proof. intros E w. rewrite post_world. eexists. reflexivity. Qed.

#[global] Instance grows_put api resource endpoint data :
  grows (put api resource endpoint data).
Proof. intros E w. rewrite put_world. eexists. reflexivity. Qed.

#[global] Instance grows_if {A} (b : bool) (m1 m2 : M A) :
  grows m1 -> grows m2 -> grows (if b then m1 else m2).
Proof. destruct b; auto. Qed.

#[global] Instance grows_option {A B} (o : option A) (f : A -> M B) (g : M B) :
  (forall a, grows (f a)) -> grows g ->
  grows (match o with Some a => f a | None => g end).
Proof. destruct o; auto. Qed.

#[global] Instance grows_mapM {A B} (f : A -> M B) (l : list A) :
  (forall x, grows (f x)) -> grows (mapM f l).
Proof.
  intros Hf. induction l as [|x xs IH]; simpl; apply _.
Qed.

#[global] Instance grows_wrap_each ctor iterable :
  (forall id, grows (ctor id)) -> grows (wrap_each ctor iterable).
Proof. intros Hc. unfold wrap_each. apply _. Qed.

#[global] Instance grows_User_init api id : grows (User_init api id).
Proof. unfold User_init. apply _. Qed.

#[global] Instance grows_Workspace_init api id : grows (Workspace_init api id).
Proof. unfold Workspace_init. apply _. Qed.

#[global] Instance grows_Story_init api id : grows (Story_init api id).
Proof. unfold Story_init. apply _. Qed.

#[global] Instance grows_Task_init api a b c kwargs :
  grows (Task_init api a b c kwargs).
Proof. unfold Task_init, fmt_suffix. cbv zeta. apply _. Qed.

#[global] Instance grows_Tag_init api a b c d : grows (Tag_init api a b c d).
Proof. unfold Tag_init. apply _. Qed.

#[global] Instance grows_Project_init api a b c d e :
  grows (Project_init api a b c d e).
Proof. unfold Project_init. apply _. Qed.

(** ** Relationship accessors *)

Lemma log_bind_get {B} api resource endpoint (k : value -> M B) E w :
  (forall jr, grows (k jr)) ->
  exists l,
    log (snd (bind (get api resource endpoint) k E w))
    = (log w ++ GET_request E api resource endpoint :: l)%list.
Proof.
  intros Hk. rewrite run_bind.
  pose proof (get_world api resource endpoint E w) as Hw.
  destruct (get api resource endpoint E w) as [[jr|e] w1];
    simpl in Hw; subst w1.
  - destruct (Hk jr E (sent w (GET_request E api resource endpoint)))
      as [l Hl].
    exists l. rewrite Hl. simpl. rewrite <- app_assoc. reflexivity.
  - exists []. reflexivity.
Qed.

(** Every accessor that is not memoized starts with a GET, whatever the
    state of the object and whatever was fetched before. *)
Lemma access_starts_with_GET r self o E w :
  memoized r = false ->
  heap w !! self = Some o ->
  class_of o = relationship_class r ->
  exists l,
    log (snd (access r self E w)) = (log w ++ relationship_GET E r o :: l)%list.
Proof.
  intros Hm Hself Hclass.
  destruct r; try discriminate Hm; clear Hm;
    destruct o; try discriminate Hclass; clear Hclass;
    unfold relationship_GET; simpl;
    [ unfold User_workspaces; rewrite run_bind, (self_User_run _ _ _ _ Hself)
    | unfold Task_parent; rewrite run_bind, (self_Task_run _ _ _ _ Hself)
    | unfold Task_workspace; rewrite run_bind, (self_Task_run _ _ _ _ Hself)
    | unfold Task_assignee; rewrite run_bind, (self_Task_run _ _ _ _ Hself)
    | unfold Task_followers; rewrite run_bind, (self_Task_run _ _ _ _ Hself)
    | unfold Task_projects; rewrite run_bind, (self_Task_run _ _ _ _ Hself)
    | unfold Task_tags; rewrite run_bind, (self_Task_run _ _ _ _ Hself)
    | unfold Task_subtasks; rewrite run_bind, (self_Task_run _ _ _ _ Hself)
    | unfold Task_comments; rewrite run_bind, (self_Task_run _ _ _ _ Hself)
    | unfold Workspace_users; rewrite run_bind, (self_Workspace_run _ _ _ _ Hself)
    | unfold Workspace_projects; rewrite run_bind, (self_Workspace_run _ _ _ _ Hself)
    | unfold Workspace_tags; rewrite run_bind, (self_Workspace_run _ _ _ _ Hself)
    | unfold Tag_followers; rewrite run_bind, (self_Tag_run _ _ _ _ Hself)
    | unfold Tag_tasks; rewrite run_bind, (self_Tag_run _ _ _ _ Hself)
    | unfold Project_tasks; rewrite run_bind, (self_Project_run _ _ _ _ Hself)
    | unfold Project_followers; rewrite run_bind, (self_Project_run _ _ _ _ Hself)
    | unfold Project_comments; rewrite run_bind, (self_Project_run _ _ _ _ Hself)
    | unfold Story_created_by; rewrite run_bind, (self_Story_run _ _ _ _ Hself) ];
    try (rewrite run_bind, fmt_suffix_run);
    apply log_bind_get; apply _.
Qed.

(** ** The memoized workspace of a tag and of a project *)

Lemma Workspace_init_ret api wid E w v w' :
  Workspace_init api wid E w = (Ret v, w') ->
  exists x,
    v = VObj (length (heap w))
    /\ w' = {| heap := heap w ++ [OWorkspace x];
               log := log w ++ [GET_request E api Workspace_resrc wid] |}.
Proof.
  unfold Workspace_init. intros H.
  apply bind_ret_inv in H as [jr [w1 [Hget H]]].
  apply get_ret_inv in Hget. subst w1.
  apply bind_ret_inv in H as [id [w2 [H1 H]]].
  apply lift_ret_inv in H1 as [_ ->].
  apply bind_ret_inv in H as [name [w3 [H2 H]]].
  apply lift_ret_inv in H2 as [_ ->].
  unfold new in H. inversion H. eexists. split; reflexivity.
Qed.

Lemma fetch_workspace_ret api resource endpoint E w v w' :
  (jr <- get api resource endpoint ;;
   workspace <- lift (getitem jr "workspace") ;;
   id <- lift (getitem workspace "id") ;;
   Workspace_init api id) E w = (Ret v, w') ->
  exists wid x,
    v = VObj (length (heap w))
    /\ w' = {| heap := heap w ++ [OWorkspace x];
               log := log w ++ [GET_request E api resource endpoint;
                                GET_request E api Workspace_resrc wid] |}.
Proof.
  intros H.
  apply bind_ret_inv in H as [jr [w1 [Hget H]]].
  apply get_ret_inv in Hget. subst w1.
  apply bind_ret_inv in H as [ws [w2 [H1 H]]].
  apply lift_ret_inv in H1 as [_ ->].
  apply bind_ret_inv in H as [wid [w3 [H2 H]]].
  apply lift_ret_inv in H2 as [_ ->].
  apply Workspace_init_ret in H as [x [-> ->]].
  exists wid, x. simpl. rewrite <- app_assoc. split; reflexivity.
Qed.

Lemma Tag_workspace_cached self t E w :
  heap w !! self = Some (OTag t) ->
  py_truthy (Tag__workspace t) = true ->
  Tag_workspace self E w = (Ret (Tag__workspace t), w).
Proof.
  intros Hself Hc. unfold Tag_workspace.
  rewrite run_bind, (self_Tag_run _ _ _ _ Hself). rewrite Hc. cbn [negb].
  rewrite run_bind. unfold ret at 1. cbv beta iota.
  rewrite run_bind, (self_Tag_run _ _ _ _ Hself). reflexivity.
Qed.

Lemma Project_workspace_cached self p E w :
  heap w !! self = Some (OProject p) ->
  py_truthy (Project__workspace p) = true ->
  Project_workspace self E w = (Ret (Project__workspace p), w).
Proof.
  intros Hself Hc. unfold Project_workspace.
  rewrite run_bind, (self_Project_run _ _ _ _ Hself). rewrite Hc. cbn [negb].
  rewrite run_bind. unfold ret at 1. cbv beta iota.
  rewrite run_bind, (self_Project_run _ _ _ _ Hself). reflexivity.
Qed.

Lemma lookup_after_alloc (h : list object) (self : addr) (o o' x : object) :
  h !! self = Some o ->
  <[self := o']> (h ++ [x])%list !! self = Some o'
  /\ <[self := o']> (h ++ [x])%list !! length h = Some x.
Proof.
  intros H. pose proof (lookup_lt_Some _ _ _ H) as Hlt. split.
  - apply list_lookup_insert_eq. rewrite length_app. simpl. lia.
  - rewrite list_lookup_insert_ne by lia. apply list_lookup_middle. reflexivity.
Qed.

Lemma Tag_workspace_first self t E w v w' :
  heap w !! self = Some (OTag t) ->
  py_truthy (Tag__workspace t) = false ->
  Tag_workspace self E w = (Ret v, w') ->
  exists wid x,
    v = VObj (length (heap w))
    /\ w' = {| heap := <[self := OTag (Tag_set__workspace v t)]>
                         (heap w ++ [OWorkspace x])%list;
               log := log w ++ [GET_request E (Tag_api t) Tag_resrc (Tag__id t);
                                GET_request E (Tag_api t) Workspace_resrc wid] |}.
Proof.
  intros Hself Hc H. unfold Tag_workspace in H.
  rewrite run_bind, (self_Tag_run _ _ _ _ Hself) in H. rewrite Hc in H.
  cbn [negb] in H.
  apply bind_ret_inv in H as [u [w1 [Hbody H]]].
  assert (Hfetch : exists ws w2,
             (jr <- get (Tag_api t) Tag_resrc (Tag__id t) ;;
              workspace <- lift (getitem jr "workspace") ;;
              id <- lift (getitem workspace "id") ;;
              Workspace_init (Tag_api t) id) E w = (Ret ws, w2)
             /\ store self (OTag (Tag_set__workspace ws t)) E w2 = (Ret u, w1)).
  { apply bind_ret_inv in Hbody as [jr [wa [Ha Hbody]]].
    apply bind_ret_inv in Hbody as [wsj [wb [Hb Hbody]]].
    apply bind_ret_inv in Hbody as [id [wc [Hc' Hbody]]].
    apply bind_ret_inv in Hbody as [ws [wd [Hd Hbody]]].
    exists ws, wd. split; [|exact Hbody].
    rewrite run_bind, Ha. rewrite run_bind, Hb. rewrite run_bind, Hc'.
    exact Hd. }
  destruct Hfetch as [ws [w2 [Hfetch Hstore]]].
  apply fetch_workspace_ret in Hfetch as [wid [x [-> ->]]].
  unfold store in Hstore. inversion Hstore. subst w1. clear Hstore.
  destruct (lookup_after_alloc (heap w) self (OTag t)
              (OTag (Tag_set__workspace (VObj (length (heap w))) t))
              (OWorkspace x) Hself) as [Hs _].
  rewrite run_bind in H.
  match type of H with
  | context [self_Tag self E ?w2] => rewrite (self_Tag_run self _ E w2 Hs) in H
  end.
  unfold ret in H. inversion H. subst.
  exists wid, x. split; reflexivity.
Qed.

Lemma Project_workspace_first self p E w v w' :
  heap w !! self = Some (OProject p) ->
  py_truthy (Project__workspace p) = false ->
  Project_workspace self E w = (Ret v, w') ->
  exists wid x,
    v = VObj (length (heap w))
    /\ w' = {| heap := <[self := OProject (Project_set__workspace v p)]>
                         (heap w ++ [OWorkspace x])%list;
               log := log w ++ [GET_request E (Project_api p) Project_resrc
                                            (Project__id p);
                                GET_request E (Project_api p) Workspace_resrc
                                            wid] |}.
Proof.
  intros Hself Hc H. unfold Project_workspace in H.
  rewrite run_bind, (self_Project_run _ _ _ _ Hself) in H. rewrite Hc in H.
  cbn [negb] in H.
  apply bind_ret_inv in H as [u [w1 [Hbody H]]].
  assert (Hfetch : exists ws w2,
             (jr <- get (Project_api p) Project_resrc (Project__id p) ;;
              workspace <- lift (getitem jr "workspace") ;;
              id <- lift (getitem workspace "id") ;;
              Workspace_init (Project_api p) id) E w = (Ret ws, w2)
             /\ store self (OProject (Project_set__workspace ws p)) E w2
                = (Ret u, w1)).
  { apply bind_ret_inv in Hbody as [jr [wa [Ha Hbody]]].
    apply bind_ret_inv in Hbody as [wsj [wb [Hb Hbody]]].
    apply bind_ret_inv in Hbody as [id [wc [Hc' Hbody]]].
    apply bind_ret_inv in Hbody as [ws [wd [Hd Hbody]]].
    exists ws, wd. split; [|exact Hbody].
    rewrite run_bind, Ha. rewrite run_bind, Hb. rewrite run_bind, Hc'.
    exact Hd. }
  destruct Hfetch as [ws [w2 [Hfetch Hstore]]].
  apply fetch_workspace_ret in Hfetch as [wid [x [-> ->]]].
  unfold store in Hstore. inversion Hstore. subst w1. clear Hstore.
  destruct (lookup_after_alloc (heap w) self (OProject p)
              (OProject (Project_set__workspace (VObj (length (heap w))) p))
              (OWorkspace x) Hself) as [Hs _].
  rewrite run_bind in H.
  match type of H with
  | context [self_Project self E ?w2] =>
      rewrite (self_Project_run self _ E w2 Hs) in H
  end.
  unfold ret in H. inversion H. subst.
  exists wid, x. split; reflexivity.
Qed.

(** C6, as the code has it.  For the workspace of a tag and of a project:
    once the attribute [_workspace] holds an object, an access returns
    that very object and leaves the world as it is, so nothing is sent;
    and a first access that returns has sent exactly two GETs (the tag's
    or project's own record, then the record of the workspace, fetched by
    the [Workspace] constructor), has stored the new [Workspace] object on
    the instance and returns it on the next access.  Every other
    relationship accessor sends a GET each time it is called, whatever the
    state. *)
Theorem workspace_memoized_others_refetch r self o E w :
  heap w !! self = Some o ->
  class_of o = relationship_class r ->
  (memoized r = true ->
   forall c, cached_workspace o = Some c ->
     (py_truthy c = true -> access r self E w = (Ret c, w))
     /\ (py_truthy c = false ->
         forall v w', access r self E w = (Ret v, w') ->
           (exists wid,
              log w' = (log w ++ [relationship_GET E r o;
                                  GET_request E (object_api o) Workspace_resrc
                                              wid])%list)
           /\ refers_to w' CWorkspace v
           /\ local_value w' self cached_workspace = Some v
           /\ access r self E w' = (Ret v, w')))
  /\ (memoized r = false ->
      exists l,
        log (snd (access r self E w))
        = (log w ++ relationship_GET E r o :: l)%list).
Proof.
  intros Hself Hclass. split; intros Hm.
  - destruct r; try discriminate Hm; clear Hm;
      destruct o as [| | |t|p|]; try discriminate Hclass; clear Hclass;
      simpl access; intros c Hc; inversion Hc; subst c; clear Hc; split.
    + apply Tag_workspace_cached. exact Hself.
    + intros Hfalse v w' H.
      apply (Tag_workspace_first _ _ _ _ _ _ Hself Hfalse) in H
        as [wid [x [-> ->]]].
      destruct (lookup_after_alloc (heap w) self (OTag t)
                  (OTag (Tag_set__workspace (VObj (length (heap w))) t))
                  (OWorkspace x) Hself) as [Hs Hx].
      split; [exists wid; reflexivity|].
      split; [exists (length (heap w)), (OWorkspace x); auto|].
      split.
      * unfold local_value. simpl heap. rewrite Hs. reflexivity.
      * match goal with
        | |- Tag_workspace self E ?w2 = _ =>
            exact (Tag_workspace_cached self _ E w2 Hs eq_refl)
        end.
    + apply Project_workspace_cached. exact Hself.
    + intros Hfalse v w' H.
      apply (Project_workspace_first _ _ _ _ _ _ Hself Hfalse) in H
        as [wid [x [-> ->]]].
      destruct (lookup_after_alloc (heap w) self (OProject p)
                  (OProject (Project_set__workspace (VObj (length (heap w))) p))
                  (OWorkspace x) Hself) as [Hs Hx].
      split; [exists wid; reflexivity|].
      split; [exists (length (heap w)), (OWorkspace x); auto|].
      split.
      * unfold local_value. simpl heap. rewrite Hs. reflexivity.
      * match goal with
        | |- Project_workspace self E ?w2 = _ =>
            exact (Project_workspace_cached self _ E w2 Hs eq_refl)
        end.
  - apply access_starts_with_GET; assumption.
Qed.

Lemma workspace_memoized_witness :
  let w' := snd (Tag_workspace 1 Demo.env Demo.w0) in
  log w' = [GET_request Demo.env Demo.api Tag_resrc (VInt 7);
            GET_request Demo.env Demo.api Workspace_resrc (VInt 3)]
  /\ refers_to w' CWorkspace (VObj 5)
  /\ access R_Tag_workspace 1 Demo.env w' = (Ret (VObj 5), w')
  /\ exists l,
       log (snd (access R_Task_parent 0 Demo.env Demo.w0))
       = GET_request Demo.env Demo.api Task_resrc (VInt 5) :: l.
Proof.
  pose proof (workspace_memoized_others_refetch R_Tag_workspace 1
                (OTag Demo.the_tag) Demo.env Demo.w0 eq_refl eq_refl)
    as [A _].
  destruct (A eq_refl VNone eq_refl) as [_ B].
  destruct (B eq_refl (VObj 5) (snd (Tag_workspace 1 Demo.env Demo.w0)) eq_refl)
    as [_ [B2 [_ B4]]].
  pose proof (workspace_memoized_others_refetch R_Task_parent 0
                (OTask Demo.the_task) Demo.env Demo.w0 eq_refl eq_refl)
    as [_ C].
  cbv zeta. split; [reflexivity|].
  split; [exact B2|]. split; [exact B4|]. exact (C eq_refl).
Defined.

(** C6 as stated fails on the first access: it does not send one GET but
    two, the second from the [Workspace] constructor. *)
Lemma first_workspace_access_sends_two_GETs :
  log (snd (Tag_workspace 1 Demo.env Demo.w0))
  = [Request GET "https://app.asana.com/api/1.0/tags/7" ("key", "") None;
     Request GET "https://app.asana.com/api/1.0/workspaces/3" ("key", "") None]
  /\ ~ exists rq,
         log (snd (Tag_workspace 1 Demo.env Demo.w0))
         = (log Demo.w0 ++ [rq])%list.
Proof.
  split; [reflexivity|]. intros [rq H]. vm_compute in H. discriminate H.
Qed.

(** ** What the relationship accessors wrap their records in *)

Existing Class still.

#[global] Instance still_pure {A} (m : M A) : pure_ m -> still m | 100.
Proof. intros H E w. rewrite H. reflexivity. Qed.

#[global] Instance still_get api resource endpoint :
  still (get api resource endpoint).
Proof. intros E w. rewrite get_world. reflexivity. Qed.

#[global] Instance still_post api resource endpoint data :
  still (post api resource endpoint data).
Proof. intros E w. rewrite post_world. reflexivity. Qed.

#[global] Instance still_if {A} (b : bool) (m1 m2 : M A) :
  still m1 -> still m2 -> still (if b then m1 else m2).
Proof. destruct b; auto. Qed.

#[global] Instance still_bind {A B} (m : M A) (k : A -> M B) :
  still m -> (forall a, still (k a)) -> still (bind m k).
Proof.
  intros Hm Hk E w. rewrite run_bind. specialize (Hm E w).
  destruct (m E w) as [[a|e] w1]; simpl in Hm.
  - rewrite Hk. exact Hm.
  - exact Hm.
Qed.

Existing Class allocates.

Lemma allocates_new o : allocates (class_of o) (new o).
Proof.
  intros E w v w' H. unfold new in H. inversion H. exists o. auto.
Qed.

#[global] Instance allocates_new_User u : allocates CUser (new (OUser u)).
Proof. exact (allocates_new (OUser u)). Qed.

#[global] Instance allocates_new_Tag t : allocates CTag (new (OTag t)).
Proof. exact (allocates_new (OTag t)). Qed.

#[global] Instance allocates_raise c e : allocates c (raise e).
Proof. intros E w v w' H. discriminate H. Qed.

#[global] Instance allocates_bind {A} c (m : M A) (k : A -> M value) :
  still m -> (forall a, allocates c (k a)) -> allocates c (bind m k).
Proof.
  intros Hm Hk E w v w' H.
  apply bind_ret_inv in H as [a [w1 [H1 H2]]].
  specialize (Hm E w). rewrite H1 in Hm. simpl in Hm.
  destruct (Hk a E w1 v w' H2) as [o [Hc [Hv Hh]]].
  exists o. rewrite <- Hm. auto.
Qed.

#[global] Instance User_init_allocates api id :
  allocates CUser (User_init api id).
Proof. unfold User_init. apply _. Qed.

#[global] Instance Tag_init_allocates api a b c d :
  allocates CTag (Tag_init api a b c d).
Proof. unfold Tag_init. apply _. Qed.

Lemma mapM_allocates c (f : value -> M value) (l : list value) :
  (forall x, allocates c (f x)) ->
  forall E w vs w',
    mapM f l E w = (Ret vs, w') ->
    (exists os, heap w' = (heap w ++ os)%list)
    /\ Forall (refers_to w' c) vs.
Proof.
  intros Hf. induction l as [|x xs IH]; intros E w vs w' H; simpl in H.
  - unfold ret in H. inversion H. subst. split.
    + exists []. rewrite app_nil_r. reflexivity.
    + constructor.
  - apply bind_ret_inv in H as [y [w1 [Hy H]]].
    apply bind_ret_inv in H as [ys [w2 [Hys H]]].
    unfold ret in H. inversion H. subst. clear H.
    destruct (Hf x E w y w1 Hy) as [o [Hc [-> Hh]]].
    destruct (IH E w1 ys w' Hys) as [[os Hos] Hall].
    rewrite Hh, <- app_assoc in Hos. split.
    + eexists. exact Hos.
    + constructor; [|exact Hall].
      exists (length (heap w)), o. split; [reflexivity|]. split; [|exact Hc].
      rewrite Hos. apply list_lookup_middle. reflexivity.
Qed.

Lemma wrap_each_allocates c ctor iterable E w v w' :
  (forall id, allocates c (ctor id)) ->
  wrap_each ctor iterable E w = (Ret v, w') ->
  exists objs, v = VList objs /\ Forall (refers_to w' c) objs.
Proof.
  intros Hc H. unfold wrap_each in H.
  apply bind_ret_inv in H as [elts [w1 [H1 H]]].
  apply lift_ret_inv in H1 as [_ ->].
  apply bind_ret_inv in H as [objs [w2 [H2 H]]].
  unfold ret in H. inversion H. subst. clear H.
  exists objs. split; [reflexivity|].
  eapply mapM_allocates; [|exact H2].
  intros elt. apply allocates_bind; [apply _ | exact Hc].
Qed.

Lemma refers_to_one_class w c c' v :
  refers_to w c v -> c <> c' -> ~ refers_to w c' v.
Proof.
  intros [a [o [-> [Ho Hc]]]] Hne [a' [o' [Heq [Ho' Hc']]]].
  inversion Heq. subst a'. rewrite Ho in Ho'. inversion Ho'. subst o'.
  congruence.
Qed.

Lemma Task_parent_ret self E w v w' :
  Task_parent self E w = (Ret v, w') ->
  v = VNone \/ refers_to w' CUser v.
Proof.
  unfold Task_parent. intros H.
  apply bind_ret_inv in H as [t [w1 [_ H]]].
  apply bind_ret_inv in H as [jr [w2 [_ H]]].
  apply bind_ret_inv in H as [parent [w3 [_ H]]].
  destruct (py_truthy parent).
  - right. apply bind_ret_inv in H as [id [w4 [_ H]]].
    destruct (User_init_allocates _ _ _ _ _ _ H) as [o [Hc [-> Hh]]].
    exists (length (heap w4)), o. split; [reflexivity|]. split; [|exact Hc].
    rewrite Hh. apply list_lookup_middle. reflexivity.
  - left. unfold ret in H. inversion H. reflexivity.
Qed.

Lemma Tag_tasks_ret self E w v w' :
  Tag_tasks self E w = (Ret v, w') ->
  exists objs, v = VList objs /\ Forall (refers_to w' CTag) objs.
Proof.
  unfold Tag_tasks. intros H.
  apply bind_ret_inv in H as [t [w1 [_ H]]].
  apply bind_ret_inv in H as [endpoint [w2 [_ H]]].
  apply bind_ret_inv in H as [jr [w3 [_ H]]].
  apply bind_ret_inv in H as [tasks [w4 [_ H]]].
  eapply wrap_each_allocates; [|exact H].
  intros id. apply Tag_init_allocates.
Qed.

(** C4: what [Task.parent] and [Tag.tasks] wrap their records in.
    [Task.parent] passes the id of the parent task to the [User]
    constructor, so whenever it returns an object that object is a [User],
    never a [Task]; [Tag.tasks] passes the ids of the tasks to the [Tag]
    constructor, so whenever it returns, every element of the list is a
    [Tag], never a [Task]. *)
Theorem parent_and_tag_tasks_wrap_other_classes self E w v w' :
  (Task_parent self E w = (Ret v, w') ->
   (v = VNone \/ refers_to w' CUser v) /\ ~ refers_to w' CTask v)
  /\ (Tag_tasks self E w = (Ret v, w') ->
      exists objs,
        v = VList objs
        /\ Forall (fun x => refers_to w' CTag x /\ ~ refers_to w' CTask x) objs).
Proof.
  split; intros H.
  - destruct (Task_parent_ret _ _ _ _ _ H) as [-> | Hu].
    + split; [left; reflexivity|]. intros [a [o [Heq _]]]. discriminate Heq.
    + split; [right; exact Hu|].
      apply (refers_to_one_class _ _ _ _ Hu). discriminate.
  - destruct (Tag_tasks_ret _ _ _ _ _ H) as [objs [-> Hall]].
    exists objs. split; [reflexivity|].
    eapply Forall_impl; [exact Hall|]. intros x Hx. split; [exact Hx|].
    apply (refers_to_one_class _ _ _ _ Hx). discriminate.
Qed.

Lemma parent_and_tag_tasks_witness :
  refers_to (snd (Task_parent 0 Demo.env Demo.w0)) CUser (VObj 5)
  /\ ~ refers_to (snd (Task_parent 0 Demo.env Demo.w0)) CTask (VObj 5)
  /\ exists objs,
       VList [VObj 5] = VList objs
       /\ Forall (fun x =>
                    refers_to (snd (Tag_tasks 1 Demo.env_nested Demo.w0)) CTag x
                    /\ ~ refers_to (snd (Tag_tasks 1 Demo.env_nested Demo.w0))
                         CTask x) objs.
Proof.
  destruct (proj1 (parent_and_tag_tasks_wrap_other_classes 0 Demo.env Demo.w0
                     (VObj 5) (snd (Task_parent 0 Demo.env Demo.w0))) eq_refl)
    as [[A | A] B]; [discriminate A|].
  split; [exact A|]. split; [exact B|].
  exact (proj2 (parent_and_tag_tasks_wrap_other_classes 1 Demo.env_nested
                  Demo.w0 (VList [VObj 5])
                  (snd (Tag_tasks 1 Demo.env_nested Demo.w0))) eq_refl).
Defined.

(** On the answer the service gives to a [tasks] sub-path, a list of
    records, [Tag.tasks] does not get as far as wrapping: subscripting the
    list with ['tasks'] fails. *)
Example Tag_tasks_on_a_list :
  fst (Tag_tasks 1 Demo.env Demo.w0) = Raise TypeError.
Proof. reflexivity. Qed.

(** [Task.parent] on a task with a parent: the id of the parent task goes
    to the [users] resource. *)
Example Task_parent_fetches_a_user :
  log (snd (Task_parent 0 Demo.env Demo.w0))
  = [Request GET "https://app.asana.com/api/1.0/tasks/5" ("key", "") None;
     Request GET "https://app.asana.com/api/1.0/users/4" ("key", "") None].
Proof. reflexivity. Qed.

(** * Further properties of the code *)

(** ** Construction from an existing id *)

Existing Class constructor.

#[global] Instance constructor_raise c api e : constructor c api (raise e).
Proof. intros E w. reflexivity. Qed.

#[global] Instance constructor_bind {A} c api (m : M A) (k : A -> M value) :
  still m -> (forall a, constructor c api (k a)) ->
  constructor c api (bind m k).
Proof.
  intros Hm Hk E w. rewrite run_bind. specialize (Hm E w).
  destruct (m E w) as [[a|e] w1]; simpl in Hm.
  - specialize (Hk a E w1). rewrite Hm in Hk. exact Hk.
  - exact Hm.
Qed.

Lemma constructor_new c api o :
  class_of o = c -> object_api o = api -> constructor c api (new o).
Proof. intros Hc Ha E w. simpl. split; [reflexivity|]. exists o. auto. Qed.

#[global] Instance constructor_new_User api n e i :
  constructor CUser api
    (new (OUser {| User_api := api; User__name := n; User__email := e;
                   User__id := i |})).
Proof. apply constructor_new; reflexivity. Qed.

#[global] Instance constructor_new_Workspace api i n :
  constructor CWorkspace api
    (new (OWorkspace {| Workspace_api := api; Workspace__id := i;
                        Workspace__name := n |})).
Proof. apply constructor_new; reflexivity. Qed.

#[global] Instance constructor_new_Story api i t s ty c :
  constructor CStory api
    (new (OStory {| Story_api := api; Story__id := i; Story__text := t;
                    Story__source := s; Story__story_type := ty;
                    Story__created_at := c |})).
Proof. apply constructor_new; reflexivity. Qed.

#[global] Instance constructor_new_Tag api i n no c ws :
  constructor CTag api
    (new (OTag {| Tag_api := api; Tag__id := i; Tag__name := n;
                  Tag__notes := no; Tag__created_at := c;
                  Tag__workspace := ws |})).
Proof. apply constructor_new; reflexivity. Qed.

#[global] Instance constructor_new_Project api i n no ar c m ws :
  constructor CProject api
    (new (OProject {| Project_api := api; Project__id := i;
                      Project__name := n; Project__notes := no;
                      Project__archived := ar; Project__created_at := c;
                      Project__modified_at := m;
                      Project__workspace := ws |})).
Proof. apply constructor_new; reflexivity. Qed.

#[global] Instance constructor_new_Task api i n no st c m ca co d tg pr ws :
  constructor CTask api
    (new (OTask {| Task_api := api; Task__id := i; Task__name := n;
                   Task__notes := no; Task__assignee_status := st;
                   Task__created_at := c; Task__modified_at := m;
                   Task__completed_at := ca; Task__completed := co;
                   Task__due_on := d; Task__tags := tg;
                   Task__projects := pr; Task__workspace := ws |})).
Proof. apply constructor_new; reflexivity. Qed.

#[global] Instance still_option {A B} (o : option A) (f : A -> M B) (g : M B) :
  (forall a, still (f a)) -> still g ->
  still (match o with Some a => f a | None => g end).
Proof. destruct o; auto. Qed.

#[global] Instance constructor_User_init api id :
  constructor CUser api (User_init api id).
Proof. unfold User_init. apply _. Qed.

#[global] Instance constructor_Workspace_init api id :
  constructor CWorkspace api (Workspace_init api id).
Proof. unfold Workspace_init. apply _. Qed.

#[global] Instance constructor_Story_init api id :
  constructor CStory api (Story_init api id).
Proof. unfold Story_init. apply _. Qed.

#[global] Instance constructor_Tag_init api a b c d :
  constructor CTag api (Tag_init api a b c d).
Proof. unfold Tag_init. apply _. Qed.

#[global] Instance constructor_Project_init api a b c d e :
  constructor CProject api (Project_init api a b c d e).
Proof. unfold Project_init. apply _. Qed.

#[global] Instance constructor_Task_init api a b c kwargs :
  constructor CTask api (Task_init api a b c kwargs).
Proof. unfold Task_init, fmt_suffix. cbv zeta. apply _. Qed.

#[global] Instance constructor_construct c api id :
  constructor c api (construct c api id).
Proof. destruct c; simpl; apply _. Qed.

Lemma construct_log c api id E w :
  log (snd (construct c api id E w))
  = if tests_id c && negb (py_truthy id) then log w
    else (log w ++ [GET_request E api (resrc c) id])%list.
Proof.
  destruct c; simpl construct; simpl tests_id; cbn [andb].
  - unfold User_init. rewrite log_bind_quiet by apply _.
    rewrite get_world. reflexivity.
  - unfold Task_init. simpl py_truthy.
    destruct (py_truthy id) eqn:Hid; cbn [andb orb negb];
      rewrite run_bind; unfold ret at 1; cbv beta iota zeta.
    + rewrite log_bind_quiet by apply _. rewrite get_world. reflexivity.
    + reflexivity.
  - unfold Workspace_init. rewrite log_bind_quiet by apply _.
    rewrite get_world. reflexivity.
  - unfold Tag_init. simpl py_truthy.
    destruct (py_truthy id) eqn:Hid; cbn [andb orb negb];
      rewrite run_bind; unfold ret at 1; cbv beta iota zeta.
    + rewrite log_bind_quiet by apply _.
      rewrite log_bind_quiet by apply _. rewrite get_world. reflexivity.
    + reflexivity.
  - unfold Project_init. simpl py_truthy.
    destruct (py_truthy id) eqn:Hid; cbn [andb orb negb].
    + rewrite log_bind_quiet by apply _.
      rewrite log_bind_quiet by apply _. rewrite get_world. reflexivity.
    + reflexivity.
  - unfold Story_init. rewrite log_bind_quiet by apply _.
    rewrite get_world. reflexivity.
Qed.

Lemma construct_ret c api id E w v w' :
  construct c api id E w = (Ret v, w') ->
  v = VObj (length (heap w))
  /\ (exists o, class_of o = c /\ object_api o = api
                /\ heap w' = (heap w ++ [o])%list)
  /\ log w' = (log w ++ [GET_request E api (resrc c) id])%list.
Proof.
  intros H.
  pose proof (constructor_construct c api id E w) as Hc.
  pose proof (construct_log c api id E w) as Hl.
  rewrite H in Hc, Hl. simpl in Hl. destruct Hc as [Hv Ho].
  split; [exact Hv|]. split; [exact Ho|].
  destruct (tests_id c && negb (py_truthy id)) eqn:Hfalsy; [|exact Hl].
  exfalso. apply andb_true_iff in Hfalsy as [Ht Hid].
  apply negb_true_iff in Hid.
  destruct c; try discriminate Ht; simpl in H.
  - rewrite (Task_init_no_id api id VNone VNone [] E w Hid eq_refl eq_refl) in H.
    discriminate H.
  - unfold Tag_init in H. rewrite run_bind in H. simpl py_truthy in H.
    rewrite Hid in H. discriminate H.
  - unfold Project_init in H. rewrite run_bind in H. simpl py_truthy in H.
    rewrite Hid in H. discriminate H.
Qed.

(** X1: construction of any resource from an existing id.  [User],
    [Workspace] and [Story] always send exactly one request, the GET of
    [<resrc>/<id>]; [Task], [Tag] and [Project] do the same for a true
    id and send nothing for a false one (such as 0 or the empty string).
    A constructor that returns has added exactly one object to the heap,
    an instance of its class bound to the same client, and returns the
    reference to it; a constructor that raises has allocated nothing. *)
Theorem construct_sends_one_GET_and_allocates_one c api id E w :
  log (snd (construct c api id E w))
  = (if tests_id c && negb (py_truthy id) then log w
     else (log w ++ [GET_request E api (resrc c) id])%list)
  /\ match construct c api id E w with
     | (Ret v, w') =>
         v = VObj (length (heap w))
         /\ exists o, class_of o = c /\ object_api o = api
                      /\ heap w' = (heap w ++ [o])%list
     | (Raise _, w') => heap w' = heap w
     end.
Proof.
  split; [apply construct_log | apply constructor_construct].
Qed.

(** X2: constructing twice from the same id gives two different
    objects: there is no identity map, each construction fetches again
    and allocates again. *)
Theorem construct_twice_gives_distinct_objects c api id E w v1 w1 v2 w2 :
  construct c api id E w = (Ret v1, w1) ->
  construct c api id E w1 = (Ret v2, w2) ->
  v1 <> v2
  /\ refers_to w2 c v1 /\ refers_to w2 c v2
  /\ log w2 = (log w ++ [GET_request E api (resrc c) id;
                         GET_request E api (resrc c) id])%list.
Proof.
  intros H1 H2.
  apply construct_ret in H1 as [-> [[o1 [Hc1 [_ Hh1]]] Hl1]].
  apply construct_ret in H2 as [-> [[o2 [Hc2 [_ Hh2]]] Hl2]].
  rewrite Hh1 in Hh2. rewrite Hl1 in Hl2. rewrite Hh1.
  split; [|split; [|split]].
  - rewrite length_app. simpl. intros Heq. inversion Heq. lia.
  - exists (length (heap w)), o1. split; [reflexivity|]. split; [|exact Hc1].
    rewrite Hh2, <- app_assoc. apply list_lookup_middle. reflexivity.
  - exists (length (heap w ++ [o1])), o2. split; [reflexivity|].
    split; [|exact Hc2]. rewrite Hh2. apply list_lookup_middle. reflexivity.
  - rewrite Hl2, <- app_assoc. reflexivity.
Qed.

Lemma construct_twice_witness :
  VObj 5 <> VObj 6
  /\ refers_to (snd (construct CWorkspace Demo.api (VInt 3) Demo.env
                       (snd (construct CWorkspace Demo.api (VInt 3)
                                       Demo.env Demo.w0))))
               CWorkspace (VObj 5).
Proof.
  destruct (construct_twice_gives_distinct_objects CWorkspace Demo.api (VInt 3)
              Demo.env Demo.w0 (VObj 5)
              (snd (construct CWorkspace Demo.api (VInt 3) Demo.env Demo.w0))
              (VObj 6)
              (snd (construct CWorkspace Demo.api (VInt 3) Demo.env
                      (snd (construct CWorkspace Demo.api (VInt 3)
                                      Demo.env Demo.w0))))
              eq_refl eq_refl) as [A [B _]].
  split; [exact A | exact B].
Defined.

(** ** The transport layer *)

(** X3: [get], [post] and [put] send exactly one request each, whatever
    the answer: to the URL built from resource and endpoint, with the API
    key as user name and an empty password, and with the payload for
    [post] and [put].  They never touch the heap, and their outcome is
    decided by the answer to that one request alone: the connection error
    of [requests] is passed on, a response is checked and unwrapped. *)
Theorem transport_sends_exactly_one_request api resource endpoint data E w :
  let outcome_of rq :=
    match remote E (log w) rq with
    | Responded r => fst (decode r E (sent w rq))
    | NetworkFailure => Raise RequestException
    end in
  get api resource endpoint E w
  = (outcome_of (GET_request E api resource endpoint),
     sent w (GET_request E api resource endpoint))
  /\ post api resource endpoint data E w
     = (outcome_of (POST_request E api resource endpoint data),
        sent w (POST_request E api resource endpoint data))
  /\ put api resource endpoint data E w
     = (outcome_of (PUT_request E api resource endpoint data),
        sent w (PUT_request E api resource endpoint data)).
Proof.
  cbv zeta. rewrite get_run, post_run, put_run. cbv zeta.
  repeat split; destruct (remote E (log w) _); reflexivity.
Qed.

Lemma string_app_assoc (a b c : string) : (a ++ b) ++ c = a ++ (b ++ c).
Proof.
  induction a as [|x a IH]; [reflexivity|].
  change (String x ((a ++ b) ++ c) = String x (a ++ (b ++ c))).
  rewrite IH. reflexivity.
Qed.

(** X4: the endpoint is appended to the URL only when it is a true
    value.  A false endpoint, such as the id 0, [None] or the empty
    string, is dropped, and the request goes to the collection
    [<base>/<resource>]; a true one goes to [<base>/<resource>/<str of
    the endpoint>]. *)
Theorem transport_drops_false_endpoint api resource endpoint E w :
  rq_target (GET_request E api resource endpoint)
  = (if py_truthy endpoint
     then aurl api ++ "/" ++ resource ++ "/" ++ py_str (py_repr E) endpoint
     else aurl api ++ "/" ++ resource)
  /\ log (snd (get api resource endpoint E w))
     = (log w ++ [Request GET
                    (if py_truthy endpoint
                     then aurl api ++ "/" ++ resource ++ "/"
                          ++ py_str (py_repr E) endpoint
                     else aurl api ++ "/" ++ resource)
                    (api_key api, "") None])%list.
Proof.
  assert (Ht : rq_target (GET_request E api resource endpoint)
               = (if py_truthy endpoint
                  then aurl api ++ "/" ++ resource ++ "/"
                       ++ py_str (py_repr E) endpoint
                  else aurl api ++ "/" ++ resource)).
  { unfold GET_request, url. simpl.
    destruct (py_truthy endpoint); [|reflexivity].
    rewrite !string_app_assoc. reflexivity. }
  split; [exact Ht|].
  rewrite get_world. simpl. rewrite <- Ht. reflexivity.
Qed.

Lemma get_accepted api resource endpoint r d E w :
  remote E (log w) (GET_request E api resource endpoint) = Responded r ->
  accepted r d ->
  get api resource endpoint E w
  = (Ret d, sent w (GET_request E api resource endpoint)).
Proof.
  intros Hr Ha. rewrite get_run. cbv zeta.
  rewrite Hr, (decode_accepted _ _ _ _ Ha). reflexivity.
Qed.

Lemma post_accepted api resource endpoint data r d E w :
  remote E (log w) (POST_request E api resource endpoint data) = Responded r ->
  accepted r d ->
  post api resource endpoint data E w
  = (Ret d, sent w (POST_request E api resource endpoint data)).
Proof.
  intros Hr Ha. rewrite post_run. cbv zeta.
  rewrite Hr, (decode_accepted _ _ _ _ Ha). reflexivity.
Qed.

(** X5: a response with status 200 or 201 whose content type is
    [application/json], with or without parameters after a semicolon, and
    whose body has a [data] member is unwrapped: the transport returns
    exactly that member. *)
Theorem transport_returns_data_member r d E w :
  (status_code r = 200%Z \/ status_code r = 201%Z) ->
  (exists ct, content_type r = Some ct
              /\ split_head ";"%char ct = "application/json") ->
  getitem (json r) "data" = Ret d ->
  decode r E w = (Ret d, w)
  /\ forall api resource endpoint,
       remote E (log w) (GET_request E api resource endpoint) = Responded r ->
       get api resource endpoint E w
       = (Ret d, sent w (GET_request E api resource endpoint)).
Proof.
  intros Hs [ct [Hct Hjson]] Hd.
  assert (Ha : accepted r d).
  { split; [exact Hs|]. split; [|exact Hd].
    unfold declares_json. rewrite Hct, Hjson. reflexivity. }
  split; [apply decode_accepted; exact Ha|].
  intros api resource endpoint Hr. apply (get_accepted _ _ _ _ _ _ _ Hr Ha).
Qed.

Lemma transport_returns_data_member_witness :
  decode (Response 201 (Some "application/json; charset=UTF-8")
                   (VDict [("data", VInt 1)])) Demo.env Demo.w0
  = (Ret (VInt 1), Demo.w0).
Proof.
  exact (proj1 (transport_returns_data_member
                  (Response 201 (Some "application/json; charset=UTF-8")
                            (VDict [("data", VInt 1)]))
                  (VInt 1) Demo.env Demo.w0 (or_intror eq_refl)
                  (ex_intro _ "application/json; charset=UTF-8"
                            (conj eq_refl eq_refl))
                  eq_refl)).
Defined.

(** X6: the status check raises by status only for the six listed error
    codes.  For any other status that is not 200 or 201 (a redirect, 502,
    503, ...) it still reads the message of the first error and then
    returns without raising, so such a response is treated like a success
    by the transport; when the body has no [errors] member, the failed
    lookup escapes instead. *)
Theorem check_http_status_passes_unlisted_status r E w :
  ~ In (status_code r) [200; 201; 400; 401; 403; 404; 429; 500]%Z ->
  (forall errors first message,
     getitem (json r) "errors" = Ret errors ->
     getitem0 errors = Ret first ->
     getitem first "message" = Ret message ->
     _check_http_status r E w = (Ret tt, w))
  /\ (forall e, getitem (json r) "errors" = Raise e ->
                _check_http_status r E w = (Raise e, w)).
Proof.
  intros Hsc.
  assert (Hne : forall z,
             In z [200; 201; 400; 401; 403; 404; 429; 500]%Z ->
             Z.eqb (status_code r) z = false).
  { intros z Hz. apply Z.eqb_neq. intros Heq. apply Hsc. rewrite Heq. exact Hz. }
  assert (H200 := Hne 200%Z ltac:(simpl; auto 10)).
  assert (H201 := Hne 201%Z ltac:(simpl; auto 10)).
  assert (H400 := Hne 400%Z ltac:(simpl; auto 10)).
  assert (H401 := Hne 401%Z ltac:(simpl; auto 10)).
  assert (H403 := Hne 403%Z ltac:(simpl; auto 10)).
  assert (H404 := Hne 404%Z ltac:(simpl; auto 10)).
  assert (H429 := Hne 429%Z ltac:(simpl; auto 10)).
  assert (H500 := Hne 500%Z ltac:(simpl; auto 10)).
  split.
  - intros errors first message He Hf Hm. unfold _check_http_status.
    cbv zeta. rewrite H200, H201. cbn [orb].
    unfold bind, lift. rewrite He. cbv beta iota. rewrite Hf. cbv beta iota.
    rewrite Hm. cbn [existsb]. rewrite H400, H401, H403, H404, H429, H500.
    reflexivity.
  - intros e He. unfold _check_http_status.
    cbv zeta. rewrite H200, H201. cbn [orb].
    unfold bind, lift. rewrite He. reflexivity.
Qed.

Lemma check_http_status_passes_unlisted_status_witness :
  _check_http_status
    (Response 503 (Some "application/json")
       (VDict [("errors", VList [VDict [("message", VUnicode "busy")]])]))
    Demo.env Demo.w0
  = (Ret tt, Demo.w0).
Proof.
  refine (proj1 (check_http_status_passes_unlisted_status
                   (Response 503 (Some "application/json")
                      (VDict [("errors",
                               VList [VDict [("message", VUnicode "busy")]])]))
                   Demo.env Demo.w0 _)
                (VList [VDict [("message", VUnicode "busy")]])
                (VDict [("message", VUnicode "busy")])
                (VUnicode "busy") eq_refl eq_refl eq_refl).
  simpl. intros H.
  repeat (destruct H as [H|H]; [discriminate H|]). exact H.
Defined.

(** ** What a constructor makes of the record *)

Lemma utc_run timestamp E w :
  _utcstr_to_datetime timestamp E w = (parsed E timestamp, w).
Proof.
  unfold parsed, _utcstr_to_datetime.
  destruct timestamp; try reflexivity; simpl; destruct (strptime E _ _);
    reflexivity.
Qed.

(** X7: [User], [Workspace] and [Story] built from an id.  When the
    service accepts the GET and the record has the keys the constructor
    reads, the new object holds exactly the values of the record, field
    by field, and the parsed [created_at] for a story; the id of the
    object is the one in the record, whatever id was asked for.  A
    workspace record without [id] ends the construction with the failed
    lookup. *)
Theorem simple_constructors_copy_the_record api id r d E w :
  accepted r d ->
  (remote E (log w) (GET_request E api User_resrc id) = Responded r ->
   forall name email uid,
     getitem d "name" = Ret name ->
     getitem d "email" = Ret email ->
     getitem d "id" = Ret uid ->
     User_init api id E w
     = (Ret (VObj (length (heap w))),
        {| heap := heap w ++ [OUser {| User_api := api; User__name := name;
                                       User__email := email;
                                       User__id := uid |}];
           log := log w ++ [GET_request E api User_resrc id] |}))
  /\ (remote E (log w) (GET_request E api Workspace_resrc id) = Responded r ->
      (forall wid name,
         getitem d "id" = Ret wid ->
         getitem d "name" = Ret name ->
         Workspace_init api id E w
         = (Ret (VObj (length (heap w))),
            {| heap := heap w ++ [OWorkspace {| Workspace_api := api;
                                                Workspace__id := wid;
                                                Workspace__name := name |}];
               log := log w ++ [GET_request E api Workspace_resrc id] |}))
      /\ (forall e,
            getitem d "id" = Raise e ->
            Workspace_init api id E w
            = (Raise e, sent w (GET_request E api Workspace_resrc id))))
  /\ (remote E (log w) (GET_request E api Story_resrc id) = Responded r ->
      forall sid text source type created created_at,
        getitem d "id" = Ret sid ->
        getitem d "text" = Ret text ->
        getitem d "source" = Ret source ->
        getitem d "type" = Ret type ->
        getitem d "created_at" = Ret created ->
        parsed E created = Ret created_at ->
        Story_init api id E w
        = (Ret (VObj (length (heap w))),
           {| heap := heap w ++ [OStory {| Story_api := api; Story__id := sid;
                                           Story__text := text;
                                           Story__source := source;
                                           Story__story_type := type;
                                           Story__created_at := created_at |}];
              log := log w ++ [GET_request E api Story_resrc id] |})).
Proof.
  intros Ha. split; [|split].
  - intros Hr name email uid H1 H2 H3. unfold User_init.
    rewrite run_bind, (get_accepted _ _ _ _ _ _ _ Hr Ha).
    unfold bind, lift. rewrite H1, H2, H3. reflexivity.
  - intros Hr. split.
    + intros wid name H1 H2. unfold Workspace_init.
      rewrite run_bind, (get_accepted _ _ _ _ _ _ _ Hr Ha).
      unfold bind, lift. rewrite H1, H2. reflexivity.
    + intros e H1. unfold Workspace_init.
      rewrite run_bind, (get_accepted _ _ _ _ _ _ _ Hr Ha).
      unfold bind, lift. rewrite H1. reflexivity.
  - intros Hr sid text source type created created_at H1 H2 H3 H4 H5 H6.
    unfold Story_init.
    rewrite run_bind, (get_accepted _ _ _ _ _ _ _ Hr Ha).
    unfold bind, lift. rewrite H1, H2, H3, H4, H5, utc_run, H6. reflexivity.
Qed.

Lemma simple_constructors_witness :
  User_init Demo.api (VInt 4) Demo.env_full Demo.w0
  = (Ret (VObj 5),
     {| heap := heap Demo.w0 ++ [OUser Demo.the_user];
        log := [GET_request Demo.env_full Demo.api User_resrc (VInt 4)] |})
  /\ Workspace_init Demo.api (VInt 3) Demo.env_full Demo.w0
     = (Ret (VObj 5),
        {| heap := heap Demo.w0 ++ [OWorkspace Demo.the_workspace];
           log := [GET_request Demo.env_full Demo.api Workspace_resrc
                               (VInt 3)] |})
  /\ Story_init Demo.api (VInt 8) Demo.env_full Demo.w0
     = (Ret (VObj 5),
        {| heap := heap Demo.w0 ++
                   [OStory {| Story_api := Demo.api; Story__id := VInt 8;
                              Story__text := VUnicode "done";
                              Story__source := VUnicode "web";
                              Story__story_type := VUnicode "comment";
                              Story__created_at := Demo.when |}];
           log := [GET_request Demo.env_full Demo.api Story_resrc (VInt 8)] |}).
Proof.
  assert (Hok : forall d,
             accepted (Response 200 (Some "application/json; charset=UTF-8")
                                (VDict [("data", d)])) d).
  { intros d. split; [left; reflexivity | split; reflexivity]. }
  split; [|split].
  - exact (proj1 (simple_constructors_copy_the_record Demo.api (VInt 4) _
                     Demo.user4 Demo.env_full Demo.w0 (Hok Demo.user4))
                  eq_refl _ _ _ eq_refl eq_refl eq_refl).
  - exact (proj1 (proj1 (proj2 (simple_constructors_copy_the_record
                     Demo.api (VInt 3) _
                     Demo.workspace3 Demo.env_full Demo.w0
                     (Hok Demo.workspace3))) eq_refl)
                  _ _ eq_refl eq_refl).
  - exact (proj2 (proj2 (simple_constructors_copy_the_record
                     Demo.api (VInt 8) _
                     Demo.story8 Demo.env_full Demo.w0 (Hok Demo.story8)))
                  eq_refl _ _ _ _ _ _
                  eq_refl eq_refl eq_refl eq_refl eq_refl eq_refl).
Defined.

(** X8: [Tag] and [Project] built from a true id alone.  When the
    service accepts the GET and the record has the keys the constructor
    reads, the new object holds the values of the record field by field,
    the timestamps parsed, and its memoized workspace is empty. *)
Theorem Tag_Project_by_id_copy_the_record api id r d E w :
  accepted r d ->
  py_truthy id = true ->
  (remote E (log w) (GET_request E api Tag_resrc id) = Responded r ->
   forall tid name notes created created_at,
     getitem d "id" = Ret tid ->
     getitem d "name" = Ret name ->
     getitem d "notes" = Ret notes ->
     getitem d "created_at" = Ret created ->
     parsed E created = Ret created_at ->
     Tag_init api id VNone VNone VNone E w
     = (Ret (VObj (length (heap w))),
        {| heap := heap w ++ [OTag {| Tag_api := api; Tag__id := tid;
                                      Tag__name := name; Tag__notes := notes;
                                      Tag__created_at := created_at;
                                      Tag__workspace := VNone |}];
           log := log w ++ [GET_request E api Tag_resrc id] |}))
  /\ (remote E (log w) (GET_request E api Project_resrc id) = Responded r ->
      forall pid name notes archived created created_at modified modified_at,
        getitem d "id" = Ret pid ->
        getitem d "name" = Ret name ->
        getitem d "notes" = Ret notes ->
        getitem d "archived" = Ret archived ->
        getitem d "created_at" = Ret created ->
        parsed E created = Ret created_at ->
        getitem d "modified_at" = Ret modified ->
        parsed E modified = Ret modified_at ->
        Project_init api id VNone VNone VNone VNone E w
        = (Ret (VObj (length (heap w))),
           {| heap := heap w ++
                      [OProject {| Project_api := api; Project__id := pid;
                                   Project__name := name;
                                   Project__notes := notes;
                                   Project__archived := archived;
                                   Project__created_at := created_at;
                                   Project__modified_at := modified_at;
                                   Project__workspace := VNone |}];
              log := log w ++ [GET_request E api Project_resrc id] |})).
Proof.
  intros Ha Hid. split.
  - intros Hr tid name notes created created_at H1 H2 H3 H4 H5.
    unfold Tag_init. simpl py_truthy. rewrite Hid. cbn [andb orb].
    unfold bind, lift, ret. cbv beta iota.
    rewrite (get_accepted _ _ _ _ _ _ _ Hr Ha). cbv beta iota.
    rewrite H1, H2, H3, H4, utc_run, H5. reflexivity.
  - intros Hr pid name notes archived created created_at modified modified_at
           H1 H2 H3 H4 H5 H6 H7 H8.
    unfold Project_init. simpl py_truthy. rewrite Hid. cbn [andb orb].
    unfold bind, lift, ret. cbv beta iota.
    rewrite (get_accepted _ _ _ _ _ _ _ Hr Ha). cbv beta iota.
    rewrite H1, H2, H3, H4, H5, utc_run, H6, H7, utc_run, H8. reflexivity.
Qed.

Lemma Tag_Project_by_id_witness :
  Tag_init Demo.api (VInt 7) VNone VNone VNone Demo.env_full Demo.w0
  = (Ret (VObj 5),
     {| heap := heap Demo.w0 ++ [OTag Demo.the_tag];
        log := [GET_request Demo.env_full Demo.api Tag_resrc (VInt 7)] |})
  /\ Project_init Demo.api (VInt 9) VNone VNone VNone VNone
                  Demo.env_full Demo.w0
     = (Ret (VObj 5),
        {| heap := heap Demo.w0 ++ [OProject Demo.the_project];
           log := [GET_request Demo.env_full Demo.api Project_resrc
                               (VInt 9)] |}).
Proof.
  assert (Hok : forall d,
             accepted (Response 200 (Some "application/json; charset=UTF-8")
                                (VDict [("data", d)])) d).
  { intros d. split; [left; reflexivity | split; reflexivity]. }
  split.
  - exact (proj1 (Tag_Project_by_id_copy_the_record Demo.api (VInt 7) _
                    Demo.tag7 Demo.env_full Demo.w0 (Hok Demo.tag7) eq_refl)
                 eq_refl _ _ _ _ _ eq_refl eq_refl eq_refl eq_refl eq_refl).
  - exact (proj2 (Tag_Project_by_id_copy_the_record Demo.api (VInt 9) _
                    Demo.project9 Demo.env_full Demo.w0 (Hok Demo.project9)
                    eq_refl)
                 eq_refl _ _ _ _ _ _ _ _
                 eq_refl eq_refl eq_refl eq_refl eq_refl eq_refl eq_refl
                 eq_refl).
Defined.

(** X9: [Task] built from a true id alone.  When the service accepts the
    GET and the record has the keys the constructor reads, the new task
    holds the values of the record field by field; [created_at] and
    [modified_at] are parsed, [completed_at] is parsed when it is a true
    value and is [None] otherwise (a task that is not completed), and the
    workspace attribute is [None].  A [created_at] that is [null] in the
    record, unlike a [null] [completed_at], ends the construction with an
    [AttributeError]. *)
Theorem Task_by_id_copies_the_record api id r d E w :
  accepted r d ->
  py_truthy id = true ->
  remote E (log w) (GET_request E api Task_resrc id) = Responded r ->
  forall tid name notes status created completed_at completed due tags projects,
    getitem d "id" = Ret tid ->
    getitem d "name" = Ret name ->
    getitem d "notes" = Ret notes ->
    getitem d "assignee_status" = Ret status ->
    getitem d "created_at" = Ret created ->
    (forall created_at modified modified_at done,
       parsed E created = Ret created_at ->
       getitem d "modified_at" = Ret modified ->
       parsed E modified = Ret modified_at ->
       getitem d "completed_at" = Ret completed_at ->
       (if py_truthy completed_at then parsed E completed_at else Ret VNone)
       = Ret done ->
       getitem d "completed" = Ret completed ->
       getitem d "due_on" = Ret due ->
       getitem d "tags" = Ret tags ->
       getitem d "projects" = Ret projects ->
       Task_init api id VNone VNone [] E w
       = (Ret (VObj (length (heap w))),
          {| heap := heap w ++
                     [OTask {| Task_api := api; Task__id := tid;
                               Task__name := name; Task__notes := notes;
                               Task__assignee_status := status;
                               Task__created_at := created_at;
                               Task__modified_at := modified_at;
                               Task__completed_at := done;
                               Task__completed := completed;
                               Task__due_on := due; Task__tags := tags;
                               Task__projects := projects;
                               Task__workspace := VNone |}];
             log := log w ++ [GET_request E api Task_resrc id] |}))
    /\ (created = VNone ->
        Task_init api id VNone VNone [] E w
        = (Raise (AttributeError "replace"),
           sent w (GET_request E api Task_resrc id))).
Proof.
  intros Ha Hid Hr tid name notes status created completed_at completed due
         tags projects H1 H2 H3 H4 H5.
  assert (Hrun :
             Task_init api id VNone VNone [] E w
             = (created_at <- _utcstr_to_datetime created ;;
                modified <- lift (getitem d "modified_at") ;;
                modified_at <- _utcstr_to_datetime modified ;;
                completed_at0 <- lift (getitem d "completed_at") ;;
                completed_at <- (if py_truthy completed_at0
                                 then _utcstr_to_datetime completed_at0
                                 else ret VNone) ;;
                completed <- lift (getitem d "completed") ;;
                due_on <- lift (getitem d "due_on") ;;
                tags <- lift (getitem d "tags") ;;
                projects <- lift (getitem d "projects") ;;
                new (OTask {| Task_api := api; Task__id := tid;
                              Task__name := name; Task__notes := notes;
                              Task__assignee_status := status;
                              Task__created_at := created_at;
                              Task__modified_at := modified_at;
                              Task__completed_at := completed_at;
                              Task__completed := completed;
                              Task__due_on := due_on; Task__tags := tags;
                              Task__projects := projects;
                              Task__workspace := VNone |}))
                 E (sent w (GET_request E api Task_resrc id))).
  { unfold Task_init. simpl py_truthy. rewrite Hid. cbn [andb orb].
    rewrite run_bind. unfold ret at 1. cbv beta iota zeta.
    rewrite run_bind, (get_accepted _ _ _ _ _ _ _ Hr Ha).
    rewrite run_bind. unfold lift at 1. rewrite H1.
    rewrite run_bind. unfold lift at 1. rewrite H2.
    rewrite run_bind. unfold lift at 1. rewrite H3.
    rewrite run_bind. unfold lift at 1. rewrite H4.
    rewrite run_bind. unfold lift at 1. rewrite H5.
    reflexivity. }
  rewrite Hrun. clear Hrun. split.
  - intros created_at modified modified_at done
           H6 H7 H8 H9 H10 H11 H12 H13 H14.
    unfold bind, lift. rewrite utc_run, H6, H7, utc_run, H8, H9.
    assert (Hdone : (if py_truthy completed_at
                     then _utcstr_to_datetime completed_at
                     else ret VNone) E (sent w (GET_request E api Task_resrc id))
                    = (Ret done, sent w (GET_request E api Task_resrc id))).
    { destruct (py_truthy completed_at).
      - rewrite utc_run, H10. reflexivity.
      - inversion H10. reflexivity. }
    rewrite Hdone, H11, H12, H13, H14. reflexivity.
  - intros ->. reflexivity.
Qed.

Lemma Task_by_id_witness :
  Task_init Demo.api (VInt 5) VNone VNone [] Demo.env_full Demo.w0
  = (Ret (VObj 5),
     {| heap := heap Demo.w0 ++ [OTask Demo.the_task];
        log := [GET_request Demo.env_full Demo.api Task_resrc (VInt 5)] |}).
Proof.
  assert (Hok : accepted (Response 200 (Some "application/json; charset=UTF-8")
                                   (VDict [("data", Demo.task5)])) Demo.task5).
  { split; [left; reflexivity | split; reflexivity]. }
  exact (proj1 (Task_by_id_copies_the_record Demo.api (VInt 5) _ Demo.task5
                  Demo.env_full Demo.w0 Hok eq_refl eq_refl
                  _ _ _ _ _ _ _ _ _ _
                  eq_refl eq_refl eq_refl eq_refl eq_refl)
               _ _ _ _ eq_refl eq_refl eq_refl eq_refl eq_refl
               eq_refl eq_refl eq_refl eq_refl).
Defined.

(** ** What the setters leave alone *)

Lemma put_then_store_heap api resource endpoint body self o' E w :
  heap (snd ((put api resource endpoint body ;;; store self o') E w))
  = heap w
  \/ heap (snd ((put api resource endpoint body ;;; store self o') E w))
     = <[self := o']> (heap w).
Proof.
  rewrite put_then_store.
  destruct (fst (put _ _ _ _ E w)); [right | left]; reflexivity.
Qed.

Lemma assign_heap f self o v E w :
  heap w !! self = Some o ->
  class_of o = field_class f ->
  exists o',
    class_of o' = class_of o /\ object_id o' = object_id o
    /\ object_api o' = object_api o
    /\ (forall k, k <> attribute_name f ->
                  dict_get k (attributes o') = dict_get k (attributes o))
    /\ dict_get (attribute_name f) (attributes o') = Some v
    /\ (heap (snd (assign f self v E w)) = heap w
        \/ heap (snd (assign f self v E w)) = <[self := o']> (heap w)).
Proof.
  intros Hself Hclass.
  destruct f, o; try discriminate Hclass; clear Hclass; simpl assign;
    [ unfold Task_name_setter; rewrite run_bind, (self_Task_run _ _ _ _ Hself)
    | unfold Task_notes_setter; rewrite run_bind, (self_Task_run _ _ _ _ Hself)
    | unfold Task_completed_setter; rewrite run_bind, (self_Task_run _ _ _ _ Hself)
    | unfold Workspace_name_setter; rewrite run_bind, (self_Workspace_run _ _ _ _ Hself)
    | unfold Tag_name_setter; rewrite run_bind, (self_Tag_run _ _ _ _ Hself)
    | unfold Tag_notes_setter; rewrite run_bind, (self_Tag_run _ _ _ _ Hself)
    | unfold Project_name_setter; rewrite run_bind, (self_Project_run _ _ _ _ Hself)
    | unfold Project_notes_setter; rewrite run_bind, (self_Project_run _ _ _ _ Hself)
    | unfold Project_archived_setter; rewrite run_bind, (self_Project_run _ _ _ _ Hself) ];
    match goal with
    | |- context [store self ?o'] =>
        exists o'; split; [reflexivity|]; split; [reflexivity|];
        split; [reflexivity|]; split; [|split; [reflexivity|]];
        [| apply put_then_store_heap ]
    end;
    intros k Hk; simpl;
    repeat match goal with
           | |- context [String.eqb k ?s] =>
               destruct (String.eqb_spec k s) as [Hs|_];
               [ try reflexivity; exfalso; apply Hk; exact Hs |]
           end;
    reflexivity.
Qed.

(** X10: a setter changes nothing but its own attribute.  Whatever the
    field, the value and the answer of the service, after the assignment
    the heap has the same objects at the same addresses, every object has
    the class and the client it had, every attribute of every object
    other than the one the setter is for has the value it had (so the id
    in particular), and every object other than the one assigned to is
    unchanged. *)
Theorem setters_preserve_identity f self o v E w :
  heap w !! self = Some o ->
  class_of o = field_class f ->
  let w' := snd (assign f self v E w) in
  length (heap w') = length (heap w)
  /\ forall a x,
       heap w !! a = Some x ->
       exists x',
         heap w' !! a = Some x'
         /\ class_of x' = class_of x
         /\ object_id x' = object_id x
         /\ object_api x' = object_api x
         /\ (forall k, k <> attribute_name f ->
                       dict_get k (attributes x') = dict_get k (attributes x))
         /\ (a <> self -> x' = x).
Proof.
  intros Hself Hclass w'. subst w'.
  destruct (assign_heap f self o v E w Hself Hclass)
    as [o' [Hc [Hi [Ha [Hk [_ [Hh | Hh]]]]]]]; rewrite Hh.
  - split; [reflexivity|]. intros a x Hx. exists x. auto 10.
  - split; [apply length_insert|]. intros a x Hx.
    destruct (decide (a = self)) as [-> | Hne].
    + rewrite Hself in Hx. inversion Hx. subst x.
      exists o'. rewrite (lookup_insert_same _ _ _ _ Hself).
      repeat split; auto. congruence.
    + exists x. rewrite list_lookup_insert_ne by congruence. auto 10.
Qed.

Lemma setters_preserve_identity_witness :
  let w' := snd (assign F_Tag_name 1 (VStr "x") Demo.env_full Demo.w0) in
  length (heap w') = 5
  /\ exists x',
       heap w' !! 1 = Some x'
       /\ class_of x' = CTag /\ object_id x' = VInt 7
       /\ object_api x' = Demo.api
       /\ (forall k, k <> "_name" ->
                     dict_get k (attributes x')
                     = dict_get k (attributes (OTag Demo.the_tag)))
       /\ (1 <> 1 -> x' = OTag Demo.the_tag).
Proof.
  destruct (setters_preserve_identity F_Tag_name 1 (OTag Demo.the_tag)
              (VStr "x") Demo.env_full Demo.w0 eq_refl eq_refl) as [A B].
  split; [exact A | exact (B 1 (OTag Demo.the_tag) eq_refl)].
Defined.

(** ** Construction: an id together with creation parameters *)

(** X11: an existing id together with any creation parameter is
    rejected before anything is sent: [Task] with a true id and named
    arguments, [Tag] with a true id and a true name or notes, [Project]
    with a true id and a true name, notes or archived flag all raise the
    domain error, whatever the other ids are. *)
Theorem id_with_creation_parameters_raises
    api id workspace_id parent_id name notes archived kwargs E w :
  py_truthy id = true ->
  (kwargs <> [] ->
   raises_before_http (Task_init api id workspace_id parent_id kwargs) E w)
  /\ (py_truthy name = true \/ py_truthy notes = true ->
      raises_before_http (Tag_init api id workspace_id name notes) E w)
  /\ (py_truthy name = true \/ py_truthy notes = true
      \/ py_truthy archived = true ->
      raises_before_http
        (Project_init api id workspace_id name notes archived) E w).
Proof.
  intros Hid. unfold raises_before_http. split; [|split].
  - intros Hk. unfold Task_init. rewrite run_bind. rewrite Hid.
    assert (py_truthy (VDict kwargs) = true) as ->
      by (destruct kwargs; [congruence | reflexivity]).
    destruct (py_truthy workspace_id), (py_truthy parent_id); simpl; eauto.
  - intros Hn. unfold Tag_init. rewrite run_bind. rewrite Hid.
    destruct (py_truthy workspace_id); simpl; [eauto|].
    rewrite run_bind.
    assert (py_truthy name || py_truthy notes = true) as ->
      by (destruct Hn as [-> | ->]; [reflexivity | apply orb_true_r]).
    simpl. eauto.
  - intros Hn. unfold Project_init. rewrite run_bind. rewrite Hid.
    destruct (py_truthy workspace_id); simpl; [eauto|].
    assert (py_truthy name || py_truthy notes || py_truthy archived = true)
      as ->
      by (destruct Hn as [-> | [-> | ->]];
          [reflexivity | rewrite orb_true_r; reflexivity | apply orb_true_r]).
    simpl. eauto.
Qed.

Lemma id_with_creation_parameters_witness :
  raises_before_http
    (Task_init Demo.api (VInt 5) VNone VNone [("name", VStr "x")])
    Demo.env_full Demo.w0
  /\ raises_before_http
       (Tag_init Demo.api (VInt 7) VNone (VStr "x") VNone) Demo.env_full Demo.w0
  /\ raises_before_http
       (Project_init Demo.api (VInt 9) VNone VNone VNone (VBool true))
       Demo.env_full Demo.w0.
Proof.
  split; [|split].
  - refine (proj1 (id_with_creation_parameters_raises Demo.api (VInt 5) VNone
                     VNone VNone VNone VNone [("name", VStr "x")]
                     Demo.env_full Demo.w0 eq_refl) _).
    discriminate.
  - exact (proj1 (proj2 (id_with_creation_parameters_raises Demo.api (VInt 7)
                     VNone VNone (VStr "x") VNone VNone []
                     Demo.env_full Demo.w0 eq_refl)) (or_introl eq_refl)).
  - exact (proj2 (proj2 (id_with_creation_parameters_raises Demo.api (VInt 9)
                     VNone VNone VNone VNone (VBool true) []
                     Demo.env_full Demo.w0 eq_refl))
                 (or_intror (or_intror eq_refl))).
Defined.

(** ** Creation in a workspace *)

Lemma Tag_init_by_workspace api workspace_id name notes E w :
  py_truthy workspace_id = true ->
  log (snd (Tag_init api VNone workspace_id name notes E w))
  = (log w ++ [POST_request E api Tag_resrc (VStr "")
                 (set_if "notes" notes
                    (set_if "name" name [("workspace", workspace_id)]))])%list.
Proof.
  intros Hws. unfold Tag_init. simpl py_truthy. rewrite Hws.
  cbn [andb orb]. rewrite run_bind. unfold ret at 1. cbv beta iota zeta.
  rewrite log_bind_quiet by apply _.
  rewrite log_bind_quiet by apply _.
  rewrite post_world. reflexivity.
Qed.

Lemma Project_init_by_workspace api workspace_id name notes archived E w :
  py_truthy workspace_id = true ->
  log (snd (Project_init api VNone workspace_id name notes archived E w))
  = (log w ++ [POST_request E api Project_resrc (VStr "")
                 (set_if "archived" archived
                    (set_if "notes" notes
                       (set_if "name" name [("workspace", workspace_id)])))])%list.
Proof.
  intros Hws. unfold Project_init. simpl py_truthy. rewrite Hws.
  cbn [andb orb]. cbv zeta.
  rewrite log_bind_quiet by apply _.
  rewrite log_bind_quiet by apply _.
  rewrite post_world. reflexivity.
Qed.

Lemma creation_payload_lookup workspace_id name notes archived :
  let tag_payload :=
    set_if "notes" notes (set_if "name" name [("workspace", workspace_id)]) in
  let project_payload := set_if "archived" archived tag_payload in
  (dict_get "workspace" tag_payload = Some workspace_id
   /\ dict_get "name" tag_payload = optional name
   /\ dict_get "notes" tag_payload = optional notes
   /\ dict_get "archived" tag_payload = None)
  /\ (dict_get "workspace" project_payload = Some workspace_id
      /\ dict_get "name" project_payload = optional name
      /\ dict_get "notes" project_payload = optional notes
      /\ dict_get "archived" project_payload = optional archived).
Proof.
  unfold set_if, optional.
  destruct (py_truthy name), (py_truthy notes), (py_truthy archived);
    cbv zeta; repeat split; reflexivity.
Qed.

(** X12: [Workspace.create_tag] and [Workspace.create_project] on a
    workspace with a true id send exactly one request, a POST to the
    collection [tags] (respectively [projects]).  Its payload has the
    workspace id under [workspace] and each optional field only when the
    value given is true: a name or notes that is [None] or empty is not
    sent, and neither is an [archived] flag that is [False], the default
    of [create_project]. *)
Theorem creation_sends_true_fields_only self x name notes archived E w :
  heap w !! self = Some (OWorkspace x) ->
  py_truthy (Workspace__id x) = true ->
  (exists payload,
     log (snd (Workspace_create_tag self name notes E w))
     = (log w ++ [POST_request E (Workspace_api x) Tag_resrc (VStr "")
                               payload])%list
     /\ dict_get "workspace" payload = Some (Workspace__id x)
     /\ dict_get "name" payload = optional name
     /\ dict_get "notes" payload = optional notes)
  /\ (exists payload,
        log (snd (Workspace_create_project self name notes archived E w))
        = (log w ++ [POST_request E (Workspace_api x) Project_resrc (VStr "")
                                  payload])%list
        /\ dict_get "workspace" payload = Some (Workspace__id x)
        /\ dict_get "name" payload = optional name
        /\ dict_get "notes" payload = optional notes
        /\ dict_get "archived" payload = optional archived).
Proof.
  intros Hself Hid.
  destruct (creation_payload_lookup (Workspace__id x) name notes archived)
    as [[T1 [T2 [T3 _]]] [P1 [P2 [P3 P4]]]].
  split.
  - eexists. split; [|split; [exact T1 | split; [exact T2 | exact T3]]].
    unfold Workspace_create_tag.
    rewrite run_bind, (self_Workspace_run _ _ _ _ Hself).
    apply Tag_init_by_workspace. exact Hid.
  - eexists.
    split; [|split; [exact P1 | split; [exact P2 | split; [exact P3 | exact P4]]]].
    unfold Workspace_create_project.
    rewrite run_bind, (self_Workspace_run _ _ _ _ Hself).
    apply Project_init_by_workspace. exact Hid.
Qed.

Lemma creation_sends_true_fields_only_witness :
  exists payload,
    log (snd (Workspace_create_project 3 (VStr "plan") VNone (VBool false)
                                       Demo.env_full Demo.w0))
    = (log Demo.w0 ++ [POST_request Demo.env_full Demo.api Project_resrc
                                    (VStr "") payload])%list
    /\ dict_get "workspace" payload = Some (VInt 3)
    /\ dict_get "name" payload = Some (VStr "plan")
    /\ dict_get "notes" payload = None
    /\ dict_get "archived" payload = None.
Proof.
  exact (proj2 (creation_sends_true_fields_only 3 Demo.the_workspace
                  (VStr "plan") VNone (VBool false) Demo.env_full Demo.w0
                  eq_refl eq_refl)).
Defined.

(** ** Comments *)

Lemma get_answer api resource endpoint E w :
  get api resource endpoint E w
  = (answer E w (GET_request E api resource endpoint),
     sent w (GET_request E api resource endpoint)).
Proof.
  rewrite get_run. unfold answer. cbv zeta.
  destruct (remote E _ _); reflexivity.
Qed.

Lemma post_answer api resource endpoint data E w :
  post api resource endpoint data E w
  = (answer E w (POST_request E api resource endpoint data),
     sent w (POST_request E api resource endpoint data)).
Proof.
  rewrite post_run. unfold answer. cbv zeta.
  destruct (remote E _ _); reflexivity.
Qed.

Lemma Story_init_ret api id E w v w' :
  Story_init api id E w = (Ret v, w') ->
  exists rec s,
    answer E w (GET_request E api Story_resrc id) = Ret rec
    /\ story_of E api rec s
    /\ v = VObj (length (heap w))
    /\ heap w' = (heap w ++ [OStory s])%list
    /\ log w' = (log w ++ [GET_request E api Story_resrc id])%list.
Proof.
  intros H. unfold Story_init in H.
  apply bind_ret_inv in H as [rec [w1 [Hget H]]].
  rewrite get_answer in Hget. injection Hget as Hrec <-.
  apply bind_ret_inv in H as [sid [w2 [H1 H]]].
  apply lift_ret_inv in H1 as [H1 ->].
  apply bind_ret_inv in H as [text [w2 [H2 H]]].
  apply lift_ret_inv in H2 as [H2 ->].
  apply bind_ret_inv in H as [source [w2 [H3 H]]].
  apply lift_ret_inv in H3 as [H3 ->].
  apply bind_ret_inv in H as [type [w2 [H4 H]]].
  apply lift_ret_inv in H4 as [H4 ->].
  apply bind_ret_inv in H as [created [w2 [H5 H]]].
  apply lift_ret_inv in H5 as [H5 ->].
  apply bind_ret_inv in H as [created_at [w2 [H6 H]]].
  rewrite utc_run in H6. injection H6 as H6 <-.
  unfold new in H. injection H as <- <-.
  exists rec.
  exists {| Story_api := api; Story__id := sid; Story__text := text;
            Story__source := source; Story__story_type := type;
            Story__created_at := created_at |}.
  split; [exact Hrec|]. split.
  - unfold story_of. simpl. repeat split; try assumption.
    exists created. split; assumption.
  - split; [reflexivity|]. split; reflexivity.
Qed.

Lemma comment_ret api resource endpoint text E w v w' :
  (jr <- post api resource endpoint [("text", text)] ;;
   id <- lift (getitem jr "id") ;;
   Story_init api id) E w = (Ret v, w') ->
  let comment := POST_request E api resource endpoint [("text", text)] in
  exists jr sid rec s,
    answer E w comment = Ret jr
    /\ getitem jr "id" = Ret sid
    /\ answer E (sent w comment) (GET_request E api Story_resrc sid) = Ret rec
    /\ story_of E api rec s
    /\ v = VObj (length (heap w))
    /\ heap w' = (heap w ++ [OStory s])%list
    /\ log w' = (log w ++ [comment; GET_request E api Story_resrc sid])%list.
Proof.
  intros H comment. subst comment.
  apply bind_ret_inv in H as [jr [w1 [Hpost H]]].
  rewrite post_answer in Hpost. injection Hpost as Hjr <-.
  apply bind_ret_inv in H as [sid [w2 [Hid H]]].
  apply lift_ret_inv in Hid as [Hid ->].
  apply Story_init_ret in H as [rec [s [Hrec [Hs [Hv [Hh Hl]]]]]].
  exists jr, sid, rec, s. simpl in Hh, Hl.
  split; [exact Hjr|]. split; [exact Hid|]. split; [exact Hrec|].
  split; [exact Hs|]. split; [exact Hv|]. split; [exact Hh|].
  rewrite Hl, <- app_assoc. reflexivity.
Qed.

(** X13: [add_comment] on a task or a project takes two round trips.
    It first POSTs [{"text": text}] to the [stories] sub-path of the
    resource.  When it returns, the POST was answered with a record, and
    exactly one more request was sent: the GET of the story whose id is
    the [id] member of that record.  The call returns the one new object,
    a [Story] that holds the members of the record the GET was answered
    with. *)
Theorem add_comment_takes_two_round_trips self o text E w :
  heap w !! self = Some o ->
  let comment :=
    POST_request E (object_api o) (resrc (class_of o))
      (VStr (py_str (py_repr E) (object_id o) ++ "/stories"))
      [("text", text)] in
  let returns (run : M value) :=
    forall v w',
      run E w = (Ret v, w') ->
      exists jr sid rec s,
        answer E w comment = Ret jr
        /\ getitem jr "id" = Ret sid
        /\ answer E (sent w comment)
                  (GET_request E (object_api o) Story_resrc sid) = Ret rec
        /\ story_of E (object_api o) rec s
        /\ v = VObj (length (heap w))
        /\ heap w' = (heap w ++ [OStory s])%list
        /\ log w' = (log w ++ [comment;
                               GET_request E (object_api o) Story_resrc sid])%list
  in
  (class_of o = CTask ->
   (exists l, log (snd (Task_add_comment self text E w))
              = (log w ++ comment :: l)%list)
   /\ returns (Task_add_comment self text))
  /\ (class_of o = CProject ->
      (exists l, log (snd (Project_add_comment self text E w))
                 = (log w ++ comment :: l)%list)
      /\ returns (Project_add_comment self text)).
Proof.
  intros Hself comment returns. subst returns comment. split; intros Hclass;
    destruct o as [|t| | |p|]; try discriminate Hclass; simpl.
  - unfold Task_add_comment.
    rewrite run_bind, (self_Task_run _ _ _ _ Hself).
    rewrite run_bind, fmt_suffix_run. split.
    + rewrite run_bind.
      pose proof (post_world (Task_api t) Task_resrc
                    (VStr (py_str (py_repr E) (Task__id t) ++ "/stories"))
                    [("text", text)] E w) as Hw.
      destruct (post _ _ _ _ E w) as [[jr|e] w1]; simpl in Hw; subst w1.
      * match goal with
        | |- context [bind ?m ?k E (sent w ?rq)] =>
            destruct (grows_bind m k _ _ E (sent w rq)) as [l Hl]
        end.
        exists l. rewrite Hl. simpl. rewrite <- app_assoc. reflexivity.
      * exists []. reflexivity.
    + intros v w' H. apply comment_ret in H. exact H.
  - unfold Project_add_comment.
    rewrite run_bind, (self_Project_run _ _ _ _ Hself).
    rewrite run_bind, fmt_suffix_run. split.
    + rewrite run_bind.
      pose proof (post_world (Project_api p) Project_resrc
                    (VStr (py_str (py_repr E) (Project__id p) ++ "/stories"))
                    [("text", text)] E w) as Hw.
      destruct (post _ _ _ _ E w) as [[jr|e] w1]; simpl in Hw; subst w1.
      * match goal with
        | |- context [bind ?m ?k E (sent w ?rq)] =>
            destruct (grows_bind m k _ _ E (sent w rq)) as [l Hl]
        end.
        exists l. rewrite Hl. simpl. rewrite <- app_assoc. reflexivity.
      * exists []. reflexivity.
    + intros v w' H. apply comment_ret in H. exact H.
Qed.

Lemma add_comment_witness :
  let comment :=
    POST_request Demo.env_full Demo.api Task_resrc (VStr "5/stories")
                 [("text", VStr "done")] in
  let w' := snd (Task_add_comment 0 (VStr "done") Demo.env_full Demo.w0) in
  exists jr sid rec s,
    answer Demo.env_full Demo.w0 comment = Ret jr
    /\ getitem jr "id" = Ret sid
    /\ answer Demo.env_full (sent Demo.w0 comment)
              (GET_request Demo.env_full Demo.api Story_resrc sid) = Ret rec
    /\ story_of Demo.env_full Demo.api rec s
    /\ VObj 5 = VObj (length (heap Demo.w0))
    /\ heap w' = (heap Demo.w0 ++ [OStory s])%list
    /\ log w' = (log Demo.w0 ++
                 [comment;
                  GET_request Demo.env_full Demo.api Story_resrc sid])%list.
Proof.
  exact (proj2 (proj1 (add_comment_takes_two_round_trips 0 (OTask Demo.the_task)
                         (VStr "done") Demo.env_full Demo.w0 eq_refl) eq_refl)
               (VObj 5)
               (snd (Task_add_comment 0 (VStr "done") Demo.env_full Demo.w0))
               eq_refl).
Defined.
(** ** Collections: one request for the list, one per element *)

Lemma mapM_records c api recs E w vs w' :
  mapM (fun elt => id <- lift (getitem elt "id") ;; construct c api id)
       recs E w = (Ret vs, w') ->
  one_object_per_record E c api recs w w' (VList vs).
Proof.
  unfold one_object_per_record.
  revert w vs w'. induction recs as [|rec recs IH]; intros w vs w' H;
    simpl in H.
  - unfold ret in H. injection H as <- <-. exists [], []. simpl.
    rewrite !app_nil_r. repeat split; constructor.
  - apply bind_ret_inv in H as [y [w1 [Hy H]]].
    apply bind_ret_inv in H as [ys [w2 [Hys H]]].
    unfold ret in H. injection H as <- <-.
    apply bind_ret_inv in Hy as [id [w0 [Hid Hy]]].
    apply lift_ret_inv in Hid as [Hid ->].
    apply construct_ret in Hy as [-> [[o [Hc [Ha Hh]]] Hl]].
    destruct (IH _ _ _ Hys) as [ids [h [Hrec [Hlog [Hheap [Hlen [Hall Hv]]]]]]].
    exists (id :: ids), (o :: h).
    split; [constructor; assumption|].
    split; [rewrite Hlog, Hl, <- app_assoc; reflexivity|].
    split; [rewrite Hheap, Hh, <- app_assoc; reflexivity|].
    split; [simpl; rewrite Hlen; reflexivity|].
    split; [constructor; [split; assumption | exact Hall]|].
    injection Hv as ->. rewrite Hh, length_app. simpl length.
    replace (length (heap w) + 1)%nat with (S (length (heap w))) by lia.
    reflexivity.
Qed.

Lemma wrap_each_records c api iterable E w v w' :
  wrap_each (construct c api) iterable E w = (Ret v, w') ->
  exists recs,
    py_iter iterable = Ret recs
    /\ one_object_per_record E c api recs w w' v.
Proof.
  intros H. unfold wrap_each in H.
  apply bind_ret_inv in H as [recs [w1 [H1 H]]].
  apply lift_ret_inv in H1 as [H1 ->].
  apply bind_ret_inv in H as [objs [w2 [H2 H]]].
  unfold ret in H. injection H as <- <-.
  exists recs. split; [exact H1|]. apply mapM_records. exact H2.
Qed.

Lemma no_record_wrapped E c api w :
  one_object_per_record E c api [] w w (VList []).
Proof.
  exists [], []. simpl. rewrite !app_nil_r. repeat split; constructor.
Qed.

(** The three shapes of a collection accessor: the answer is the list, a
    member of the answer is the list, and a member that is tested first. *)
Lemma fetch_list_ret c api resource endpoint E w v w' :
  (jr <- get api resource endpoint ;;
   wrap_each (construct c api) jr) E w = (Ret v, w') ->
  exists d recs,
    answer E w (GET_request E api resource endpoint) = Ret d
    /\ py_iter d = Ret recs
    /\ one_object_per_record E c api recs
         (sent w (GET_request E api resource endpoint)) w' v.
Proof.
  intros H. apply bind_ret_inv in H as [d [w1 [Hget H]]].
  rewrite get_answer in Hget. injection Hget as Hd <-.
  apply wrap_each_records in H as [recs [Hrecs H]].
  exists d, recs. auto.
Qed.

Lemma fetch_member_ret c api resource endpoint key E w v w' :
  (jr <- get api resource endpoint ;;
   x <- lift (getitem jr key) ;;
   wrap_each (construct c api) x) E w = (Ret v, w') ->
  exists d x recs,
    answer E w (GET_request E api resource endpoint) = Ret d
    /\ getitem d key = Ret x
    /\ py_iter x = Ret recs
    /\ one_object_per_record E c api recs
         (sent w (GET_request E api resource endpoint)) w' v.
Proof.
  intros H. apply bind_ret_inv in H as [d [w1 [Hget H]]].
  rewrite get_answer in Hget. injection Hget as Hd <-.
  apply bind_ret_inv in H as [x [w2 [Hx H]]].
  apply lift_ret_inv in Hx as [Hx ->].
  apply wrap_each_records in H as [recs [Hrecs H]].
  exists d, x, recs. auto.
Qed.

Lemma fetch_tested_member_ret c api resource endpoint key E w v w' :
  (jr <- get api resource endpoint ;;
   x <- lift (getitem jr key) ;;
   if py_truthy x then wrap_each (construct c api) x
   else ret (VList [])) E w = (Ret v, w') ->
  exists d x recs,
    answer E w (GET_request E api resource endpoint) = Ret d
    /\ getitem d key = Ret x
    /\ (if negb (py_truthy x) then Ret [] else py_iter x) = Ret recs
    /\ one_object_per_record E c api recs
         (sent w (GET_request E api resource endpoint)) w' v.
Proof.
  intros H. apply bind_ret_inv in H as [d [w1 [Hget H]]].
  rewrite get_answer in Hget. injection Hget as Hd <-.
  apply bind_ret_inv in H as [x [w2 [Hx H]]].
  apply lift_ret_inv in Hx as [Hx ->].
  destruct (py_truthy x) eqn:Htrue.
  - apply wrap_each_records in H as [recs [Hrecs H]].
    exists d, x, recs. rewrite Htrue. auto.
  - unfold ret in H. injection H as <- <-.
    exists d, x, []. rewrite Htrue.
    split; [exact Hd|]. split; [exact Hx|]. split; [reflexivity|].
    apply no_record_wrapped.
Qed.

(** X14: the collection accessors cost one request for the list and one
    per record.  When such an accessor returns, the GET with which it
    starts was answered with a value in which it found its records (the
    answer itself, or the member of it that the accessor reads; a false
    member counts as no record for [Task.followers] and [Task.projects]).
    After that GET it has sent exactly one GET per record, in the order
    of the records, each to [<resrc of the wrapped class>/<id of the
    record>], and it has added exactly one object per record, of the
    class the accessor wraps its records in and bound to the same client;
    it returns the list of these new objects in the order of the records.
    No existing object was touched. *)
Theorem collection_accessors_fetch_each_element r c self o E w v w' :
  wrapped_class r = Some c ->
  heap w !! self = Some o ->
  class_of o = relationship_class r ->
  access r self E w = (Ret v, w') ->
  exists d recs,
    answer E w (relationship_GET E r o) = Ret d
    /\ relationship_records r d = Ret recs
    /\ one_object_per_record E c (object_api o) recs
         (sent w (relationship_GET E r o)) w' v.
Proof.
  intros Hwrap Hself Hclass H.
  destruct r; try discriminate Hwrap; injection Hwrap as <-;
    destruct o; try discriminate Hclass; clear Hclass;
    unfold relationship_GET, relationship_records; simpl; simpl access in H;
    [ unfold User_workspaces in H; rewrite run_bind, (self_User_run _ _ _ _ Hself) in H
    | unfold Task_followers in H; rewrite run_bind, (self_Task_run _ _ _ _ Hself) in H
    | unfold Task_projects in H; rewrite run_bind, (self_Task_run _ _ _ _ Hself) in H
    | unfold Task_tags in H; rewrite run_bind, (self_Task_run _ _ _ _ Hself) in H
    | unfold Task_subtasks in H; rewrite run_bind, (self_Task_run _ _ _ _ Hself) in H
    | unfold Task_comments in H; rewrite run_bind, (self_Task_run _ _ _ _ Hself) in H
    | unfold Workspace_users in H; rewrite run_bind, (self_Workspace_run _ _ _ _ Hself) in H
    | unfold Workspace_projects in H; rewrite run_bind, (self_Workspace_run _ _ _ _ Hself) in H
    | unfold Workspace_tags in H; rewrite run_bind, (self_Workspace_run _ _ _ _ Hself) in H
    | unfold Tag_followers in H; rewrite run_bind, (self_Tag_run _ _ _ _ Hself) in H
    | unfold Tag_tasks in H; rewrite run_bind, (self_Tag_run _ _ _ _ Hself) in H
    | unfold Project_tasks in H; rewrite run_bind, (self_Project_run _ _ _ _ Hself) in H
    | unfold Project_followers in H; rewrite run_bind, (self_Project_run _ _ _ _ Hself) in H
    | unfold Project_comments in H; rewrite run_bind, (self_Project_run _ _ _ _ Hself) in H ];
    try (rewrite run_bind, fmt_suffix_run in H);
    first
      [ apply (fetch_list_ret CUser) in H
      | apply (fetch_list_ret CProject) in H
      | apply (fetch_list_ret CTag) in H
      | apply (fetch_list_ret CTask) in H
      | apply (fetch_list_ret CStory) in H
      | apply (fetch_member_ret CWorkspace) in H
      | apply (fetch_member_ret CUser) in H
      | apply (fetch_member_ret CTag) in H
      | apply (fetch_tested_member_ret CUser) in H
      | apply (fetch_tested_member_ret CProject) in H ];
    first
      [ destruct H as [d [recs [Hd [Hrecs Hall]]]];
        exists d, recs; split; [exact Hd|]; split; [exact Hrecs | exact Hall]
      | destruct H as [d [x [recs [Hd [Hx [Hrecs Hall]]]]]];
        exists d, recs; split; [exact Hd|]; rewrite Hx;
        split; [exact Hrecs | exact Hall] ].
Qed.

Lemma collection_accessors_witness :
  let w' := snd (Workspace_users 3 Demo.env_full Demo.w0) in
  let list_GET :=
    relationship_GET Demo.env_full R_Workspace_users
                     (OWorkspace Demo.the_workspace) in
  exists d recs,
    answer Demo.env_full Demo.w0 list_GET = Ret d
    /\ relationship_records R_Workspace_users d = Ret recs
    /\ one_object_per_record Demo.env_full CUser Demo.api recs
         (sent Demo.w0 list_GET) w' (VList [VObj 5]).
Proof.
  exact (collection_accessors_fetch_each_element R_Workspace_users CUser 3
           (OWorkspace Demo.the_workspace) Demo.env_full Demo.w0
           (VList [VObj 5]) (snd (Workspace_users 3 Demo.env_full Demo.w0))
           eq_refl eq_refl eq_refl eq_refl).
Defined.

(** ** Optional relationships of a task *)

Lemma optional_relationship_run api resource endpoint key
    (wrap : value -> M value) (default : value) r d E w :
  remote E (log w) (GET_request E api resource endpoint) = Responded r ->
  accepted r d ->
  (forall x, getitem d key = Ret x -> py_truthy x = false ->
     (jr <- get api resource endpoint ;;
      x <- lift (getitem jr key) ;;
      if py_truthy x then wrap x else ret default) E w
     = (Ret default, sent w (GET_request E api resource endpoint)))
  /\ (forall e, getitem d key = Raise e ->
        (jr <- get api resource endpoint ;;
         x <- lift (getitem jr key) ;;
         if py_truthy x then wrap x else ret default) E w
        = (Raise e, sent w (GET_request E api resource endpoint))).
Proof.
  intros Hr Ha. split.
  - intros x Hx Hfalse. rewrite run_bind, (get_accepted _ _ _ _ _ _ _ Hr Ha).
    rewrite run_bind. unfold lift at 1. rewrite Hx, Hfalse. reflexivity.
  - intros e He. rewrite run_bind, (get_accepted _ _ _ _ _ _ _ Hr Ha).
    rewrite run_bind. unfold lift at 1. rewrite He. reflexivity.
Qed.

(** X15: the optional relationships of a task.  When the record of the
    task has the member and it is [null] or empty, [parent] and
    [assignee] return [None], [followers] and [projects] return the empty
    list, after the one GET of the task and without allocating anything.
    When the record does not have the member at all, the accessor fails
    with the failed lookup (a [KeyError]) instead. *)
Theorem task_optional_relationships self t r d E w :
  heap w !! self = Some (OTask t) ->
  remote E (log w) (GET_request E (Task_api t) Task_resrc (Task__id t))
  = Responded r ->
  accepted r d ->
  let after := sent w (GET_request E (Task_api t) Task_resrc (Task__id t)) in
  (forall x, py_truthy x = false ->
     (getitem d "parent" = Ret x -> Task_parent self E w = (Ret VNone, after))
     /\ (getitem d "assignee" = Ret x ->
         Task_assignee self E w = (Ret VNone, after))
     /\ (getitem d "followers" = Ret x ->
         Task_followers self E w = (Ret (VList []), after))
     /\ (getitem d "projects" = Ret x ->
         Task_projects self E w = (Ret (VList []), after)))
  /\ (forall e,
        (getitem d "parent" = Raise e -> Task_parent self E w = (Raise e, after))
        /\ (getitem d "assignee" = Raise e ->
            Task_assignee self E w = (Raise e, after))
        /\ (getitem d "followers" = Raise e ->
            Task_followers self E w = (Raise e, after))
        /\ (getitem d "projects" = Raise e ->
            Task_projects self E w = (Raise e, after))).
Proof.
  intros Hself Hr Ha after. subst after.
  assert (Hrun : forall key (wrap : Task -> value -> M value) default,
             (forall x, getitem d key = Ret x -> py_truthy x = false ->
                (t0 <- self_Task self ;;
                 jr <- get (Task_api t0) Task_resrc (Task__id t0) ;;
                 x <- lift (getitem jr key) ;;
                 if py_truthy x then wrap t0 x else ret default) E w
                = (Ret default,
                   sent w (GET_request E (Task_api t) Task_resrc (Task__id t))))
             /\ (forall e, getitem d key = Raise e ->
                   (t0 <- self_Task self ;;
                    jr <- get (Task_api t0) Task_resrc (Task__id t0) ;;
                    x <- lift (getitem jr key) ;;
                    if py_truthy x then wrap t0 x else ret default) E w
                   = (Raise e,
                      sent w (GET_request E (Task_api t) Task_resrc
                                          (Task__id t))))).
  { intros key wrap default.
    destruct (optional_relationship_run (Task_api t) Task_resrc (Task__id t)
                key (wrap t) default r d E w Hr Ha) as [H1 H2].
    split.
    - intros x Hx Hf. rewrite run_bind, (self_Task_run _ _ _ _ Hself).
      apply (H1 x Hx Hf).
    - intros e He. rewrite run_bind, (self_Task_run _ _ _ _ Hself).
      apply (H2 e He). }
  split.
  - intros x Hf. repeat split; intros Hx.
    + apply (proj1 (Hrun "parent"
               (fun t0 parent => id <- lift (getitem parent "id") ;;
                                 User_init (Task_api t0) id) VNone) x Hx Hf).
    + apply (proj1 (Hrun "assignee"
               (fun t0 assignee => id <- lift (getitem assignee "id") ;;
                                   User_init (Task_api t0) id) VNone) x Hx Hf).
    + apply (proj1 (Hrun "followers"
               (fun t0 followers => wrap_each (User_init (Task_api t0)) followers)
               (VList [])) x Hx Hf).
    + apply (proj1 (Hrun "projects"
               (fun t0 projects =>
                  wrap_each (fun id => Project_init (Task_api t0) id
                                         VNone VNone VNone VNone) projects)
               (VList [])) x Hx Hf).
  - intros e. repeat split; intros He.
    + apply (proj2 (Hrun "parent"
               (fun t0 parent => id <- lift (getitem parent "id") ;;
                                 User_init (Task_api t0) id) VNone) e He).
    + apply (proj2 (Hrun "assignee"
               (fun t0 assignee => id <- lift (getitem assignee "id") ;;
                                   User_init (Task_api t0) id) VNone) e He).
    + apply (proj2 (Hrun "followers"
               (fun t0 followers => wrap_each (User_init (Task_api t0)) followers)
               (VList [])) e He).
    + apply (proj2 (Hrun "projects"
               (fun t0 projects =>
                  wrap_each (fun id => Project_init (Task_api t0) id
                                         VNone VNone VNone VNone) projects)
               (VList [])) e He).
Qed.

Lemma task_optional_relationships_witness :
  Task_assignee 0 Demo.env_full Demo.w0
  = (Ret VNone,
     sent Demo.w0 (GET_request Demo.env_full Demo.api Task_resrc (VInt 5)))
  /\ Task_followers 0 Demo.env_full Demo.w0
     = (Ret (VList []),
        sent Demo.w0 (GET_request Demo.env_full Demo.api Task_resrc (VInt 5))).
Proof.
  assert (Hok : accepted (Response 200 (Some "application/json; charset=UTF-8")
                                   (VDict [("data", Demo.task5)])) Demo.task5).
  { split; [left; reflexivity | split; reflexivity]. }
  pose proof (task_optional_relationships 0 Demo.the_task _ Demo.task5
                Demo.env_full Demo.w0 eq_refl eq_refl Hok) as [A _].
  split.
  - exact (proj1 (proj2 (A VNone eq_refl)) eq_refl).
  - exact (proj1 (proj2 (proj2 (A (VList []) eq_refl))) eq_refl).
Defined.

(** ** The memoized workspace is shared, not copied *)

Lemma Workspace_name_setter_ret a x name E w w' :
  heap w !! a = Some (OWorkspace x) ->
  Workspace_name_setter a name E w = (Ret tt, w') ->
  heap w' = <[a := OWorkspace (Workspace_set__name name x)]> (heap w).
Proof.
  intros Ha H. unfold Workspace_name_setter in H.
  rewrite run_bind, (self_Workspace_run _ _ _ _ Ha) in H.
  rewrite put_then_store in H.
  destruct (fst (put _ _ _ _ E w)); inversion H. reflexivity.
Qed.

(** X16: the workspace memoized on a tag or a project is the object
    itself, not a copy.  After a first access has returned the workspace,
    renaming that workspace through the returned reference is seen by
    every later access: the accessor returns the same reference, sends
    nothing, and the object it refers to carries the new name. *)
Theorem memoized_workspace_is_shared r self o name E w v w1 w2 :
  memoized r = true ->
  heap w !! self = Some o ->
  class_of o = relationship_class r ->
  (exists c, cached_workspace o = Some c /\ py_truthy c = false) ->
  access r self E w = (Ret v, w1) ->
  (forall a, v = VObj a -> Workspace_name_setter a name E w1 = (Ret tt, w2)) ->
  access r self E w2 = (Ret v, w2)
  /\ exists a x,
       v = VObj a /\ heap w2 !! a = Some (OWorkspace x)
       /\ Workspace__name x = name.
Proof.
  intros Hm Hself Hclass [c [Hc Hfalse]] H Hset.
  destruct r; try discriminate Hm; clear Hm;
    destruct o as [| | |t|p|]; try discriminate Hclass; clear Hclass;
    simpl in Hc; inversion Hc; subst c; clear Hc; simpl access in *.
  - apply (Tag_workspace_first _ _ _ _ _ _ Hself Hfalse) in H
      as [wid [x [-> ->]]].
    specialize (Hset (length (heap w)) eq_refl).
    destruct (lookup_after_alloc (heap w) self (OTag t)
                (OTag (Tag_set__workspace (VObj (length (heap w))) t))
                (OWorkspace x) Hself) as [Hs Hx].
    match type of Hset with
    | Workspace_name_setter _ _ _ ?w1 = _ =>
        pose proof (Workspace_name_setter_ret _ _ _ _ w1 _ Hx Hset) as Hh
    end.
    simpl heap in Hh.
    pose proof (lookup_lt_Some _ _ _ Hself) as Hlt.
    assert (Hs2 : heap w2 !! self
                  = Some (OTag (Tag_set__workspace (VObj (length (heap w))) t))).
    { rewrite Hh. rewrite list_lookup_insert_ne by lia. exact Hs. }
    split.
    + exact (Tag_workspace_cached self _ E w2 Hs2 eq_refl).
    + exists (length (heap w)), (Workspace_set__name name x).
      split; [reflexivity|]. split; [|reflexivity].
      rewrite Hh. apply list_lookup_insert_eq.
      rewrite length_insert, length_app. simpl. lia.
  - apply (Project_workspace_first _ _ _ _ _ _ Hself Hfalse) in H
      as [wid [x [-> ->]]].
    specialize (Hset (length (heap w)) eq_refl).
    destruct (lookup_after_alloc (heap w) self (OProject p)
                (OProject (Project_set__workspace (VObj (length (heap w))) p))
                (OWorkspace x) Hself) as [Hs Hx].
    match type of Hset with
    | Workspace_name_setter _ _ _ ?w1 = _ =>
        pose proof (Workspace_name_setter_ret _ _ _ _ w1 _ Hx Hset) as Hh
    end.
    simpl heap in Hh.
    pose proof (lookup_lt_Some _ _ _ Hself) as Hlt.
    assert (Hs2 : heap w2 !! self
                  = Some (OProject
                            (Project_set__workspace (VObj (length (heap w))) p))).
    { rewrite Hh. rewrite list_lookup_insert_ne by lia. exact Hs. }
    split.
    + exact (Project_workspace_cached self _ E w2 Hs2 eq_refl).
    + exists (length (heap w)), (Workspace_set__name name x).
      split; [reflexivity|]. split; [|reflexivity].
      rewrite Hh. apply list_lookup_insert_eq.
      rewrite length_insert, length_app. simpl. lia.
Qed.

Lemma memoized_workspace_is_shared_witness :
  let w1 := snd (Tag_workspace 1 Demo.env_full Demo.w0) in
  let w2 := snd (Workspace_name_setter 5 (VStr "EE") Demo.env_full w1) in
  access R_Tag_workspace 1 Demo.env_full w2 = (Ret (VObj 5), w2)
  /\ exists a x,
       VObj 5 = VObj a /\ heap w2 !! a = Some (OWorkspace x)
       /\ Workspace__name x = VStr "EE".
Proof.
  refine (memoized_workspace_is_shared R_Tag_workspace 1 (OTag Demo.the_tag)
            (VStr "EE") Demo.env_full Demo.w0 (VObj 5)
            (snd (Tag_workspace 1 Demo.env_full Demo.w0))
            (snd (Workspace_name_setter 5 (VStr "EE") Demo.env_full
                    (snd (Tag_workspace 1 Demo.env_full Demo.w0))))
            eq_refl eq_refl eq_refl
            (ex_intro _ VNone (conj eq_refl eq_refl)) eq_refl _).
  intros a Ha. inversion Ha. reflexivity.
Defined.

(** ** The lookups of a workspace *)

(** X17: the lookups of a workspace check their arguments before they
    send anything.  [find_user] with both a name and an email, or with
    neither, raises the domain error; [find_tasks] with an argument that
    is not an object raises the domain error, which carries the argument;
    [find_projects] always fails, with the interpreter's [TypeError] for
    the extra positional argument it passes to [get]. *)
Theorem workspace_lookups_reject_bad_arguments
    self x name email first_match user archived E w :
  heap w !! self = Some (OWorkspace x) ->
  (py_truthy name = py_truthy email ->
   raises_before_http (Workspace_find_user self name email first_match) E w)
  /\ ((forall a, user <> VObj a) ->
      Workspace_find_tasks self user E w
      = (Raise (AsanaError "Requires a User object." [user]), w))
  /\ Workspace_find_projects self archived E w = (Raise TypeError, w).
Proof.
  intros Hself. split; [|split].
  - intros Heq. unfold raises_before_http, Workspace_find_user.
    rewrite run_bind. rewrite Heq.
    destruct (py_truthy email); simpl; eauto.
  - intros Hno. unfold Workspace_find_tasks. rewrite run_bind.
    unfold except_AttributeError, getattr_id.
    destruct user; try reflexivity. exfalso. apply (Hno a). reflexivity.
  - unfold Workspace_find_projects.
    rewrite run_bind, (self_Workspace_run _ _ _ _ Hself).
    rewrite run_bind, fmt_suffix_run. reflexivity.
Qed.

Lemma workspace_lookups_witness :
  raises_before_http
    (Workspace_find_user 3 (VStr "Ann") (VStr "ann@example.org") (VBool true))
    Demo.env_full Demo.w0
  /\ Workspace_find_tasks 3 (VInt 4) Demo.env_full Demo.w0
     = (Raise (AsanaError "Requires a User object." [VInt 4]), Demo.w0).
Proof.
  pose proof (workspace_lookups_reject_bad_arguments 3 Demo.the_workspace
                (VStr "Ann") (VStr "ann@example.org") (VBool true) (VInt 4)
                (VBool false) Demo.env_full Demo.w0 eq_refl) as [A [B _]].
  split; [exact (A eq_refl)|]. apply B. intros a Ha. discriminate Ha.
Defined.

(** X18: [find_tasks] with a resource object as argument.  It uses the
    id of the object, whatever its class, and starts with the GET of
    [<workspace id>/tasks?assignee=<object id>] below [workspaces].  When
    it returns, that GET was answered with a list of records, and it has
    then sent exactly one GET of [tasks/<id of the record>] per record of
    that answer, in order, and returns the list of the new [Task]
    objects, one per record of the answer, in that order. *)
Theorem find_tasks_queries_by_assignee self x u o E w :
  heap w !! self = Some (OWorkspace x) ->
  heap w !! u = Some o ->
  let query :=
    GET_request E (Workspace_api x) Workspace_resrc
      (VStr (py_str (py_repr E) (Workspace__id x) ++ "/tasks?assignee="
             ++ py_str (py_repr E) (object_id o))) in
  (exists l, log (snd (Workspace_find_tasks self (VObj u) E w))
             = (log w ++ query :: l)%list)
  /\ forall v w',
       Workspace_find_tasks self (VObj u) E w = (Ret v, w') ->
       exists d recs,
         answer E w query = Ret d
         /\ py_iter d = Ret recs
         /\ one_object_per_record E CTask (Workspace_api x) recs
              (sent w query) w' v.
Proof.
  intros Hself Hu query. subst query.
  assert (Hrun : Workspace_find_tasks self (VObj u) E w
                 = (jr <- get (Workspace_api x) Workspace_resrc
                           (VStr (py_str (py_repr E) (Workspace__id x)
                                  ++ "/tasks?assignee="
                                  ++ py_str (py_repr E) (object_id o))) ;;
                    wrap_each (construct CTask (Workspace_api x)) jr) E w).
  { unfold Workspace_find_tasks.
    rewrite run_bind, (getattr_id_run _ _ _ _ Hu).
    rewrite run_bind, (self_Workspace_run _ _ _ _ Hself). reflexivity. }
  rewrite Hrun. split.
  - apply log_bind_get. apply _.
  - intros v w' H. apply fetch_list_ret in H. exact H.
Qed.

Lemma find_tasks_witness :
  let query :=
    GET_request Demo.env_full Demo.api Workspace_resrc
                (VStr "3/tasks?assignee=4") in
  exists d recs,
    answer Demo.env_full Demo.w0 query = Ret d
    /\ py_iter d = Ret recs
    /\ one_object_per_record Demo.env_full CTask Demo.api recs
         (sent Demo.w0 query)
         (snd (Workspace_find_tasks 3 (VObj 4) Demo.env_full Demo.w0))
         (VList [VObj 5]).
Proof.
  exact (proj2 (find_tasks_queries_by_assignee 3 Demo.the_workspace 4
                  (OUser Demo.the_user) Demo.env_full Demo.w0 eq_refl eq_refl)
               (VList [VObj 5])
               (snd (Workspace_find_tasks 3 (VObj 4) Demo.env_full Demo.w0))
               eq_refl).
Defined.

#[global] Instance pure_deref a : pure_ (deref a).
Proof. intros E w. unfold deref. destruct (heap w !! a); reflexivity. Qed.

#[global] Instance pure_getattr_name v : pure_ (getattr_name v).
Proof.
  unfold getattr_name. destruct v; try apply _.
  apply pure_bind; [apply _|]. intros []; apply _.
Qed.

#[global] Instance pure_getattr_email v : pure_ (getattr_email v).
Proof.
  unfold getattr_email. destruct v; try apply _.
  apply pure_bind; [apply _|]. intros []; apply _.
Qed.

Lemma filter_attr_ret attr wanted items E w l w' :
  (forall x, pure_ (attr x)) ->
  filter_attr attr wanted items E w = (Ret l, w') ->
  w' = w /\ l = List.filter (attr_is attr E w wanted) items.
Proof.
  intros Hp. revert l w'. induction items as [|x xs IH]; intros l w' H;
    simpl in H.
  - unfold ret in H. inversion H. auto.
  - apply bind_ret_inv in H as [v [w1 [Hv H]]].
    pose proof (pure_ret_inv _ _ _ _ _ (Hp x) Hv) as ->.
    apply bind_ret_inv in H as [rest [w2 [Hrest H]]].
    destruct (IH _ _ Hrest) as [-> ->].
    unfold ret in H. injection H as <- <-. split; [reflexivity|].
    assert (Hx : attr_is attr E w wanted x = py_eq v wanted)
      by (unfold attr_is; rewrite Hv; reflexivity).
    simpl. rewrite Hx. destruct (py_eq v wanted); reflexivity.
Qed.

Lemma wrap_each_ret_list ctor iterable E w v w' :
  wrap_each ctor iterable E w = (Ret v, w') -> exists l, v = VList l.
Proof.
  unfold wrap_each. intros H.
  apply bind_ret_inv in H as [elts [w1 [_ H]]].
  apply bind_ret_inv in H as [objs [w2 [_ H]]].
  unfold ret in H. inversion H. eauto.
Qed.

Lemma Workspace_users_ret_list self E w v w' :
  Workspace_users self E w = (Ret v, w') -> exists l, v = VList l.
Proof.
  unfold Workspace_users. intros H.
  apply bind_ret_inv in H as [x [w1 [_ H]]].
  apply bind_ret_inv in H as [ep [w2 [_ H]]].
  apply bind_ret_inv in H as [jr [w3 [_ H]]].
  apply wrap_each_ret_list in H. exact H.
Qed.

(** X19: what [find_user] returns.  It fetches the users of the
    workspace once, as the [users] property does, and sends nothing more.
    By name it keeps, in order, the fetched users whose name equals the
    name asked for, and returns the first of them, or the empty list when
    there is none; with a false [first_match] it returns the whole list
    of them.  By email it returns the first fetched user with that email,
    or the empty list, whatever [first_match] is. *)
Theorem find_user_filters_the_fetched_users
    self name email first_match E w v w' :
  Workspace_find_user self name email first_match E w = (Ret v, w') ->
  exists users,
    Workspace_users self E w = (Ret (VList users), w')
    /\ (py_truthy name = true ->
        py_truthy email = false
        /\ let found := List.filter (attr_is getattr_name E w' name) users in
           v = if py_truthy first_match then first_or_empty found
               else VList found)
    /\ (py_truthy name = false ->
        py_truthy email = true
        /\ v = first_or_empty
                 (List.filter (attr_is getattr_email E w' email) users)).
Proof.
  unfold Workspace_find_user. intros H.
  apply bind_ret_inv in H as [u [w0 [Hguard H]]].
  assert (Hg : w0 = w /\ py_truthy name = negb (py_truthy email)).
  { destruct (py_truthy name), (py_truthy email); simpl in Hguard;
      try discriminate Hguard; unfold ret in Hguard; inversion Hguard; auto. }
  destruct Hg as [-> Hne]. clear Hguard.
  apply bind_ret_inv in H as [uv [w1 [Husers H]]].
  destruct (Workspace_users_ret_list _ _ _ _ _ Husers) as [users ->].
  apply bind_ret_inv in H as [users' [w2 [Hiter H]]].
  apply lift_ret_inv in Hiter as [Hiter ->]. simpl in Hiter.
  inversion Hiter. subst users'. clear Hiter.
  destruct (py_truthy name) eqn:Hname.
  - apply bind_ret_inv in H as [found [w3 [Hfound H]]].
    apply filter_attr_ret in Hfound as [-> ->]; [|apply _].
    assert (Hres : w' = w1
                   /\ v = if py_truthy first_match
                          then first_or_empty
                                 (List.filter (attr_is getattr_name E w1 name)
                                              users)
                          else VList (List.filter
                                        (attr_is getattr_name E w1 name) users)).
    { destruct (py_truthy first_match);
        destruct (List.filter (attr_is getattr_name E w1 name) users)
          as [|y ys];
        simpl in H; unfold lift, ret in H; inversion H; auto. }
    destruct Hres as [-> ->].
    exists users. split; [exact Husers|]. split.
    + intros _. split; [|reflexivity].
      destruct (py_truthy email); [discriminate Hne | reflexivity].
    + discriminate.
  - apply bind_ret_inv in H as [found [w3 [Hfound H]]].
    apply filter_attr_ret in Hfound as [-> ->]; [|apply _].
    assert (Hres : w' = w1
                   /\ v = first_or_empty
                            (List.filter (attr_is getattr_email E w1 email)
                                         users)).
    { destruct (List.filter (attr_is getattr_email E w1 email) users)
        as [|y ys];
        simpl in H; unfold lift, ret in H; inversion H; auto. }
    destruct Hres as [-> ->].
    exists users. split; [exact Husers|]. split.
    + discriminate.
    + intros _. split; [|reflexivity].
      destruct (py_truthy email); [reflexivity | discriminate Hne].
Qed.

Lemma find_user_witness :
  exists users,
    Workspace_users 3 Demo.env_full Demo.w0
    = (Ret (VList users),
       snd (Workspace_find_user 3 (VStr "Ann") VNone (VBool true)
                                Demo.env_full Demo.w0))
    /\ (py_truthy (VStr "Ann") = true ->
        py_truthy VNone = false
        /\ VObj 5
           = if py_truthy (VBool true)
             then first_or_empty
                    (List.filter
                       (attr_is getattr_name Demo.env_full
                          (snd (Workspace_find_user 3 (VStr "Ann") VNone
                                  (VBool true) Demo.env_full Demo.w0))
                          (VStr "Ann")) users)
             else VList
                    (List.filter
                       (attr_is getattr_name Demo.env_full
                          (snd (Workspace_find_user 3 (VStr "Ann") VNone
                                  (VBool true) Demo.env_full Demo.w0))
                          (VStr "Ann")) users)).
Proof.
  destruct (find_user_filters_the_fetched_users 3 (VStr "Ann") VNone
              (VBool true) Demo.env_full Demo.w0 (VObj 5)
              (snd (Workspace_find_user 3 (VStr "Ann") VNone (VBool true)
                                        Demo.env_full Demo.w0))
              eq_refl) as [users [A [B _]]].
  exists users. split; [exact A | exact B].
Defined.

(** ** The factory *)

#[global] Instance grows_construct c api id : grows (construct c api id).
Proof. destruct c; simpl; apply _. Qed.

Lemma collection_run api key c E w :
  collection_class key = Some c ->
  resrc c = key
  /\ Asana_getattr api key E w
     = (jr <- get api key (VStr "") ;;
        items <- wrap_each (construct c api) jr ;;
        ret (Collection items)) E w.
Proof.
  unfold collection_class, Asana_getattr, resource_name_map,
    resource_collections.
  intros H.
  destruct (String.eqb key "users") eqn:H1.
  { apply String.eqb_eq in H1. subst key. inversion H. split; reflexivity. }
  destruct (String.eqb key "workspaces") eqn:H2.
  { apply String.eqb_eq in H2. subst key. inversion H. split; reflexivity. }
  destruct (String.eqb key "projects") eqn:H3.
  { apply String.eqb_eq in H3. subst key. inversion H. split; reflexivity. }
  destruct (String.eqb key "tags") eqn:H4.
  { apply String.eqb_eq in H4. subst key. inversion H. split; reflexivity. }
  discriminate H.
Qed.

(** X20: the attribute lookup of the client.  The name of a resource
    class gives the constructor and sends nothing.  One of the
    collection names [users], [workspaces], [projects], [tags] fetches
    the collection with one GET of [<base>/<name>]; when the lookup
    returns, that GET was answered with a list of records, and the lookup
    has then sent one GET of [<base>/<name>/<id of the record>] per
    record of the answer, in order, and returns the new objects, one per
    record and in that order.  Any other name raises [AttributeError] and
    sends nothing. *)
Theorem getattr_dispatches_on_the_name api key E w :
  (forall c, resource_name_map key = Some c ->
             Asana_getattr api key E w = (Ret (Constructor c), w))
  /\ (forall c, collection_class key = Some c ->
        (exists l, log (snd (Asana_getattr api key E w))
                   = (log w ++ GET_request E api key (VStr "") :: l)%list)
        /\ forall a w',
             Asana_getattr api key E w = (Ret a, w') ->
             exists d recs v,
               answer E w (GET_request E api key (VStr "")) = Ret d
               /\ py_iter d = Ret recs
               /\ a = Collection v
               /\ resrc c = key
               /\ one_object_per_record E c api recs
                    (sent w (GET_request E api key (VStr ""))) w' v)
  /\ (resource_name_map key = None -> collection_class key = None ->
      Asana_getattr api key E w = (Raise (AttributeError key), w)).
Proof.
  split; [|split].
  - intros c Hc. unfold Asana_getattr. rewrite Hc. reflexivity.
  - intros c Hc. destruct (collection_run api key c E w Hc) as [Hres ->].
    split.
    + apply log_bind_get. apply _.
    + intros a w' H.
      apply bind_ret_inv in H as [d [w1 [Hget H]]].
      rewrite get_answer in Hget. injection Hget as Hd <-.
      apply bind_ret_inv in H as [items [w2 [Hitems H]]].
      unfold ret in H. injection H as <- <-.
      apply wrap_each_records in Hitems as [recs [Hrecs Hall]].
      exists d, recs, items.
      split; [exact Hd|]. split; [exact Hrecs|]. split; [reflexivity|].
      split; [exact Hres | exact Hall].
  - intros Hn Hc. unfold Asana_getattr. rewrite Hn.
    unfold collection_class in Hc. unfold resource_collections.
    destruct (String.eqb key "users"); [discriminate Hc|].
    destruct (String.eqb key "workspaces"); [discriminate Hc|].
    destruct (String.eqb key "projects"); [discriminate Hc|].
    destruct (String.eqb key "tags"); [discriminate Hc|].
    reflexivity.
Qed.

Lemma getattr_witness :
  Asana_getattr Demo.api "Task" Demo.env_full Demo.w0
  = (Ret (Constructor N_Task), Demo.w0)
  /\ (exists d recs v,
        answer Demo.env_full Demo.w0
               (GET_request Demo.env_full Demo.api "users" (VStr "")) = Ret d
        /\ py_iter d = Ret recs
        /\ Collection (VList [VObj 5]) = Collection v
        /\ resrc CUser = "users"
        /\ one_object_per_record Demo.env_full CUser Demo.api recs
             (sent Demo.w0
                   (GET_request Demo.env_full Demo.api "users" (VStr "")))
             (snd (Asana_getattr Demo.api "users" Demo.env_full Demo.w0)) v)
  /\ Asana_getattr Demo.api "teams" Demo.env_full Demo.w0
     = (Raise (AttributeError "teams"), Demo.w0).
Proof.
  split; [|split].
  - exact (proj1 (getattr_dispatches_on_the_name Demo.api "Task" Demo.env_full
                    Demo.w0) N_Task eq_refl).
  - exact (proj2 (proj1 (proj2 (getattr_dispatches_on_the_name Demo.api "users"
                    Demo.env_full Demo.w0)) CUser eq_refl)
                 (Collection (VList [VObj 5]))
                 (snd (Asana_getattr Demo.api "users" Demo.env_full Demo.w0))
                 eq_refl).
  - exact (proj2 (proj2 (getattr_dispatches_on_the_name Demo.api "teams"
                    Demo.env_full Demo.w0)) eq_refl eq_refl).
Defined.

(** ** The payload of a task creation *)

Lemma dict_get_set k k' v d :
  dict_get k (dict_set k' v d)
  = if String.eqb k k' then Some v else dict_get k d.
Proof.
  induction d as [|[k0 v0] d IH]; simpl.
  - reflexivity.
  - destruct (String.eqb k' k0) eqn:H0; simpl.
    + apply String.eqb_eq in H0. subst k0.
      destruct (String.eqb k k'); reflexivity.
    + rewrite IH. destruct (String.eqb k k0) eqn:H1; [|reflexivity].
      apply String.eqb_eq in H1. subst k0.
      rewrite String.eqb_sym, H0. reflexivity.
Qed.

Lemma dict_get_fold k items d0 :
  dict_get k (fold_left (fun d kv => dict_set (fst kv) (snd kv) d) items d0)
  = match dict_get k (rev items) with
    | Some v => Some v
    | None => dict_get k d0
    end.
Proof.
  revert d0. induction items as [|[k' v'] items IH]; intros d0; simpl.
  - reflexivity.
  - rewrite IH, dict_get_set. clear IH.
    induction (rev items) as [|[k1 v1] l IHl]; simpl.
    + destruct (String.eqb k k'); reflexivity.
    + destruct (String.eqb k k1); [reflexivity | exact IHl].
Qed.

Lemma dict_get_absent k (d : dict) :
  ~ In k (map fst d) -> dict_get k d = None.
Proof.
  induction d as [|[k0 v0] d IH]; simpl; intros H; [reflexivity|].
  destruct (String.eqb k k0) eqn:H0.
  - apply String.eqb_eq in H0. subst k0. exfalso. apply H. left. reflexivity.
  - apply IH. intros Hin. apply H. right. exact Hin.
Qed.

Lemma dict_get_app k (d1 d2 : dict) :
  dict_get k (d1 ++ d2)
  = match dict_get k d1 with Some v => Some v | None => dict_get k d2 end.
Proof.
  induction d1 as [|[k0 v0] d1 IH]; simpl; [reflexivity|].
  destruct (String.eqb k k0); [reflexivity | exact IH].
Qed.

Lemma dict_get_rev k (d : dict) :
  NoDup (map fst d) -> dict_get k (rev d) = dict_get k d.
Proof.
  induction d as [|[k0 v0] d IH]; simpl; intros Hnd; [reflexivity|].
  apply NoDup_cons in Hnd as [Hnotin Hnd].
  rewrite dict_get_app, (IH Hnd). simpl.
  destruct (String.eqb k k0) eqn:H0.
  - apply String.eqb_eq in H0. subst k0.
    rewrite dict_get_absent; [reflexivity|].
    intros Hin. apply Hnotin. apply list_elem_of_In. exact Hin.
  - destruct (dict_get k d); reflexivity.
Qed.

(** X21: the payload with which the [Task] constructor creates a task.
    In a workspace it sends one POST to the collection [tasks] whose
    payload has every named argument with the value given, and the
    workspace id under [workspace] unless a named argument of that name
    takes its place.  Below a parent task it sends one POST to
    [<parent id>/subtasks] whose payload is exactly the named arguments:
    the parent id is only in the URL. *)
Theorem task_creation_payload api id kwargs E w :
  py_truthy id = true ->
  NoDup (map fst kwargs) ->
  (exists payload,
     log (snd (Task_init api VNone id VNone kwargs E w))
     = (log w ++ [POST_request E api Task_resrc (VStr "") payload])%list
     /\ forall k,
          dict_get k payload
          = match dict_get k kwargs with
            | Some v => Some v
            | None => if String.eqb k "workspace" then Some id else None
            end)
  /\ log (snd (Task_init api VNone VNone id kwargs E w))
     = (log w ++ [POST_request E api Task_resrc
                    (VStr (py_str (py_repr E) id ++ "/subtasks")) kwargs])%list.
Proof.
  intros Hid Hnd. split.
  - eexists. split; [apply Task_init_by_workspace; exact Hid|].
    intros k. unfold dict_of_items.
    change ([("workspace", id)] ++ kwargs)%list
      with (("workspace", id) :: kwargs).
    cbn [fold_left fst snd dict_set].
    rewrite dict_get_fold, (dict_get_rev _ _ Hnd). simpl.
    destruct (dict_get k kwargs); reflexivity.
  - apply Task_init_by_parent. exact Hid.
Qed.

Lemma task_creation_payload_witness :
  exists payload,
    log (snd (Task_init Demo.api VNone (VInt 3) VNone
                [("name", VStr "x"); ("workspace", VInt 4)]
                Demo.env_full Demo.w0))
    = (log Demo.w0 ++ [POST_request Demo.env_full Demo.api Task_resrc
                                    (VStr "") payload])%list
    /\ forall k,
         dict_get k payload
         = match dict_get k [("name", VStr "x"); ("workspace", VInt 4)] with
           | Some v => Some v
           | None => if String.eqb k "workspace" then Some (VInt 3) else None
           end.
Proof.
  refine (proj1 (task_creation_payload Demo.api (VInt 3)
                   [("name", VStr "x"); ("workspace", VInt 4)]
                   Demo.env_full Demo.w0 eq_refl _)).
  simpl. apply NoDup_cons_2; [|apply NoDup_singleton].
  intros H. apply list_elem_of_In in H. destruct H as [H|[]]. discriminate H.
Defined.

(** ** The status of the assignee *)

Lemma py_in_strs_ok_status status :
  py_in_strs status ok_status = true <-> text_in statuses status.
Proof.
  unfold py_in_strs, ok_status, text_in, statuses. split.
  - intros H. destruct status; simpl in H; try discriminate H;
      exists s; (split; [auto|]);
      repeat (apply orb_true_iff in H as [H|H];
              [apply String.eqb_eq in H; subst s; simpl; tauto|]);
      discriminate H.
  - intros [s [[-> | ->] Hin]]; simpl in Hin |- *;
      destruct Hin as [<- | [<- | [<- | [<- | []]]]]; reflexivity.
Qed.

(** X22: which statuses [Task.assignee_status] accepts, and what it
    sends.  Exactly the four texts [inbox], [later], [today] and
    [upcoming] are accepted, as [str] or as [unicode]: for them the setter
    sends one PUT to the task's own endpoint whose payload has the single
    key [status]; for every other value, of any type, it raises the
    domain error and sends nothing. *)
Theorem assignee_status_accepts_four_statuses self t status E w :
  heap w !! self = Some (OTask t) ->
  (text_in statuses status ->
   issues_one_PUT (Task_assignee_status_setter self status) E w (OTask t)
                  [("status", status)])
  /\ (~ text_in statuses status ->
      raises_before_http (Task_assignee_status_setter self status) E w).
Proof.
  intros Hself. split.
  - intros Hin. apply py_in_strs_ok_status in Hin.
    assert (Hrun : Task_assignee_status_setter self status E w
                   = (put (Task_api t) Task_resrc (Task__id t)
                          [("status", status)] ;;;
                      store self (OTask (Task_set__assignee_status status t)))
                       E w).
    { unfold Task_assignee_status_setter.
      rewrite run_bind, (self_Task_run _ _ _ _ Hself). cbv zeta.
      rewrite run_bind. fold ok_status. rewrite Hin. reflexivity. }
    unfold issues_one_PUT. rewrite Hrun, put_then_store.
    destruct (fst (put _ _ _ _ E w)); reflexivity.
  - intros Hnot. apply (assignee_status_rejected _ _ _ _ _ Hself).
    destruct (py_in_strs status ok_status) eqn:H; [|reflexivity].
    exfalso. apply Hnot. apply py_in_strs_ok_status. exact H.
Qed.

Lemma assignee_status_accepts_witness :
  issues_one_PUT (Task_assignee_status_setter 0 (VUnicode "later"))
                 Demo.env_full Demo.w0 (OTask Demo.the_task)
                 [("status", VUnicode "later")]
  /\ raises_before_http (Task_assignee_status_setter 0 (VInt 1))
                        Demo.env_full Demo.w0.
Proof.
  pose proof (assignee_status_accepts_four_statuses 0 Demo.the_task
                (VUnicode "later") Demo.env_full Demo.w0 eq_refl) as [A _].
  pose proof (assignee_status_accepts_four_statuses 0 Demo.the_task
                (VInt 1) Demo.env_full Demo.w0 eq_refl) as [_ B].
  split.
  - apply A. exists "later". split; [right; reflexivity|]. simpl. tauto.
  - apply B. intros [s [[H|H] _]]; discriminate H.
Defined.

(** ** The heap under the assignee setter and the accessors *)

#[global] Instance still_put api resource endpoint data :
  still (put api resource endpoint data).
Proof. intros E w. rewrite put_world. reflexivity. Qed.

#[global] Instance pure_getattr_id v : pure_ (getattr_id v).
Proof. unfold getattr_id. destruct v; apply _. Qed.

#[global] Instance pure_except {A} (m : M A) e :
  pure_ m -> pure_ (except_AttributeError m e).
Proof.
  intros Hm E w. unfold except_AttributeError. specialize (Hm E w).
  destruct (m E w) as [[a|[]] w1]; exact Hm.
Qed.

#[global] Instance pure_self_User self : pure_ (self_User self).
Proof. unfold self_User. apply pure_bind; [apply _|]. intros []; apply _. Qed.
#[global] Instance pure_self_Task self : pure_ (self_Task self).
Proof. unfold self_Task. apply pure_bind; [apply _|]. intros []; apply _. Qed.
#[global] Instance pure_self_Workspace self : pure_ (self_Workspace self).
Proof. unfold self_Workspace. apply pure_bind; [apply _|]. intros []; apply _. Qed.
#[global] Instance pure_self_Tag self : pure_ (self_Tag self).
Proof. unfold self_Tag. apply pure_bind; [apply _|]. intros []; apply _. Qed.
#[global] Instance pure_self_Project self : pure_ (self_Project self).
Proof. unfold self_Project. apply pure_bind; [apply _|]. intros []; apply _. Qed.
#[global] Instance pure_self_Story self : pure_ (self_Story self).
Proof. unfold self_Story. apply pure_bind; [apply _|]. intros []; apply _. Qed.

#[global] Instance still_assignee_setter depth self user :
  still (Task_assignee_setter depth self user).
Proof. induction depth as [|depth IH]; simpl; apply _. Qed.

(** X23: assigning [Task.assignee] never changes an object.  Whatever
    the argument, the answers of the service and the depth the
    interpreter allows, the heap after the call is the heap before it:
    the setter only sends, and the assignee is never recorded on the
    task. *)
Theorem assignee_setter_leaves_the_heap depth self user E w :
  heap (snd (Task_assignee_setter depth self user E w)) = heap w.
Proof. apply still_assignee_setter. Qed.

Existing Class extends.

#[global] Instance extends_still {A} (m : M A) : still m -> extends m | 100.
Proof. intros H E w. exists []. rewrite app_nil_r. apply H. Qed.

#[global] Instance extends_new o : extends (new o).
Proof. intros E w. exists [o]. reflexivity. Qed.

#[global] Instance extends_bind {A B} (m : M A) (k : A -> M B) :
  extends m -> (forall a, extends (k a)) -> extends (bind m k).
Proof.
  intros Hm Hk E w. rewrite run_bind. destruct (Hm E w) as [h Hh].
  destruct (m E w) as [[a|e] w1]; simpl in Hh.
  - destruct (Hk a E w1) as [h' Hh']. exists (h ++ h')%list.
    rewrite Hh', Hh, app_assoc. reflexivity.
  - exists h. exact Hh.
Qed.

#[global] Instance extends_if {A} (b : bool) (m1 m2 : M A) :
  extends m1 -> extends m2 -> extends (if b then m1 else m2).
Proof. destruct b; auto. Qed.

#[global] Instance extends_mapM {A B} (f : A -> M B) (l : list A) :
  (forall x, extends (f x)) -> extends (mapM f l).
Proof. intros Hf. induction l as [|x xs IH]; simpl; apply _. Qed.

#[global] Instance extends_wrap_each ctor iterable :
  (forall id, extends (ctor id)) -> extends (wrap_each ctor iterable).
Proof. intros Hc. unfold wrap_each. apply _. Qed.

#[global] Instance extends_User_init api id : extends (User_init api id).
Proof. unfold User_init. apply _. Qed.
#[global] Instance extends_Workspace_init api id :
  extends (Workspace_init api id).
Proof. unfold Workspace_init. apply _. Qed.
#[global] Instance extends_Story_init api id : extends (Story_init api id).
Proof. unfold Story_init. apply _. Qed.
#[global] Instance extends_Task_init api a b c kwargs :
  extends (Task_init api a b c kwargs).
Proof. unfold Task_init, fmt_suffix. cbv zeta. apply _. Qed.
#[global] Instance extends_Tag_init api a b c d :
  extends (Tag_init api a b c d).
Proof. unfold Tag_init. apply _. Qed.
#[global] Instance extends_Project_init api a b c d e :
  extends (Project_init api a b c d e).
Proof. unfold Project_init. apply _. Qed.

(** X24: reading a relationship never changes an existing object.  For
    every accessor that is not memoized, whatever the receiver, the state
    and the answers of the service, and whether the accessor returns or
    raises, the heap afterwards is the heap before with the newly built
    objects added at the end. *)
Theorem accessors_only_add_objects r self E w :
  memoized r = false ->
  exists h, heap (snd (access r self E w)) = (heap w ++ h)%list.
Proof.
  intros Hm.
  assert (H : extends (access r self)); [|apply H].
  destruct r; try discriminate Hm; simpl;
    [ unfold User_workspaces | unfold Task_parent | unfold Task_workspace
    | unfold Task_assignee | unfold Task_followers | unfold Task_projects
    | unfold Task_tags | unfold Task_subtasks | unfold Task_comments
    | unfold Workspace_users | unfold Workspace_projects | unfold Workspace_tags
    | unfold Tag_followers | unfold Tag_tasks
    | unfold Project_tasks | unfold Project_followers | unfold Project_comments
    | unfold Story_created_by ];
    unfold fmt_suffix; apply _.
Qed.

Lemma accessors_only_add_objects_witness :
  exists h,
    heap (snd (access R_Task_parent 0 Demo.env_full Demo.w0))
    = (heap Demo.w0 ++ h)%list.
Proof.
  exact (accessors_only_add_objects R_Task_parent 0 Demo.env_full Demo.w0
           eq_refl).
Defined.

(** ** A failed first access of the memoized workspace *)

Lemma bind_raise_inv {A B} (m : M A) (k : A -> M B) E w e w' :
  bind m k E w = (Raise e, w') ->
  m E w = (Raise e, w')
  \/ exists a w1, m E w = (Ret a, w1) /\ k a E w1 = (Raise e, w').
Proof.
  rewrite run_bind. destruct (m E w) as [[a|e0] w1]; intros H.
  - right. eauto.
  - left. inversion H. reflexivity.
Qed.

Lemma fetch_and_store_raise api resource endpoint self (f : value -> object)
    E w e w' :
  (jr <- get api resource endpoint ;;
   workspace <- lift (getitem jr "workspace") ;;
   id <- lift (getitem workspace "id") ;;
   ws <- Workspace_init api id ;;
   store self (f ws)) E w = (Raise e, w') ->
  heap w' = heap w.
Proof.
  intros H.
  apply bind_raise_inv in H as [H | [jr [w1 [Hget H]]]].
  { pose proof (still_get api resource endpoint E w) as Hs.
    rewrite H in Hs. exact Hs. }
  apply get_ret_inv in Hget. subst w1.
  apply bind_raise_inv in H as [H | [x [w2 [Hx H]]]].
  { unfold lift in H. inversion H. reflexivity. }
  apply lift_ret_inv in Hx as [_ ->].
  apply bind_raise_inv in H as [H | [id [w3 [Hid H]]]].
  { unfold lift in H. inversion H. reflexivity. }
  apply lift_ret_inv in Hid as [_ ->].
  apply bind_raise_inv in H as [H | [ws [w4 [_ H]]]].
  { pose proof (constructor_Workspace_init api id E
                  (sent w (GET_request E api resource endpoint))) as Hc.
    rewrite H in Hc. exact Hc. }
  unfold store in H. discriminate H.
Qed.

Lemma fetch_and_store_ret api resource endpoint self (f : value -> object)
    E w u w' :
  (jr <- get api resource endpoint ;;
   workspace <- lift (getitem jr "workspace") ;;
   id <- lift (getitem workspace "id") ;;
   ws <- Workspace_init api id ;;
   store self (f ws)) E w = (Ret u, w') ->
  exists x, heap w' = <[self := f (VObj (length (heap w)))]>
                        (heap w ++ [OWorkspace x])%list.
Proof.
  intros H.
  apply bind_ret_inv in H as [jr [wa [Ha H]]].
  apply bind_ret_inv in H as [wsj [wb [Hb H]]].
  apply bind_ret_inv in H as [id [wc [Hc H]]].
  apply bind_ret_inv in H as [ws [wd [Hd H]]].
  assert (Hfetch : (jr <- get api resource endpoint ;;
                    workspace <- lift (getitem jr "workspace") ;;
                    id <- lift (getitem workspace "id") ;;
                    Workspace_init api id) E w = (Ret ws, wd)).
  { rewrite run_bind, Ha. rewrite run_bind, Hb. rewrite run_bind, Hc.
    exact Hd. }
  apply fetch_workspace_ret in Hfetch as [wid [x [-> ->]]].
  unfold store in H. inversion H. exists x. reflexivity.
Qed.

(** X25: a first access of the memoized workspace that fails caches
    nothing.  When the [workspace] accessor of a tag or a project raises,
    whether in the GET of the record, in reading it or in the [Workspace]
    constructor, the heap is what it was; the attribute is still empty
    and the next access fetches again. *)
Theorem failed_workspace_access_caches_nothing r self o E w e w' :
  memoized r = true ->
  heap w !! self = Some o ->
  class_of o = relationship_class r ->
  access r self E w = (Raise e, w') ->
  heap w' = heap w
  /\ exists c, cached_workspace o = Some c /\ py_truthy c = false.
Proof.
  intros Hm Hself Hclass H.
  destruct r; try discriminate Hm; clear Hm;
    destruct o as [| | |t|p|]; try discriminate Hclass; clear Hclass;
    simpl access in H; simpl cached_workspace.
  - destruct (py_truthy (Tag__workspace t)) eqn:Hc.
    { rewrite (Tag_workspace_cached _ _ _ _ Hself Hc) in H. discriminate H. }
    split; [|eauto].
    unfold Tag_workspace in H.
    rewrite run_bind, (self_Tag_run _ _ _ _ Hself) in H. rewrite Hc in H.
    cbn [negb] in H.
    apply bind_raise_inv in H as [H | [u [w1 [Hbody H]]]].
    + apply fetch_and_store_raise
        with (f := fun ws => OTag (Tag_set__workspace ws t)) in H. exact H.
    + exfalso.
      apply fetch_and_store_ret
        with (f := fun ws => OTag (Tag_set__workspace ws t)) in Hbody
        as [x Hh].
      destruct (lookup_after_alloc (heap w) self (OTag t)
                  (OTag (Tag_set__workspace (VObj (length (heap w))) t))
                  (OWorkspace x) Hself) as [Hs _].
      rewrite <- Hh in Hs.
      rewrite run_bind, (self_Tag_run self _ E w1 Hs) in H. discriminate H.
  - destruct (py_truthy (Project__workspace p)) eqn:Hc.
    { rewrite (Project_workspace_cached _ _ _ _ Hself Hc) in H.
      discriminate H. }
    split; [|eauto].
    unfold Project_workspace in H.
    rewrite run_bind, (self_Project_run _ _ _ _ Hself) in H. rewrite Hc in H.
    cbn [negb] in H.
    apply bind_raise_inv in H as [H | [u [w1 [Hbody H]]]].
    + apply fetch_and_store_raise
        with (f := fun ws => OProject (Project_set__workspace ws p)) in H.
      exact H.
    + exfalso.
      apply fetch_and_store_ret
        with (f := fun ws => OProject (Project_set__workspace ws p)) in Hbody
        as [x Hh].
      destruct (lookup_after_alloc (heap w) self (OProject p)
                  (OProject (Project_set__workspace (VObj (length (heap w))) p))
                  (OWorkspace x) Hself) as [Hs _].
      rewrite <- Hh in Hs.
      rewrite run_bind, (self_Project_run self _ E w1 Hs) in H.
      discriminate H.
Qed.

Lemma failed_workspace_access_witness :
  heap (snd (Tag_workspace 1 Demo.env_html Demo.w0)) = heap Demo.w0
  /\ exists c, cached_workspace (OTag Demo.the_tag) = Some c
               /\ py_truthy c = false.
Proof.
  exact (failed_workspace_access_caches_nothing R_Tag_workspace 1
           (OTag Demo.the_tag) Demo.env_html Demo.w0 TypeError
           (snd (Tag_workspace 1 Demo.env_html Demo.w0))
           eq_refl eq_refl eq_refl eq_refl).
Defined.
